(** * hookah-master-bot: the data-access layer (Database / DatabaseExecutor)

  Shallow embedding of the two variants of [database.py]:
  - the legacy one, [database/database.py], whose methods take raw SQL
    fragments as strings, and
  - the later one, [src/hookah_master_helper/database/database.py], whose
    [fetchone], [update] and [insert] bind values through placeholders.

  Python's [sqlite3] module is the environment of this code.  It is
  modelled in [Sqlite3]: an engine interprets a statement text with its
  bound parameters on a database; a connection has a closed flag, a
  transaction flag and a view of the database; a cursor holds the rows of
  the last statement.  [MiniSql] is a small executable engine for the SQL
  subset the executor emits. *)

From Stdlib Require Import String Ascii List ZArith Lia Bool DecimalString.
Import ListNotations.
Open Scope list_scope.
Open Scope string_scope.

(** ** Python-level helpers *)

Module Py.

(** [str.join]: [sep.join(parts)]. *)
Definition join (sep : string) (parts : list string) : string :=
  String.concat sep parts.

(** Truth value of an optional string argument: [None] and [''] are falsy. *)
Definition truthy_str (o : option string) : bool :=
  match o with
  | None => false
  | Some s => negb (s =? "")
  end.

(** Truth value of an optional list or tuple: [None] and the empty
    sequence are falsy. *)
Definition truthy_seq {A : Type} (o : option (list A)) : bool :=
  match o with
  | None | Some [] => false
  | Some (_ :: _) => true
  end.

(** The value of an optional argument once it is known to be truthy. *)
Definition str_of (o : option string) : string :=
  match o with Some s => s | None => EmptyString end.

Definition seq_of {A : Type} (o : option (list A)) : list A :=
  match o with Some l => l | None => [] end.

(** The newline of a ['\n'] in a message. *)
Definition nl : string := String "010"%char EmptyString.

(** [str] of a tuple, as an f-string formats it; [repr] is Python's. *)
Definition str_tuple {A : Type} (repr : A -> string) (t : list A) : string :=
  match t with
  | [x] => "(" ++ repr x ++ ",)"
  | _ => "(" ++ join ", " (map repr t) ++ ")"
  end.

End Py.

(** ** The sqlite3 module *)

Module Sqlite3.

Inductive value : Type :=
| Null
| Int (n : Z)
| Text (s : string).

Definition row : Type := list value.

(** The subclasses of [sqlite3.Error] that matter here. *)
Inductive error : Type :=
| IntegrityError (msg : string)
| OperationalError (msg : string)
| ProgrammingError (msg : string).

Definition message (e : error) : string :=
  match e with
  | IntegrityError m | OperationalError m | ProgrammingError m => m
  end.

(** What a statement that ran leaves behind: the new database, the rows it
    produced and the number of rows it changed. *)
Record reply (db : Type) : Type := mkReply {
  new_db : db;
  result_set : list row;
  affected : Z
}.
Arguments mkReply {db}.
Arguments new_db {db}.
Arguments result_set {db}.
Arguments affected {db}.

(** An SQL engine.  A statement that fails returns only the error: the
    database is as it was before the statement. *)
Record engine : Type := mkEngine {
  db : Type;
  run : string -> list value -> db -> error + reply db;
  table_rows : db -> string -> list row
}.

Definition is_space (c : ascii) : bool :=
  (c =? " ")%char || (c =? "009")%char || (c =? "010")%char || (c =? "013")%char.

Definition upper_ascii (c : ascii) : ascii :=
  let n := nat_of_ascii c in
  if (97 <=? n)%nat && (n <=? 122)%nat then ascii_of_nat (n - 32) else c.

Fixpoint upper (s : string) : string :=
  match s with
  | EmptyString => EmptyString
  | String c s' => String (upper_ascii c) (upper s')
  end.

Fixpoint lstrip (s : string) : string :=
  match s with
  | EmptyString => EmptyString
  | String c s' => if is_space c then lstrip s' else s
  end.

Fixpoint starts_with (p s : string) : bool :=
  match p, s with
  | EmptyString, _ => true
  | String a p', String b s' => (a =? b)%char && starts_with p' s'
  | String _ _, EmptyString => false
  end.

(** The module opens a transaction by itself before a statement that
    starts with one of these words. *)
Definition is_dml (query : string) : bool :=
  let q := upper (lstrip query) in
  existsb (fun k => starts_with k q) ["INSERT"; "UPDATE"; "DELETE"; "REPLACE"].

End Sqlite3.

Import Sqlite3.


(** ** A reference engine for the SQL subset the executor emits

    Statements: [CREATE TABLE IF NOT EXISTS], [SELECT [DISTINCT]],
    [UPDATE ... SET ... [WHERE ...]] and [INSERT INTO ... VALUES].  A
    condition is a conjunction of [column = value]; a value is a literal or
    a [?] placeholder.  Columns declared [UNIQUE] or [PRIMARY KEY] hold no
    value twice, and columns declared [NOT NULL] hold no NULL.  Anything
    else is rejected as a syntax error.

    This is a small engine of its own, not SQLite, and it is narrower:
    - values are compared as they are, with no column affinity: the number 5
      and the text '5' are never equal, where SQLite converts one to the
      other by the declared type of the column;
    - a token between double quotes is read like one between single quotes,
      where SQLite first looks for a column of that name;
    - assignments and conditions are [name = value] only: no expression on
      the right, no operator other than [=].
    The theorems that hold for any engine do not depend on it; those stated
    on it say so. *)

Module MiniSql.

(** *** Lexer *)

Inductive token : Type :=
| TWord (w : string)
| TText (s : string)
| TLParen
| TRParen
| TComma
| TEq
| TQmark
| TStar.

Inductive lstate : Type :=
| Idle
| InWord (acc : string)
| InText (quote : ascii) (acc : string).

Definition punct (c : ascii) : option token :=
  if (c =? "(")%char then Some TLParen
  else if (c =? ")")%char then Some TRParen
  else if (c =? ",")%char then Some TComma
  else if (c =? "=")%char then Some TEq
  else if (c =? "?")%char then Some TQmark
  else if (c =? "*")%char then Some TStar
  else None.

(** The single and the double quote. *)
Definition is_quote (c : ascii) : bool :=
  (c =? "039")%char || (c =? "034")%char.

Definition flush (st : lstate) : list token :=
  match st with
  | InWord acc => [TWord acc]
  | _ => []
  end.

Definition word_so_far (st : lstate) : string :=
  match st with
  | InWord acc => acc
  | _ => EmptyString
  end.

Definition lex_step (st : lstate) (c : ascii) : lstate * list token :=
  match st with
  | InText q acc =>
      if (c =? q)%char then (Idle, [TText acc])
      else (InText q (acc ++ String c EmptyString), [])
  | _ =>
      if is_space c then (Idle, flush st)
      else if is_quote c then (InText c EmptyString, flush st)
      else match punct c with
           | Some t => (Idle, (flush st ++ [t])%list)
           | None => (InWord (word_so_far st ++ String c EmptyString), [])
           end
  end.

Fixpoint lex_run (st : lstate) (s : string) : lstate * list token :=
  match s with
  | EmptyString => (st, [])
  | String c s' =>
      let (st1, t1) := lex_step st c in
      let (st2, t2) := lex_run st1 s' in
      (st2, (t1 ++ t2)%list)
  end.

(** [None]: a quote is left open. *)
Definition lex (s : string) : option (list token) :=
  match lex_run Idle s with
  | (InText _ _, _) => None
  | (st, ts) => Some (ts ++ flush st)%list
  end.

(** *** Syntax *)

Inductive expr : Type :=
| ELit (v : value)
| EParam.

Record coldef : Type := mkCol {
  col_name : string;
  col_unique : bool;
  col_not_null : bool
}.

Inductive stmt : Type :=
| SCreate (t : string) (cols : list coldef)
| SSelect (distinct : bool) (fields : option (list string)) (t : string)
          (cond : list (string * expr))
| SUpdate (t : string) (sets : list (string * expr)) (cond : list (string * expr))
| SInsert (t : string) (fields : option (list string)) (vals : list expr).

Definition is_kw (k : string) (t : token) : bool :=
  match t with
  | TWord w => upper w =? k
  | _ => false
  end.

Definition is_comma (t : token) : bool :=
  match t with
  | TComma => true
  | _ => false
  end.

Definition digit_of (c : ascii) : option Z :=
  let n := nat_of_ascii c in
  if (48 <=? n)%nat && (n <=? 57)%nat then Some (Z.of_nat (n - 48)) else None.

Fixpoint digits (acc : Z) (s : string) : option Z :=
  match s with
  | EmptyString => Some acc
  | String c s' =>
      match digit_of c with
      | Some d => digits (10 * acc + d) s'
      | None => None
      end
  end.

Definition parse_int (w : string) : option Z :=
  match w with
  | EmptyString => None
  | String c s' =>
      if (c =? "-")%char
      then match s' with
           | EmptyString => None
           | String _ _ => option_map Z.opp (digits 0 s')
           end
      else digits 0 w
  end.

(** A value: a placeholder, a quoted text, NULL or a whole number.  A token
    between double quotes is a text here whatever the columns are; SQLite
    takes it for a column when the table has one of that name, and for a
    text only otherwise. *)
Definition expr_of (t : token) : option expr :=
  match t with
  | TQmark => Some EParam
  | TText s => Some (ELit (Text s))
  | TWord w =>
      if upper w =? "NULL" then Some (ELit Null)
      else option_map (fun n => ELit (Int n)) (parse_int w)
  | _ => None
  end.

(** A column or table name: a word, or a quoted name. *)
Definition name_of (t : token) : option string :=
  match t with
  | TWord w => Some w
  | TText s => Some s
  | _ => None
  end.

(** [name = value] pairs, separated by a token [sep] accepts.  Nothing else
    is read: an expression on the right ([salary * 1.1]) or another operator
    ([potency > 3]), which SQLite takes, is a syntax error here. *)
Fixpoint parse_pairs (sep : token -> bool) (toks : list token)
  : option (list (string * expr)) :=
  match toks with
  | c :: TEq :: e :: rest =>
      match name_of c, expr_of e with
      | Some c, Some e =>
          match rest with
          | [] => Some [(c, e)]
          | s :: rest' =>
              if sep s then option_map (cons (c, e)) (parse_pairs sep rest') else None
          end
      | _, _ => None
      end
  | _ => None
  end.

(** A non-empty list of items, each one token, separated by commas. *)
Fixpoint parse_list {A : Type} (item : token -> option A) (toks : list token)
  : option (list A) :=
  match toks with
  | x :: rest =>
      match item x with
      | Some a =>
          match rest with
          | [] => Some [a]
          | TComma :: rest' => option_map (cons a) (parse_list item rest')
          | _ => None
          end
      | None => None
      end
  | [] => None
  end.

(** The tokens before the first keyword [k], and those after it if any. *)
Fixpoint break_kw (k : string) (toks : list token) : list token * option (list token) :=
  match toks with
  | [] => ([], None)
  | t :: rest =>
      if is_kw k t then ([], Some rest)
      else let (before, after) := break_kw k rest in (t :: before, after)
  end.

(** The tokens up to the closing parenthesis, and those after it. *)
Fixpoint until_rparen (toks : list token) : option (list token * list token) :=
  match toks with
  | [] => None
  | TRParen :: rest => Some ([], rest)
  | t :: rest => option_map (fun '(inner, after) => (t :: inner, after)) (until_rparen rest)
  end.

(** The groups of tokens between commas. *)
Fixpoint split_commas (toks : list token) : list (list token) :=
  match toks with
  | [] => [[]]
  | TComma :: rest => [] :: split_commas rest
  | t :: rest =>
      match split_commas rest with
      | g :: gs => (t :: g) :: gs
      | [] => [[t]]
      end
  end.

(** The words [NOT NULL], one after the other, are among the tokens. *)
Fixpoint has_not_null (ty : list token) : bool :=
  match ty with
  | a :: rest =>
      match rest with
      | b :: _ => (is_kw "NOT" a && is_kw "NULL" b) || has_not_null rest
      | [] => false
      end
  | [] => false
  end.

(** [name type-words...]; the column is unique when a type word is
    [UNIQUE] or [PRIMARY], and takes no NULL when the words [NOT NULL] are
    there. *)
Definition parse_coldef (toks : list token) : option coldef :=
  match toks with
  | TWord n :: ty =>
      if forallb (fun t => match t with TWord _ => true | _ => false end) ty
      then Some (mkCol n (existsb (fun t => is_kw "UNIQUE" t || is_kw "PRIMARY" t) ty)
                       (has_not_null ty))
      else None
  | _ => None
  end.

Fixpoint all_some {A : Type} (l : list (option A)) : option (list A) :=
  match l with
  | [] => Some []
  | Some a :: rest => option_map (cons a) (all_some rest)
  | None :: _ => None
  end.

Definition parse_where (after : option (list token)) : option (list (string * expr)) :=
  match after with
  | None => Some []
  | Some toks => parse_pairs (is_kw "AND") toks
  end.

Definition parse_create (toks : list token) : option stmt :=
  match toks with
  | k1 :: k2 :: k3 :: k4 :: t :: TLParen :: body =>
      if is_kw "TABLE" k1 && is_kw "IF" k2 && is_kw "NOT" k3 && is_kw "EXISTS" k4 then
        match name_of t, until_rparen body with
        | Some t, Some (inner, []) =>
            option_map (SCreate t) (all_some (map parse_coldef (split_commas inner)))
        | _, _ => None
        end
      else None
  | _ => None
  end.

Definition parse_fields (toks : list token) : option (option (list string)) :=
  match toks with
  | [TStar] => Some None
  | _ => option_map Some (parse_list name_of toks)
  end.

Definition parse_select (toks : list token) : option stmt :=
  let (distinct, toks) :=
    match toks with
    | t :: rest => if is_kw "DISTINCT" t then (true, rest) else (false, toks)
    | [] => (false, toks)
    end in
  match break_kw "FROM" toks with
  | (fields, Some (t :: rest)) =>
      let (nothing, after) := break_kw "WHERE" rest in
      match nothing, parse_fields fields, name_of t, parse_where after with
      | [], Some fields, Some t, Some cond => Some (SSelect distinct fields t cond)
      | _, _, _, _ => None
      end
  | _ => None
  end.

Definition parse_update (toks : list token) : option stmt :=
  match toks with
  | t :: k :: rest =>
      if is_kw "SET" k then
        let (sets, after) := break_kw "WHERE" rest in
        match name_of t, parse_pairs is_comma sets, parse_where after with
        | Some t, Some sets, Some cond => Some (SUpdate t sets cond)
        | _, _, _ => None
        end
      else None
  | _ => None
  end.

Definition parse_values (toks : list token) : option (list expr) :=
  match toks with
  | k :: TLParen :: body =>
      if is_kw "VALUES" k then
        match until_rparen body with
        | Some (inner, []) => parse_list expr_of inner
        | _ => None
        end
      else None
  | _ => None
  end.

Definition parse_insert (toks : list token) : option stmt :=
  match toks with
  | k :: t :: rest =>
      if is_kw "INTO" k then
        match name_of t, rest with
        | Some t, TLParen :: body =>
            match until_rparen body with
            | Some (inner, after) =>
                match parse_list name_of inner, parse_values after with
                | Some fields, Some vals => Some (SInsert t (Some fields) vals)
                | _, _ => None
                end
            | None => None
            end
        | Some t, _ => option_map (SInsert t None) (parse_values rest)
        | None, _ => None
        end
      else None
  | _ => None
  end.

Definition parse (toks : list token) : option stmt :=
  match toks with
  | k :: rest =>
      if is_kw "CREATE" k then parse_create rest
      else if is_kw "SELECT" k then parse_select rest
      else if is_kw "UPDATE" k then parse_update rest
      else if is_kw "INSERT" k then parse_insert rest
      else None
  | [] => None
  end.

(** *** Tables and the meaning of statements *)

Record table : Type := mkTable {
  columns : list coldef;
  rows : list row
}.

Definition database : Type := list (string * table).

Fixpoint lookup (t : string) (d : database) : option table :=
  match d with
  | [] => None
  | (n, tb) :: rest => if n =? t then Some tb else lookup t rest
  end.

Fixpoint store (t : string) (tb : table) (d : database) : database :=
  match d with
  | [] => [(t, tb)]
  | (n, old) :: rest => if n =? t then (n, tb) :: rest else (n, old) :: store t tb rest
  end.

Definition table_rows (d : database) (t : string) : list row :=
  match lookup t d with
  | Some tb => rows tb
  | None => []
  end.

(** Values take the place of the placeholders, in the order of the text;
    the second component is what is left of the parameters. *)
Fixpoint bind_pairs (l : list (string * expr)) (ps : list value)
  : option (list (string * value) * list value) :=
  match l with
  | [] => Some ([], ps)
  | (c, ELit v) :: l' =>
      option_map (fun '(bs, r) => ((c, v) :: bs, r)) (bind_pairs l' ps)
  | (c, EParam) :: l' =>
      match ps with
      | [] => None
      | p :: ps' => option_map (fun '(bs, r) => ((c, p) :: bs, r)) (bind_pairs l' ps')
      end
  end.

Fixpoint bind_exprs (es : list expr) (ps : list value) : option (list value * list value) :=
  match es with
  | [] => Some ([], ps)
  | ELit v :: es' => option_map (fun '(vs, r) => (v :: vs, r)) (bind_exprs es' ps)
  | EParam :: es' =>
      match ps with
      | [] => None
      | p :: ps' => option_map (fun '(vs, r) => (p :: vs, r)) (bind_exprs es' ps')
      end
  end.

Fixpoint col_index (c : string) (cols : list coldef) : option nat :=
  match cols with
  | [] => None
  | k :: rest => if col_name k =? c then Some 0%nat else option_map S (col_index c rest)
  end.

Fixpoint set_nth (i : nat) (v : value) (r : row) : row :=
  match r, i with
  | [], _ => []
  | _ :: r', O => v :: r'
  | x :: r', S i' => x :: set_nth i' v r'
  end.

(** SQL equality: NULL equals nothing.  A number and a text are never
    equal here; SQLite first converts one to the other by the declared type
    of the column, so that in an INTEGER column 5 is equal to '5'. *)
Definition value_eqb (a b : value) : bool :=
  match a, b with
  | Int x, Int y => (x =? y)%Z
  | Text x, Text y => x =? y
  | _, _ => false
  end.

(** Sameness of two values, as DISTINCT sees it: NULL is the same as NULL. *)
Definition same_value (a b : value) : bool :=
  match a, b with
  | Null, Null => true
  | _, _ => value_eqb a b
  end.

Fixpoint same_row (a b : row) : bool :=
  match a, b with
  | [], [] => true
  | x :: a', y :: b' => same_value x y && same_row a' b'
  | _, _ => false
  end.

Definition known (cols : list coldef) (c : string) : bool :=
  match col_index c cols with
  | Some _ => true
  | None => false
  end.

(** The row satisfies every [column = value] of the condition. *)
Definition holds (cols : list coldef) (cond : list (string * value)) (r : row) : bool :=
  forallb (fun '(c, v) =>
             match col_index c cols with
             | Some i => value_eqb (nth i r Null) v
             | None => false
             end) cond.

(** The row after the assignments, made from left to right. *)
Definition assign (cols : list coldef) (sets : list (string * value)) (r : row) : row :=
  fold_left (fun r '(c, v) =>
               match col_index c cols with
               | Some i => set_nth i v r
               | None => r
               end) sets r.

Fixpoint distinct_values (l : list value) : bool :=
  match l with
  | [] => true
  | v :: rest => negb (existsb (value_eqb v) rest) && distinct_values rest
  end.

(** No unique column holds a value twice. *)
Definition unique_ok (cols : list coldef) (rs : list row) : bool :=
  forallb (fun i => negb (col_unique (nth i cols (mkCol EmptyString false false)))
                    || distinct_values (map (fun r => nth i r Null) rs))
          (seq 0 (length cols)).

Fixpoint dedupe (rs : list row) : list row :=
  match rs with
  | [] => []
  | r :: rest => r :: filter (fun r' => negb (same_row r r')) (dedupe rest)
  end.

Definition bindings_error : error :=
  ProgrammingError "Incorrect number of bindings supplied.".

Definition no_such_table (t : string) : error :=
  OperationalError ("no such table: " ++ t).

Definition no_such_column : error := OperationalError "no such column".

Definition unique_failed (t c : string) : error :=
  IntegrityError ("UNIQUE constraint failed: " ++ t ++ "." ++ c).

(** The first unique column that holds a value twice. *)
Definition unique_culprit (cols : list coldef) (rs : list row) : string :=
  match find (fun i => col_unique (nth i cols (mkCol EmptyString false false))
                       && negb (distinct_values (map (fun r => nth i r Null) rs)))
             (seq 0 (length cols)) with
  | Some i => col_name (nth i cols (mkCol EmptyString false false))
  | None => EmptyString
  end.

Definition is_null (v : value) : bool :=
  match v with
  | Null => true
  | _ => false
  end.

(** The first column declared [NOT NULL] under which the row holds NULL. *)
Fixpoint null_in (cols : list coldef) (r : row) : option string :=
  match cols, r with
  | k :: cols', v :: r' =>
      if col_not_null k && is_null v then Some (col_name k) else null_in cols' r'
  | _, _ => None
  end.

(** The same, for the first row that has one. *)
Fixpoint null_among (cols : list coldef) (rs : list row) : option string :=
  match rs with
  | [] => None
  | r :: rest =>
      match null_in cols r with
      | Some c => Some c
      | None => null_among cols rest
      end
  end.

Definition not_null_failed (t c : string) : error :=
  IntegrityError ("NOT NULL constraint failed: " ++ t ++ "." ++ c).

Definition exec_create (t : string) (cols : list coldef) (d : database)
  : error + reply database :=
  match lookup t d with
  | Some _ => inr (mkReply d [] (-1))
  | None => inr (mkReply (d ++ [(t, mkTable cols [])])%list [] (-1))
  end.

Definition exec_select (distinct : bool) (fields : option (list string)) (t : string)
  (cond : list (string * value)) (d : database) : error + reply database :=
  match lookup t d with
  | None => inl (no_such_table t)
  | Some tb =>
      let cols := columns tb in
      if forallb (known cols) (map fst cond)
         && forallb (known cols) (match fields with Some fs => fs | None => [] end)
      then
        let matching := filter (holds cols cond) (rows tb) in
        let project (r : row) : row :=
          match fields with
          | None => r
          | Some fs =>
              map (fun c => match col_index c cols with
                            | Some i => nth i r Null
                            | None => Null
                            end) fs
          end in
        let out := map project matching in
        inr (mkReply d (if distinct then dedupe out else out) (-1))
      else inl no_such_column
  end.

Definition exec_update (t : string) (sets cond : list (string * value)) (d : database)
  : error + reply database :=
  match lookup t d with
  | None => inl (no_such_table t)
  | Some tb =>
      let cols := columns tb in
      if forallb (known cols) (map fst sets) && forallb (known cols) (map fst cond) then
        let rows' := map (fun r => if holds cols cond r then assign cols sets r else r) (rows tb) in
        match null_among cols rows' with
        | Some c => inl (not_null_failed t c)
        | None =>
            if unique_ok cols rows'
            then inr (mkReply (store t (mkTable cols rows') d) []
                              (Z.of_nat (length (filter (holds cols cond) (rows tb)))))
            else inl (unique_failed t (unique_culprit cols rows'))
        end
      else inl no_such_column
  end.

Definition exec_insert (t : string) (fields : option (list string)) (vals : list value)
  (d : database) : error + reply database :=
  match lookup t d with
  | None => inl (no_such_table t)
  | Some tb =>
      let cols := columns tb in
      let new_row :=
        match fields with
        | None =>
            if (length vals =? length cols)%nat then Some vals else None
        | Some fs =>
            if forallb (known cols) fs && (length vals =? length fs)%nat
            then Some (assign cols (combine fs vals) (repeat Null (length cols)))
            else None
        end in
      match new_row with
      | None => inl (OperationalError "values do not fit the columns")
      | Some r =>
          match null_in cols r with
          | Some c => inl (not_null_failed t c)
          | None =>
              let rows' := (rows tb ++ [r])%list in
              if unique_ok cols rows'
              then inr (mkReply (store t (mkTable cols rows') d) [] 1)
              else inl (unique_failed t (unique_culprit cols rows'))
          end
      end
  end.

Definition exec (s : stmt) (params : list value) (d : database) : error + reply database :=
  match s with
  | SCreate t cols =>
      match params with
      | [] => exec_create t cols d
      | _ :: _ => inl bindings_error
      end
  | SSelect distinct fields t cond =>
      match bind_pairs cond params with
      | Some (cond, []) => exec_select distinct fields t cond d
      | _ => inl bindings_error
      end
  | SUpdate t sets cond =>
      match bind_pairs sets params with
      | Some (sets, params') =>
          match bind_pairs cond params' with
          | Some (cond, []) => exec_update t sets cond d
          | _ => inl bindings_error
          end
      | None => inl bindings_error
      end
  | SInsert t fields vals =>
      match bind_exprs vals params with
      | Some (vals, []) => exec_insert t fields vals d
      | _ => inl bindings_error
      end
  end.

Definition run (query : string) (params : list value) (d : database)
  : error + reply database :=
  match lex query with
  | None => inl (OperationalError "unrecognized token")
  | Some toks =>
      match parse toks with
      | None => inl (OperationalError "syntax error")
      | Some s => exec s params d
      end
  end.

Definition mini : engine := mkEngine database run table_rows.

(** A word that can stand for a table or a column: no space, quote or
    punctuation in it, and not the keyword WHERE. *)
Definition word_char (c : ascii) : bool :=
  negb (is_space c) && negb (is_quote c)
  && match punct c with Some _ => false | None => true end.

Fixpoint all_chars (p : ascii -> bool) (s : string) : bool :=
  match s with
  | EmptyString => true
  | String c s' => p c && all_chars p s'
  end.

Definition is_ident (s : string) : bool :=
  match s with
  | EmptyString => false
  | String _ _ => all_chars word_char s && negb (upper s =? "WHERE")
  end.

(** A fragment of SQL that is whole on its own (every quote closed) and
    brings no WHERE of its own. *)
Definition clean_fragment (s : string) : bool :=
  match lex s with
  | Some toks => negb (existsb (is_kw "WHERE") toks)
  | None => false
  end.

(** The columns of a table, or none when there is no such table. *)
Definition table_columns (d : database) (t : string) : list coldef :=
  match lookup t d with
  | Some tb => columns tb
  | None => []
  end.

(** The tokens of [name = ?] for each name, with [sep] between them. *)
Fixpoint placeholder_tokens (sep : token) (names : list string) : list token :=
  match names with
  | [] => []
  | [n] => [TWord n; TEq; TQmark]
  | n :: rest => TWord n :: TEq :: TQmark :: sep :: placeholder_tokens sep rest
  end.

(** What a SET fragment and a WHERE fragment mean on their own. *)
Definition assignments_of (fragment : string) (params : list value)
  : option (list (string * value) * list value) :=
  match lex fragment with
  | Some toks =>
      match parse_pairs is_comma toks with
      | Some sets => bind_pairs sets params
      | None => None
      end
  | None => None
  end.

Definition condition_of (fragment : string) (params : list value)
  : option (list (string * value) * list value) :=
  match lex fragment with
  | Some toks =>
      match parse_pairs (is_kw "AND") toks with
      | Some cond => bind_pairs cond params
      | None => None
      end
  | None => None
  end.

(** What the assignments of a SET fragment make of a row of a table with the
    columns [cols], and whether a row satisfies a condition. *)
Definition assigned (cols : list coldef) (fragment : string) (r : row) : row :=
  match assignments_of fragment [] with
  | Some (sets, _) => assign cols sets r
  | None => r
  end.

Definition satisfies (cols : list coldef) (fragment : string) (r : row) : bool :=
  match condition_of fragment [] with
  | Some (cond, _) => holds cols cond r
  | None => false
  end.

End MiniSql.

(** ** Exceptions and outcomes of a call *)

Inductive exn : Type :=
| RuntimeError (msg : string)
| ValueError (msg : string)
| AttributeError (msg : string)
| SqliteError (e : Sqlite3.error).

Inductive outcome (A : Type) : Type :=
| Return (a : A)
| Raise (e : exn).
Arguments Return {A}.
Arguments Raise {A}.

(** What a method hands back where the caller treats it as an object. *)
Inductive pyobj : Type :=
| PyNone
| PyCursor.

(** ** What both variants share: the state of a Database object, the calls
    into sqlite3, and the methods of [Database] *)

Module Common.

Section WithEngine.

Variable E : engine.

Record Connection : Type := mkConnection {
  closed : bool;
  in_transaction : bool;
  view : db E
}.

Record Cursor : Type := mkCursor {
  pending : list row;
  rowcount : Z
}.

Record Database : Type := mkDatabase {
  db_name : string;
  connection : option Connection;
  cursor : option Cursor
}.

Inductive event : Type :=
| EvConnect (path : string)
| EvExecute (query : string) (params : list value)
| EvCommit
| EvClose.

(** The object, the database file it is bound to, and the calls that
    reached the database so far (latest last). *)
Record world : Type := mkWorld {
  self : Database;
  disk : db E;
  trace : list event
}.

Definition M (A : Type) : Type := world -> outcome A * world.

Definition ret {A : Type} (a : A) : M A := fun w => (Return a, w).

Definition raise {A : Type} (e : exn) : M A := fun w => (Raise e, w).

Definition bind {A B : Type} (m : M A) (k : A -> M B) : M B :=
  fun w =>
    match m w with
    | (Return a, w') => k a w'
    | (Raise e, w') => (Raise e, w')
    end.

(** [try: body / except <class> as e: handler]; [handler e] is [None] when
    the exception is not of the class. *)
Definition try_except {A : Type} (body : M A) (handler : exn -> option (M A)) : M A :=
  fun w =>
    match body w with
    | (Return a, w') => (Return a, w')
    | (Raise e, w') =>
        match handler e with
        | Some h => h w'
        | None => (Raise e, w')
        end
    end.

Definition closed_msg : string := "Cannot operate on a closed database.".

(** [self.cursor.execute(query, params)].  On a closed connection the call
    fails before anything reaches the engine.  Outside a transaction the
    statement's effect is on disk at once. *)
Definition cursor_execute (query : string) (params : list value) : M pyobj :=
  fun w =>
    let o := self w in
    match cursor o, connection o with
    | None, _ => (Raise (AttributeError "'NoneType' object has no attribute 'execute'"), w)
    | Some _, None => (Raise (SqliteError (ProgrammingError closed_msg)), w)
    | Some _, Some c =>
        if closed c then (Raise (SqliteError (ProgrammingError closed_msg)), w)
        else
          let tx := in_transaction c || is_dml query in
          let tr := (trace w ++ [EvExecute query params])%list in
          match run E query params (view c) with
          | inl e =>
              (Raise (SqliteError e),
               mkWorld (mkDatabase (db_name o) (Some (mkConnection false tx (view c)))
                                   (Some (mkCursor [] (-1))))
                       (disk w) tr)
          | inr r =>
              (Return PyCursor,
               mkWorld (mkDatabase (db_name o) (Some (mkConnection false tx (new_db r)))
                                   (Some (mkCursor (result_set r) (affected r))))
                       (if tx then disk w else new_db r) tr)
          end
    end.

(** [self.connection.commit()] *)
Definition connection_commit : M unit :=
  fun w =>
    let o := self w in
    match connection o with
    | None => (Raise (AttributeError "'NoneType' object has no attribute 'commit'"), w)
    | Some c =>
        if closed c then (Raise (SqliteError (ProgrammingError closed_msg)), w)
        else (Return tt,
              mkWorld (mkDatabase (db_name o) (Some (mkConnection false false (view c))) (cursor o))
                      (view c) (trace w ++ [EvCommit])%list)
    end.

(** [self.connection.close()]: what was not committed is dropped. *)
Definition connection_close : M unit :=
  fun w =>
    let o := self w in
    match connection o with
    | None => (Raise (AttributeError "'NoneType' object has no attribute 'close'"), w)
    | Some c =>
        if closed c then (Return tt, w)
        else (Return tt,
              mkWorld (mkDatabase (db_name o) (Some (mkConnection true false (disk w))) (cursor o))
                      (disk w) (trace w ++ [EvClose])%list)
    end.

(** The rows a cursor hands out: [take] of them, the rest stay pending. *)
Definition cursor_fetch {A : Type} (take : list row -> A * list row) : M A :=
  fun w =>
    let o := self w in
    match cursor o, connection o with
    | None, _ => (Raise (AttributeError "'NoneType' object has no attribute 'fetchone'"), w)
    | Some _, None => (Raise (SqliteError (ProgrammingError closed_msg)), w)
    | Some cu, Some c =>
        if closed c then (Raise (SqliteError (ProgrammingError closed_msg)), w)
        else
          let (a, rest) := take (pending cu) in
          (Return a,
           mkWorld (mkDatabase (db_name o) (Some c) (Some (mkCursor rest (rowcount cu))))
                   (disk w) (trace w))
    end.

(** [self.cursor.fetchone()]: the next row, or [None]. *)
Definition cursor_fetchone : M (option row) :=
  cursor_fetch (fun rows => match rows with [] => (None, []) | r :: rest => (Some r, rest) end).

(** [self.cursor.fetchmany(size=n)] *)
Definition cursor_fetchmany (size : nat) : M (list row) :=
  cursor_fetch (fun rows => (firstn size rows, skipn size rows)).

(** [self.cursor.fetchall()] *)
Definition cursor_fetchall : M (list row) :=
  cursor_fetch (fun rows => (rows, [])).

(** [obj.rowcount] *)
Definition getattr_rowcount (obj : pyobj) : M Z :=
  fun w =>
    match obj with
    | PyNone => (Raise (AttributeError "'NoneType' object has no attribute 'rowcount'"), w)
    | PyCursor =>
        match cursor (self w) with
        | Some cu => (Return (rowcount cu), w)
        | None => (Raise (AttributeError "'NoneType' object has no attribute 'rowcount'"), w)
        end
    end.

(** *** ensure_context *)

Definition ensure_context {A : Type} (method : M A) : M A :=
  fun w =>
    match connection (self w) with
    | None => (Raise (RuntimeError "Database must be used within a 'with' statement."), w)
    | Some _ => method w
    end.

(** *** class Database *)

(** The directory the variant keeps its database file in. *)
Variable db_dir : string.

Definition __init__ (name : string) : Database :=
  mkDatabase (name ++ ".db") None None.

Definition __enter__ : M unit :=
  fun w =>
    let o := self w in
    (Return tt,
     mkWorld (mkDatabase (db_name o)
                         (Some (mkConnection false false (disk w)))
                         (Some (mkCursor [] (-1))))
             (disk w) (trace w ++ [EvConnect (db_dir ++ db_name o)])%list).

Definition __exit__ : M unit := connection_close.

(** [execute] runs the statement and returns nothing: the cursor that
    [cursor.execute] hands back is dropped. *)
Definition execute (query : string) (params : list value) : M pyobj :=
  ensure_context
    (bind (try_except (cursor_execute query params)
                      (fun e => match e with
                                | SqliteError x => Some (raise (SqliteError x))
                                | _ => None
                                end))
          (fun _ => ret PyNone)).

(** [with Database(...) as database: body] *)
Definition with_ {A : Type} (body : M A) : M A :=
  fun w =>
    match __enter__ w with
    | (Raise e, w1) => (Raise e, w1)
    | (Return _, w1) =>
        let (r, w2) := body w1 in
        match __exit__ w2 with
        | (Raise e, w3) => (Raise e, w3)
        | (Return _, w3) => (r, w3)
        end
    end.

(** *** DatabaseExecutor.create_table (the same text in both files) *)

Definition create_table (table_name : string) (columns : list (string * string)) : M unit :=
  match columns with
  | [] => raise (ValueError "Columns dictionary cannot be empty.")
  | _ :: _ =>
      let cols := Py.join ", " (map (fun '(col_name, data_type) => col_name ++ " " ++ data_type) columns) in
      let query := "CREATE TABLE IF NOT EXISTS " ++ table_name ++ " (" ++ cols ++ ")" in
      bind (execute query []) (fun _ => ret tt)
  end.

End WithEngine.

Arguments mkConnection {E}.
Arguments closed {E}.
Arguments in_transaction {E}.
Arguments view {E}.
Arguments mkDatabase {E}.
Arguments db_name {E}.
Arguments connection {E}.
Arguments cursor {E}.
Arguments mkWorld {E}.
Arguments self {E}.
Arguments disk {E}.
Arguments trace {E}.
Arguments ret {E A}.
Arguments raise {E A}.
Arguments bind {E A B}.
Arguments try_except {E A}.

Declare Scope py_scope.
Delimit Scope py_scope with py.
Notation "x <- m ;; k" := (bind m (fun x => k))
  (at level 61, m at next level, right associativity) : py_scope.
Notation "m ;; k" := (bind m (fun _ => k))
  (at level 61, right associativity) : py_scope.

End Common.

(** ** The legacy variant: [database/database.py] *)

Module Legacy.
Import Common.

Section WithEngine.

Variable E : engine.

Definition db_dir : string := "database/".

Definition __enter__ : M E unit := Common.__enter__ E db_dir.

Definition __exit__ : M E unit := Common.__exit__ E.

Definition with_ {A : Type} (body : M E A) : M E A := Common.with_ E db_dir body.

Definition execute : string -> list value -> M E pyobj := Common.execute E.

Definition create_table : string -> list (string * string) -> M E unit :=
  Common.create_table E.

(** The text [fetchone] passes to [execute]. *)
Definition fetchone_query (table_name : string) (fields where_ : option string) : string :=
  let fields := if Py.truthy_str fields then Py.str_of fields else "*" in
  let query := "SELECT " ++ fields ++ " FROM " ++ table_name in
  if Py.truthy_str where_ then query ++ " WHERE " ++ Py.str_of where_ else query.

Definition fetchone (table_name : string) (fields where_ : option string) : M E (option row) :=
  let query := fetchone_query table_name fields where_ in
  (execute query [] ;; cursor_fetchone E)%py.

(** [size=10000] *)
Definition batch_size : nat := N.to_nat 10000.

(** The text [fetchmany] passes to [execute]. *)
Definition fetchmany_query (table_name : string) (fields where_ group_by : option string)
  : string :=
  let fields := if Py.truthy_str fields then Py.str_of fields else "*" in
  let query := "SELECT " ++ fields ++ " FROM " ++ table_name in
  let query := if Py.truthy_str where_ then query ++ " WHERE " ++ Py.str_of where_ else query in
  if Py.truthy_str group_by then query ++ " GROUP BY " ++ Py.str_of group_by else query.

Definition fetchmany (table_name : string) (fields where_ group_by : option string)
  : M E (list row) :=
  let query := fetchmany_query table_name fields where_ group_by in
  (execute query [] ;; cursor_fetchmany E batch_size)%py.

(** The text [update] passes to [execute]. *)
Definition update_query (table_name values : string) (where_ : option string) : string :=
  let query := "UPDATE " ++ table_name ++ " SET " ++ values in
  if Py.truthy_str where_ then query ++ " WHERE " ++ Py.str_of where_ else query.

Definition update (table_name values : string) (where_ : option string) : M E unit :=
  let query := update_query table_name values where_ in
  (execute query [] ;; connection_commit E)%py.

(** The text [insert] passes to [execute]. *)
Definition insert_query (table_name values : string) (fields : option string) : string :=
  let query := "INSERT INTO " ++ table_name ++ " " in
  let query := if Py.truthy_str fields then query ++ "(" ++ Py.str_of fields ++ ") " else query in
  query ++ "VALUES " ++ values.

(** Returns the conflict text, or [None]. *)
Definition insert (table_name values : string) (fields : option string) : M E (option string) :=
  let query := insert_query table_name values fields in
  (r <- try_except (execute query [] ;; ret None)
                   (fun e => match e with
                             | SqliteError (IntegrityError _) =>
                                 Some (ret (Some (values ++ " already exists" ++ Py.nl)))
                             | _ => None
                             end) ;;
   match r with
   | Some conflict => ret (Some conflict)   (* the return of the except clause *)
   | None => connection_commit E ;; ret None
   end)%py.

End WithEngine.

End Legacy.

(** ** The later variant: [src/hookah_master_helper/database/database.py] *)

Module Later.
Import Common.

Section WithEngine.

Variable E : engine.

(** Python's [repr] of a bound value. *)
Variable repr : value -> string.

Definition db_dir : string := "src/hookah_master_helper/database/".

Definition __enter__ : M E unit := Common.__enter__ E db_dir.

Definition __exit__ : M E unit := Common.__exit__ E.

Definition with_ {A : Type} (body : M E A) : M E A := Common.with_ E db_dir body.

Definition execute : string -> list value -> M E pyobj := Common.execute E.

Definition create_table : string -> list (string * string) -> M E unit :=
  Common.create_table E.

(** The text and the bound values [fetchone] passes to [execute]. *)
Definition fetchone_query (table_name : string) (fields : option (list string))
  (where_ : option (string * list value)) : string * list value :=
  let fields_str := match fields with
                    | None => "*"
                    | Some fs => Py.join ", " fs
                    end in
  let query := "SELECT " ++ fields_str ++ " FROM " ++ table_name in
  match where_ with
  | Some (condition_str, condition_vals) => (query ++ " WHERE " ++ condition_str, condition_vals)
  | None => (query, [])
  end.

Definition fetchone (table_name : string) (fields : option (list string))
  (where_ : option (string * list value)) : M E (option row) :=
  let '(query, vals) := fetchone_query table_name fields where_ in
  (execute query vals ;; cursor_fetchone E)%py.

(** The text [fetchall] passes to [execute]. *)
Definition fetchall_query (table_name : string) (fields where_ group_by : option string)
  (distinct : bool) : string :=
  let fields := if Py.truthy_str fields then Py.str_of fields else "*" in
  let select := if distinct then "SELECT DISTINCT" else "SELECT" in
  let query := select ++ " " ++ fields ++ " FROM " ++ table_name ++ " " in
  let query := if Py.truthy_str where_ then query ++ "WHERE " ++ Py.str_of where_ ++ " " else query in
  if Py.truthy_str group_by then query ++ "GROUP BY " ++ Py.str_of group_by else query.

Definition fetchall (table_name : string) (fields where_ group_by : option string)
  (distinct : bool) : M E (list row) :=
  let query := fetchall_query table_name fields where_ group_by distinct in
  (execute query [] ;; cursor_fetchall E)%py.

(** The text and the bound values [update] passes to [execute]. *)
Definition update_query (table_name : string) (values : list (string * value))
  (where_ : option (list (string * value))) : string * list value :=
  let set_parts := map (fun '(field, _) => field ++ " = ?") values in
  let set_clause := Py.join ", " set_parts in
  let query := "UPDATE " ++ table_name ++ " SET " ++ set_clause in
  let vals := map snd values in
  if Py.truthy_seq where_ then
    let where_parts := map (fun '(w_field, _) => w_field ++ " = ?") (Py.seq_of where_) in
    let where_clause := Py.join " AND " where_parts in
    (query ++ " WHERE " ++ where_clause, (vals ++ map snd (Py.seq_of where_))%list)
  else (query, vals).

Definition update (table_name : string) (values : list (string * value))
  (where_ : option (list (string * value))) : M E Z :=
  let '(query, vals) := update_query table_name values where_ in
  try_except
    (cursor <- execute query vals ;;
     connection_commit E ;;
     getattr_rowcount E cursor)%py
    (fun e => match e with
              | SqliteError (IntegrityError m) =>
                  Some (raise (ValueError ("Failed to update " ++ table_name ++ ": " ++ m)))
              | _ => None
              end).

(** The text [insert] passes to [execute]; the values are bound as they are. *)
Definition insert_query (table_name : string) (values : list value)
  (fields : option (list string)) : string :=
  if Py.truthy_seq fields then
    let fields_str := Py.join ", " (Py.seq_of fields) in
    let placeholders := Py.join ", " (repeat "?" (length values)) in
    "INSERT INTO " ++ table_name ++ " (" ++ fields_str ++ ") VALUES (" ++ placeholders ++ ")"
  else
    let placeholders := Py.join ", " (repeat "?" (length values)) in
    "INSERT INTO " ++ table_name ++ " VALUES (" ++ placeholders ++ ")".

(** Returns the conflict text, or [None]. *)
Definition insert (table_name : string) (values : list value)
  (fields : option (list string)) : M E (option string) :=
  let query := insert_query table_name values fields in
  (r <- try_except (execute query values ;; ret None)
                   (fun e => match e with
                             | SqliteError (IntegrityError m) =>
                                 Some (ret (Some (Py.str_tuple repr values ++ " already exists: "
                                                  ++ m ++ Py.nl)))
                             | _ => None
                             end) ;;
   match r with
   | Some conflict => ret (Some conflict)   (* the return of the except clause *)
   | None => connection_commit E ;; ret None
   end)%py.

End WithEngine.

End Later.

(** * Notions the statements use *)

Module Spec.
Import Common.

Section WithEngine.

Variable E : engine.

(** The object is inside an open scope: it holds a connection that is not
    closed, and the cursor made with it. *)
Definition in_scope (w : world E) : Prop :=
  exists c cu, connection (self w) = Some c /\ closed c = false /\ cursor (self w) = Some cu.

(** The object as [Database(name)] leaves it, on a given file. *)
Definition fresh (name : string) (d : db E) : world E :=
  mkWorld (Common.__init__ E name) d [].

(** The database as the object's connection sees it. *)
Definition seen (w : world E) : option (db E) :=
  option_map view (connection (self w)).

(** The rows of a table as the object's connection sees them. *)
Definition rows_seen (w : world E) (t : string) : list row :=
  match seen w with
  | Some d => table_rows E d t
  | None => []
  end.

(** The world after a statement ran in an open scope, and after one failed. *)
Definition ran (w : world E) (c : Connection E) (query : string) (params : list value)
  (r : reply (db E)) : world E :=
  let tx := in_transaction c || is_dml query in
  mkWorld (mkDatabase (db_name (self w)) (Some (mkConnection false tx (new_db r)))
                      (Some (mkCursor (result_set r) (affected r))))
          (if tx then disk w else new_db r)
          (trace w ++ [EvExecute query params])%list.

Definition failed (w : world E) (c : Connection E) (query : string) (params : list value)
  : world E :=
  let tx := in_transaction c || is_dml query in
  mkWorld (mkDatabase (db_name (self w)) (Some (mkConnection false tx (view c)))
                      (Some (mkCursor [] (-1))))
          (disk w)
          (trace w ++ [EvExecute query params])%list.

(** The world after [commit] in an open scope. *)
Definition committed (w : world E) : world E :=
  match connection (self w) with
  | Some c =>
      mkWorld (mkDatabase (db_name (self w)) (Some (mkConnection false false (view c)))
                          (cursor (self w)))
              (view c) (trace w ++ [EvCommit])%list
  | None => w
  end.

(** The engine refused the statement for a constraint it would break, which
    sqlite3 reports as IntegrityError: a value already present under a
    unique key, and as well a NULL in a column declared NOT NULL, a failed
    CHECK or a missing FOREIGN KEY.  The class is all the code looks at. *)
Definition conflict (answer : error + reply (db E)) : Prop :=
  exists m, answer = inl (IntegrityError m).

Definition accepted (answer : error + reply (db E)) : Prop :=
  exists r, answer = inr r.

(** The two states of the connection manager. *)
Inductive mstate : Type :=
| Closed
| Open.

Definition manager_state (w : world E) : mstate :=
  match connection (self w) with
  | Some c => if closed c then Closed else Open
  | None => Closed
  end.

Inductive mstep : mstate -> mstate -> Prop :=
| step_enter : mstep Closed Open
| step_exit : mstep Open Closed.

(** A computation that leaves the manager in the state it found it in. *)
Definition steady {A : Type} (m : M E A) : Prop :=
  forall w, manager_state (snd (m w)) = manager_state w.

End WithEngine.

Arguments manager_state {E}.
Arguments steady {E A}.
Arguments in_scope {E}.
Arguments seen {E}.
Arguments rows_seen {E}.
Arguments conflict {E}.
Arguments accepted {E}.

End Spec.

(** * What SQL says of UPDATE

    Which rows an UPDATE changes, and into what, is the engine's doing: the
    methods only build the text.  The statements about [update] therefore
    hold for any engine that reads the text the way SQL prescribes, for
    whatever assignments and conditions that engine knows. *)

Module SqlUpdate.

(** [name = ?] for each pair, with [sep] in between: the fragments the later
    variant builds. *)
Definition placeholders (sep : string) (pairs : list (string * value)) : string :=
  Py.join sep (map (fun p => fst p ++ " = ?") pairs).

(** How an engine reads what an UPDATE of a table is made of.  For a text:
    whether it is a list of assignments and nothing more, what these make of
    a row, whether it is a condition on a row, and whether a row satisfies
    it.  For bound pairs: whether a name is a column name and nothing more,
    what a row becomes when each value is stored under its name, and whether
    a row holds each value under its name. *)
Record reading : Type := mkReading {
  is_assignments : string -> Prop;
  assigned : string -> row -> row;
  is_condition : string -> Prop;
  satisfied : string -> row -> bool;
  is_column : string -> Prop;
  stored : list (string * value) -> row -> row;
  matched : list (string * value) -> row -> bool
}.

Section ForEngine.

Variable E : engine.

(** The answer [r] to an UPDATE of the table [t] of [d]: every row that
    satisfies [hit] is replaced, where it stands, by what [change] makes of
    it, and every other row is kept. *)
Definition rewrites (d : db E) (t : string) (hit : row -> bool) (change : row -> row)
  (r : reply (db E)) : Prop :=
  table_rows E (new_db r) t
  = map (fun row => if hit row then change row else row) (table_rows E d t).

(** The engine follows SQL on the table [t] of [d]: an UPDATE without WHERE
    that it accepts rewrites every row, and one with WHERE the rows that
    satisfy the condition; the same with values bound to placeholders. *)
Definition follows_sql (R : reading) (d : db E) (t : string) : Prop :=
  (forall sets r,
     is_assignments R sets ->
     run E ("UPDATE " ++ t ++ " SET " ++ sets) [] d = inr r ->
     rewrites d t (fun _ => true) (assigned R sets) r)
  /\ (forall sets cond r,
        is_assignments R sets -> is_condition R cond ->
        run E ("UPDATE " ++ t ++ " SET " ++ sets ++ " WHERE " ++ cond) [] d = inr r ->
        rewrites d t (satisfied R cond) (assigned R sets) r)
  /\ (forall values r,
        Forall (is_column R) (map fst values) ->
        run E ("UPDATE " ++ t ++ " SET " ++ placeholders ", " values) (map snd values) d
        = inr r ->
        rewrites d t (fun _ => true) (stored R values) r)
  /\ (forall values cond r,
        Forall (is_column R) (map fst values) -> Forall (is_column R) (map fst cond) ->
        cond <> [] ->
        run E ("UPDATE " ++ t ++ " SET " ++ placeholders ", " values
               ++ " WHERE " ++ placeholders " AND " cond)
            (map snd values ++ map snd cond)%list d
        = inr r ->
        rewrites d t (matched R cond) (stored R values) r).

End ForEngine.

(** The reading of the reference engine, for a table with the columns
    [cols]: a SET fragment is whole and brings no WHERE of its own, a
    condition is not empty, a name is a word. *)
Definition mini_reading (cols : list MiniSql.coldef) : reading :=
  mkReading (fun sets => MiniSql.clean_fragment sets = true)
            (MiniSql.assigned cols)
            (fun cond => cond <> EmptyString)
            (MiniSql.satisfies cols)
            (fun name => MiniSql.is_ident name = true)
            (MiniSql.assign cols)
            (MiniSql.holds cols).

End SqlUpdate.

(** * Concrete data: a tobacco table on the reference engine *)

Module Examples.
Import Common MiniSql.

Definition tobaccos : table :=
  mkTable [mkCol "mark" true false; mkCol "aroma" false false;
           mkCol "flavour" false false; mkCol "potency" false false]
          [[Text "Brand A"; Text "mint"; Text "sweet"; Int 3];
           [Text "Brand B"; Text "rose"; Text "sour"; Int 5];
           [Text "Brand C"; Text "mint"; Text "bitter"; Int 7]].

Definition shop_db : database := [("tobaccos", tobaccos)].

(** A Database object inside its [with] block, on a file that holds the
    table. *)
Definition shop : world mini :=
  snd (Common.__enter__ mini Legacy.db_dir (Spec.fresh mini "hookah" shop_db)).

(** The same object on an empty file. *)
Definition empty_shop : world mini :=
  snd (Common.__enter__ mini Legacy.db_dir (Spec.fresh mini "hookah" [])).

Definition tobaccos_schema : list (string * string) :=
  [("mark", "TEXT PRIMARY KEY"); ("aroma", "TEXT"); ("flavour", "TEXT");
   ("potency", "INTEGER")].

(** Python's [repr] on the values at hand: [None], a whole number in
    decimal, a text between single quotes (as Python writes one that holds
    no quote or backslash). *)
Definition repr (v : value) : string :=
  match v with
  | Null => "None"
  | Int n => NilZero.string_of_int (Z.to_int n)
  | Text s => "'" ++ s ++ "'"
  end.

(** The connection and the cursor of [shop]. *)
Definition shop_connection : Connection mini := @mkConnection mini false false shop_db.

Definition shop_cursor : Cursor := mkCursor [] (-1).

(** A table of 10,001 rows, with the object inside its [with] block. *)
Definition many_rows : list row := repeat [Int 3] (N.to_nat 10001).

Definition big_db : database := [("tobaccos", mkTable [mkCol "potency" false false] many_rows)].

Definition big : world mini :=
  snd (Common.__enter__ mini Legacy.db_dir (Spec.fresh mini "hookah" big_db)).

Definition big_connection : Connection mini := @mkConnection mini false false big_db.

Definition empty_connection : Connection mini := @mkConnection mini false false [].

(** A row whose mark is already in the table, as the legacy variant and as
    the later variant are given it. *)
Definition brand_a_text : string := "('Brand A', 'mint', 'sweet', 3)".

Definition brand_a_values : list value := [Text "Brand A"; Text "mint"; Text "sweet"; Int 3].

Definition all_fields : list string := ["mark"; "aroma"; "flavour"; "potency"].

(** A schema whose second column takes no NULL, and the object inside its
    [with] block after [create_table] has made the table on an empty file. *)
Definition strict_schema : list (string * string) :=
  [("mark", "TEXT PRIMARY KEY"); ("aroma", "TEXT NOT NULL")].

Definition strict_shop : world mini :=
  snd (Common.create_table mini "tobaccos" strict_schema empty_shop).

End Examples.

(** * The callers: the request scripts and the routes

    [constants.py] is not part of the sources at hand: [DATABASE_NAME] and
    [TOBACCO_POTENCY] are parameters.  Flask is reduced to what a view hands
    back: a JSON body with a status, or the [abort(404, ...)] it calls. *)

Module Runtime.

(** The double quote, as a one-character string. *)
Definition dq : string := String "034"%char EmptyString.

(** [d.get(key)] on a dict of strings. *)
Fixpoint dict_get {A : Type} (d : list (string * A)) (key : string) : option A :=
  match d with
  | [] => None
  | (k, v) :: rest => if k =? key then Some v else dict_get rest key
  end.

(** [d.get(key, default)] *)
Definition dict_get_default {A : Type} (d : list (string * A)) (key : string) (default : A)
  : A :=
  match dict_get d key with
  | Some v => v
  | None => default
  end.

(** [str(n)] for an int. *)
Definition str_int (n : Z) : string := NilZero.string_of_int (Z.to_int n).

(** [any(results)] over values that are [None] or a string. *)
Definition any (results : list (option string)) : bool :=
  existsb Py.truthy_str results.

(** [row[0]]; [None] where Python raises IndexError. *)
Definition first_column (r : row) : option value :=
  match r with
  | [] => None
  | v :: _ => Some v
  end.

(** [[row[0] for row in data]]; [None] where a row has no first column and
    Python raises IndexError. *)
Fixpoint first_columns (data : list row) : option (list value) :=
  match data with
  | [] => Some []
  | r :: rest =>
      match first_column r, first_columns rest with
      | Some v, Some vs => Some (v :: vs)
      | _, _ => None
      end
  end.

(** What a view hands back. *)
#[warnings="-register-all"]
Inductive json : Type :=
| JNull
| JNum (n : Z)
| JStr (s : string)
| JArr (items : list json)
| JObj (members : list (string * json)).

Inductive http : Type :=
| Response (status : Z) (body : json)
| Abort (status : Z) (description : string).

Definition json_of_value (v : value) : json :=
  match v with
  | Null => JNull
  | Int n => JNum n
  | Text s => JStr s
  end.

Definition json_of_row (r : row) : json := JArr (map json_of_value r).

Definition json_of_conflict (c : option string) : json :=
  match c with
  | Some s => JStr s
  | None => JNull
  end.

End Runtime.

(** ** [server/scripts/tobacco_scripts.py] *)

Module LegacyScripts.
Import Common Runtime.

Section WithEngine.

Variable E : engine.

Variable DATABASE_NAME : string.

Variable TOBACCO_POTENCY : list (string * Z).

(** [DatabaseExecutor(DATABASE_NAME)]: a new object on the same file. *)
Definition new_executor : M E unit :=
  fun w => (Return tt, mkWorld (Common.__init__ E DATABASE_NAME) (disk w) (trace w)).

(** The [values] text made for one entry of the request. *)
Definition values_text (key : string) (entry : list (string * string)) : string :=
  "(" ++ dq ++ key ++ dq ++ ","
  ++ " " ++ dq ++ dict_get_default entry "flavour" "unknown" ++ dq ++ ","
  ++ " " ++ dq ++ dict_get_default entry "aroma" "unknown" ++ dq ++ ","
  ++ " " ++ str_int (dict_get_default TOBACCO_POTENCY key 0%Z) ++ ")".

(** [for entry in request[key]: list_of_duplicates.append(database.insert(...))] *)
Fixpoint insert_entries (key : string) (entries : list (list (string * string)))
  (list_of_duplicates : list (option string)) : M E (list (option string)) :=
  match entries with
  | [] => ret list_of_duplicates
  | entry :: rest =>
      (r <- Legacy.insert E "tobaccos" (values_text key entry)
              (Some "mark, aroma, flavour, potency") ;;
       insert_entries key rest (list_of_duplicates ++ [r])%list)%py
  end.

(** [for key in request: ...] *)
Fixpoint insert_request (request : list (string * list (list (string * string))))
  (list_of_duplicates : list (option string)) : M E (list (option string)) :=
  match request with
  | [] => ret list_of_duplicates
  | (key, entries) :: rest =>
      (l <- insert_entries key entries list_of_duplicates ;;
       insert_request rest l)%py
  end.

Definition add_tobacco_to_database (request : list (string * list (list (string * string))))
  : M E (list (option string)) :=
  (new_executor ;; Legacy.with_ E (insert_request request []))%py.

Definition get_tobacco_from_db : M E (list row) :=
  (new_executor ;; Legacy.with_ E (Legacy.fetchmany E "tobaccos" None None None))%py.

Definition get_tobacco_from_db_by_mark (mark : string) : M E (list row) :=
  (new_executor ;;
   Legacy.with_ E (Legacy.fetchmany E "tobaccos" None
                     (Some (dq ++ "mark" ++ dq ++ " = " ++ dq ++ mark ++ dq)) None))%py.

End WithEngine.

End LegacyScripts.

(** ** [server/core.py] *)

Module LegacyCore.
Import Common Runtime.

Section WithEngine.

Variable E : engine.

Variable DATABASE_NAME : string.

Variable TOBACCO_POTENCY : list (string * Z).

(** The view of [/api/tobacco/]; [None] when the method is neither POST nor
    GET and the view returns nothing. *)
Definition manage_tobacco (method : string)
  (data : list (string * list (list (string * string)))) : M E (option http) :=
  if method =? "POST" then
    (result <- LegacyScripts.add_tobacco_to_database E DATABASE_NAME TOBACCO_POTENCY data ;;
     if any result
     then ret (Some (Response 207 (JObj [("warning", JStr "Some warnings appeared");
                                         ("data", JArr (map json_of_conflict result))])))
     else ret (Some (Response 201 (JObj [("message", JStr "Tobacco successfully added")]))))%py
  else if method =? "GET" then
    (result <- LegacyScripts.get_tobacco_from_db E DATABASE_NAME ;;
     match result with
     | [] => ret (Some (Abort 404 "No tobacco found in the database"))
     | _ :: _ => ret (Some (Response 200 (JObj [("data", JArr (map json_of_row result))])))
     end)%py
  else ret None.

(** The view of [/api/tobacco/<mark>]. *)
Definition get_by_mark (mark : string) : M E http :=
  (result <- LegacyScripts.get_tobacco_from_db_by_mark E DATABASE_NAME mark ;;
   match result with
   | [] => ret (Abort 404 "Tobacco with the given mark not found")
   | _ :: _ => ret (Response 200 (JObj [("data", JArr (map json_of_row result))]))
   end)%py.

End WithEngine.

End LegacyCore.

(** ** [src/hookah_master_helper/server/scripts/tobacco_scripts.py] *)

Module LaterScripts.
Import Common Runtime.

Section WithEngine.

Variable E : engine.

Variable repr : value -> string.

(** Python's [str.lower]. *)
Variable lower : string -> string.

Variable DATABASE_NAME : string.

Definition new_executor : M E unit :=
  fun w => (Return tt, mkWorld (Common.__init__ E DATABASE_NAME) (disk w) (trace w)).

(** The tuple of values made from the request; [request.get('brand')] is
    [None] when the key is missing, and [.lower()] fails on it. *)
Definition values_of (request : list (string * string)) : M E (list value) :=
  match dict_get request "brand" with
  | None => raise (AttributeError "'NoneType' object has no attribute 'lower'")
  | Some brand =>
      ret [Text (lower brand);
           Text (lower (dict_get_default request "flavour" "unknown"));
           Text (lower (dict_get_default request "taste" "unknown"))]
  end.

Definition add_tobacco_to_database (request : list (string * string))
  : M E (option string) :=
  (new_executor ;;
   Later.with_ E
     (values <- values_of request ;;
      Later.insert E repr "tobaccos" values (Some ["brand"; "aroma"; "taste"])))%py.

(** The class of the later variant defines no [fetchmany]: looking the
    method up fails inside the block. *)
Definition get_tobacco_from_db : M E (list row) :=
  (new_executor ;;
   Later.with_ E
     (raise (AttributeError "'DatabaseExecutor' object has no attribute 'fetchmany'")))%py.

(** [None] inside the result: a row had no first column (IndexError). *)
Definition get_all_brands : M E (option (list value)) :=
  (new_executor ;;
   Later.with_ E
     (data <- Later.fetchall E "tobaccos" (Some "brand") None None true ;;
      ret (first_columns data)))%py.

End WithEngine.

End LaterScripts.

(** ** [src/hookah_master_helper/server/core.py] *)

Module LaterCore.
Import Common Runtime.

Section WithEngine.

Variable E : engine.

Variable repr : value -> string.

Variable lower : string -> string.

Variable DATABASE_NAME : string.

Definition manage_tobacco (method : string) (data : list (string * string))
  : M E (option http) :=
  if method =? "POST" then
    (result <- LaterScripts.add_tobacco_to_database E repr lower DATABASE_NAME data ;;
     if Py.truthy_str result
     then ret (Some (Response 207 (JObj [("warning", JStr "Some warnings appeared");
                                         ("data", json_of_conflict result)])))
     else ret (Some (Response 201 (JStr "Tobacco successfully added"))))%py
  else if method =? "GET" then
    (result <- LaterScripts.get_tobacco_from_db E DATABASE_NAME ;;
     match result with
     | [] => ret (Some (Abort 404 "No tobacco found in the database"))
     | _ :: _ => ret (Some (Response 200 (JArr (map json_of_row result))))
     end)%py
  else ret None.

(** [None]: the script met a row without a first column (IndexError), and
    the view hands that on. *)
Definition get_all_brands_from_db : M E (option http) :=
  (result <- LaterScripts.get_all_brands E DATABASE_NAME ;;
   match result with
   | None => ret None
   | Some [] => ret (Some (Abort 404 "Empty table 'BRANDS'"))
   | Some (b :: bs) => ret (Some (Response 200 (JArr (map json_of_value (b :: bs)))))
   end)%py.

End WithEngine.

End LaterCore.

(** * Notions the statements about the rest of the code use *)

Module Notions.
Import Common Runtime.

(** An error of the store other than a constraint violation. *)
Definition not_integrity (e : error) : Prop :=
  match e with
  | IntegrityError _ => False
  | _ => True
  end.

(** The statements among the events of a trace, in order. *)
Fixpoint statements (tr : list event) : list (string * list value) :=
  match tr with
  | [] => []
  | EvExecute q ps :: rest => (q, ps) :: statements rest
  | _ :: rest => statements rest
  end.

(** The number of commits among the events of a trace. *)
Fixpoint commits (tr : list event) : nat :=
  match tr with
  | [] => 0
  | EvCommit :: rest => S (commits rest)
  | _ :: rest => commits rest
  end.

Definition is_conflict (r : option string) : bool :=
  match r with
  | Some _ => true
  | None => false
  end.

(** All the entries of a request, key by key, each with its key. *)
Definition entries_of (request : list (string * list (list (string * string))))
  : list (string * list (string * string)) :=
  flat_map (fun '(key, entries) => map (fun entry => (key, entry)) entries) request.

(** The table the later scripts write to: brand (unique), aroma, taste. *)
Definition brand_columns : list MiniSql.coldef :=
  [MiniSql.mkCol "brand" true false; MiniSql.mkCol "aroma" false false;
   MiniSql.mkCol "taste" false false].

(** The table the legacy scripts write to: mark (unique), aroma, flavour,
    potency. *)
Definition mark_columns : list MiniSql.coldef :=
  [MiniSql.mkCol "mark" true false; MiniSql.mkCol "aroma" false false;
   MiniSql.mkCol "flavour" false false; MiniSql.mkCol "potency" false false].

(** The value a row holds in its first column. *)
Definition key_of (r : row) : value := nth 0 r Null.

(** The two worlds hold the same database, as the connection sees it and on
    the file. *)
Definition same_store {E : engine} (w1 w2 : world E) : Prop :=
  Spec.seen w1 = Spec.seen w2 /\ disk w1 = disk w2.

(** The world a script's block starts in: a new object named [name], just
    entered, on the file of [w]. *)
Definition entered {E : engine} (dir name : string) (w : world E) : world E :=
  mkWorld (mkDatabase (name ++ ".db")
                      (Some (mkConnection false false (disk w)))
                      (Some (mkCursor [] (-1))))
          (disk w) (trace w ++ [EvConnect (dir ++ name ++ ".db")])%list.

(** The statement the legacy script sends for one entry of the request. *)
Definition legacy_statement (potency : list (string * Z))
  (item : string * list (string * string)) : string * list value :=
  (Legacy.insert_query "tobaccos" (LegacyScripts.values_text potency (fst item) (snd item))
     (Some "mark, aroma, flavour, potency"), []).

(** The statement the later script sends, whatever the request. *)
Definition later_statement : string :=
  "INSERT INTO tobaccos (brand, aroma, taste) VALUES (?, ?, ?)".

(** The values the later script binds. *)
Definition later_values (lower : string -> string) (request : list (string * string))
  (brand : string) : list value :=
  [Text (lower brand);
   Text (lower (dict_get_default request "flavour" "unknown"));
   Text (lower (dict_get_default request "taste" "unknown"))].

End Notions.

(** * More concrete data *)

Module Fixtures.
Import Common MiniSql Notions.

(** A stand-in for Python's [str.lower], on the letters A to Z. *)
Definition lower_ascii (c : ascii) : ascii :=
  let n := nat_of_ascii c in
  if (65 <=? n)%nat && (n <=? 90)%nat then ascii_of_nat (n + 32) else c.

Fixpoint lower (s : string) : string :=
  match s with
  | EmptyString => EmptyString
  | String c s' => String (lower_ascii c) (lower s')
  end.

Definition brands : list row :=
  [[Text "adalya"; Text "mint"; Text "sweet"];
   [Text "fumari"; Text "rose"; Text "sour"]].

Definition brands_db : database := [("tobaccos", mkTable brand_columns brands)].

Definition potencies : list (string * Z) := [("Adalya", 3%Z); ("Fumari", 5%Z)].

Definition marks_db : database := [("tobaccos", mkTable mark_columns [])].

(** Any object, not inside a block, on the given file. *)
Definition idle (d : database) : world mini := Spec.fresh mini "other" d.

(** Requests to the scripts: two entries under one mark for the legacy one;
    a brand the table holds, a new brand, and no brand for the later one. *)
Definition adalya_entries : list (string * list (list (string * string))) :=
  [("Adalya", [[("flavour", "mint"); ("aroma", "sweet")]; [("flavour", "rose")]])].

Definition adalya_request : list (string * string) :=
  [("brand", "Adalya"); ("flavour", "Mint"); ("taste", "Sweet")].

Definition serbetli_request : list (string * string) :=
  [("brand", "Serbetli"); ("taste", "Sour")].

Definition brandless_request : list (string * string) := [("taste", "Sour")].

End Fixtures.

(** * Properties *)

Import Common Spec.

(** ** Running a statement *)

Section Running.

Variable E : engine.

Lemma execute_unentered (w : world E) (q : string) (ps : list value) :
  connection (self w) = None ->
  Common.execute E q ps w
  = (Raise (RuntimeError "Database must be used within a 'with' statement."), w).
Proof.
  intros H. unfold Common.execute, ensure_context. rewrite H. reflexivity.
Qed.

Lemma execute_closed (w : world E) (q : string) (ps : list value) c cu :
  connection (self w) = Some c -> closed c = true -> cursor (self w) = Some cu ->
  Common.execute E q ps w = (Raise (SqliteError (ProgrammingError closed_msg)), w).
Proof.
  intros Hc Hcl Hcu.
  unfold Common.execute, ensure_context, bind, try_except, cursor_execute.
  rewrite Hc, Hcu, Hcl. reflexivity.
Qed.

Lemma execute_open (w : world E) (q : string) (ps : list value) c cu :
  connection (self w) = Some c -> closed c = false -> cursor (self w) = Some cu ->
  Common.execute E q ps w
  = match run E q ps (view c) with
    | inl e => (Raise (SqliteError e), failed E w c q ps)
    | inr r => (Return PyNone, ran E w c q ps r)
    end.
Proof.
  intros Hc Hcl Hcu.
  unfold Common.execute, ensure_context, bind, try_except, cursor_execute.
  rewrite Hc, Hcu, Hcl.
  destruct (run E q ps (view c)) as [e|r]; reflexivity.
Qed.

Lemma commit_open (w : world E) c :
  connection (self w) = Some c -> closed c = false ->
  connection_commit E w = (Return tt, committed E w).
Proof.
  intros Hc Hcl. unfold connection_commit, committed. rewrite Hc, Hcl. reflexivity.
Qed.

Lemma commit_after_ran (w : world E) c q ps r :
  connection_commit E (ran E w c q ps r) = (Return tt, committed E (ran E w c q ps r)).
Proof. reflexivity. Qed.

Lemma disk_committed_ran (w : world E) c q ps r :
  disk (committed E (ran E w c q ps r)) = new_db r.
Proof. reflexivity. Qed.

Lemma seen_committed_ran (w : world E) c q ps r :
  seen (committed E (ran E w c q ps r)) = Some (new_db r).
Proof. reflexivity. Qed.

Lemma trace_committed_ran (w : world E) c q ps r :
  trace (committed E (ran E w c q ps r)) = (trace w ++ [EvExecute q ps; EvCommit])%list.
Proof. simpl. rewrite <- app_assoc. reflexivity. Qed.

End Running.

(** ** The manager's state under the methods *)

Section Steady.

Variable E : engine.

Lemma steady_ret {A : Type} (a : A) : steady (@ret E A a).
Proof. intros w. reflexivity. Qed.

Lemma steady_raise {A : Type} (e : exn) : steady (@raise E A e).
Proof. intros w. reflexivity. Qed.

Lemma steady_bind {A B : Type} (m : M E A) (k : A -> M E B) :
  steady m -> (forall a, steady (k a)) -> steady (bind m k).
Proof.
  intros Hm Hk w. unfold bind. specialize (Hm w).
  destruct (m w) as [[a|e] w1]; simpl in *.
  - rewrite Hk. exact Hm.
  - exact Hm.
Qed.

Lemma steady_try_except {A : Type} (body : M E A) (handler : exn -> option (M E A)) :
  steady body -> (forall e h, handler e = Some h -> steady h) ->
  steady (try_except body handler).
Proof.
  intros Hb Hh w. unfold try_except. specialize (Hb w).
  destruct (body w) as [[a|e] w1]; simpl in *; [exact Hb|].
  destruct (handler e) as [h|] eqn:He; simpl; [|exact Hb].
  rewrite (Hh e h He). exact Hb.
Qed.

Lemma steady_ensure_context {A : Type} (m : M E A) :
  steady m -> steady (ensure_context E m).
Proof.
  intros Hm w. unfold ensure_context.
  destruct (connection (self w)); [apply Hm | reflexivity].
Qed.

Lemma steady_cursor_execute (q : string) (ps : list value) :
  steady (cursor_execute E q ps).
Proof.
  intros w. unfold cursor_execute, manager_state.
  destruct (cursor (self w)) as [cu|]; [|reflexivity].
  destruct (connection (self w)) as [c|] eqn:Hc; [|simpl; rewrite Hc; reflexivity].
  destruct (closed c) eqn:Hcl; [simpl; rewrite Hc, Hcl; reflexivity|].
  destruct (run E q ps (view c)); reflexivity.
Qed.

Lemma steady_commit : steady (connection_commit E).
Proof.
  intros w. unfold connection_commit, manager_state.
  destruct (connection (self w)) as [c|] eqn:Hc; [|simpl; rewrite Hc; reflexivity].
  destruct (closed c) eqn:Hcl; [simpl; rewrite Hc, Hcl; reflexivity|].
  reflexivity.
Qed.

Lemma steady_fetch {A : Type} (take : list row -> A * list row) :
  steady (cursor_fetch E take).
Proof.
  intros w. unfold cursor_fetch, manager_state.
  destruct (cursor (self w)) as [cu|]; [|reflexivity].
  destruct (connection (self w)) as [c|] eqn:Hc; [|simpl; rewrite Hc; reflexivity].
  destruct (closed c) eqn:Hcl; [simpl; rewrite Hc, Hcl; reflexivity|].
  destruct (take (pending cu)). simpl. rewrite Hcl. reflexivity.
Qed.

Lemma steady_rowcount (obj : pyobj) : steady (getattr_rowcount E obj).
Proof.
  intros w. unfold getattr_rowcount.
  destruct obj; [reflexivity|]. destruct (cursor (self w)); reflexivity.
Qed.

Lemma steady_execute (q : string) (ps : list value) : steady (Common.execute E q ps).
Proof.
  unfold Common.execute. apply steady_ensure_context.
  apply steady_bind; [|intros; apply steady_ret].
  apply steady_try_except; [apply steady_cursor_execute|].
  intros e h He. destruct e; inversion He. apply steady_raise.
Qed.

Lemma steady_create_table (t : string) (cols : list (string * string)) :
  steady (Common.create_table E t cols).
Proof.
  unfold Common.create_table. destruct cols; [apply steady_raise|].
  apply steady_bind; [apply steady_execute | intros; apply steady_ret].
Qed.

Lemma steady_legacy_fetchone t f wh : steady (Legacy.fetchone E t f wh).
Proof.
  unfold Legacy.fetchone. apply steady_bind; [apply steady_execute|].
  intros. apply steady_fetch.
Qed.

Lemma steady_legacy_fetchmany t f wh g : steady (Legacy.fetchmany E t f wh g).
Proof.
  unfold Legacy.fetchmany. apply steady_bind; [apply steady_execute|].
  intros. apply steady_fetch.
Qed.

Lemma steady_legacy_update t v wh : steady (Legacy.update E t v wh).
Proof.
  unfold Legacy.update. apply steady_bind; [apply steady_execute|].
  intros. apply steady_commit.
Qed.

Lemma steady_legacy_insert t v f : steady (Legacy.insert E t v f).
Proof.
  unfold Legacy.insert. apply steady_bind.
  - apply steady_try_except.
    + apply steady_bind; [apply steady_execute | intros; apply steady_ret].
    + intros e h He. destruct e as [| | |[]]; inversion He. apply steady_ret.
  - intros [s|]; [apply steady_ret|].
    apply steady_bind; [apply steady_commit | intros; apply steady_ret].
Qed.

Lemma steady_later_fetchone t f wh : steady (Later.fetchone E t f wh).
Proof.
  unfold Later.fetchone. destruct (Later.fetchone_query t f wh).
  apply steady_bind; [apply steady_execute|]. intros. apply steady_fetch.
Qed.

Lemma steady_later_fetchall t f wh g dst : steady (Later.fetchall E t f wh g dst).
Proof.
  unfold Later.fetchall. apply steady_bind; [apply steady_execute|].
  intros. apply steady_fetch.
Qed.

Lemma steady_later_update t v wh : steady (Later.update E t v wh).
Proof.
  unfold Later.update. destruct (Later.update_query t v wh).
  apply steady_try_except.
  - apply steady_bind; [apply steady_execute|]. intros.
    apply steady_bind; [apply steady_commit|]. intros. apply steady_rowcount.
  - intros e h He. destruct e as [| | |[]]; inversion He. apply steady_raise.
Qed.

Lemma steady_later_insert repr t v f : steady (Later.insert E repr t v f).
Proof.
  unfold Later.insert. apply steady_bind.
  - apply steady_try_except.
    + apply steady_bind; [apply steady_execute | intros; apply steady_ret].
    + intros e h He. destruct e as [| | |[]]; inversion He. apply steady_ret.
  - intros [s|]; [apply steady_ret|].
    apply steady_bind; [apply steady_commit | intros; apply steady_ret].
Qed.

End Steady.

(** ** The scope: entry, exit and what lies between *)

Section Scope.

Variable E : engine.

Variable dir : string.

Lemma enter_opens (w : world E) :
  exists w1, Common.__enter__ E dir w = (Return tt, w1)
             /\ manager_state w1 = Open /\ in_scope w1 /\ disk w1 = disk w.
Proof.
  eexists. split; [reflexivity|]. repeat split.
  unfold in_scope. simpl. eauto.
Qed.

Lemma exit_closes (w : world E) :
  manager_state w = Open ->
  exists w1, Common.__exit__ E w = (Return tt, w1)
             /\ manager_state w1 = Closed
             /\ trace w1 = (trace w ++ [EvClose])%list
             /\ disk w1 = disk w.
Proof.
  unfold manager_state, Common.__exit__, connection_close.
  destruct (connection (self w)) as [c|]; [|discriminate].
  destruct (closed c); [discriminate|]. intros _.
  eexists. split; [reflexivity|]. repeat split.
Qed.

Lemma exit_ends_closed (w : world E) :
  manager_state (snd (Common.__exit__ E w)) = Closed.
Proof.
  unfold manager_state, Common.__exit__, connection_close.
  destruct (connection (self w)) as [c|] eqn:Hc; [|simpl; rewrite Hc; reflexivity].
  destruct (closed c) eqn:Hcl; [simpl; rewrite Hc, Hcl|]; reflexivity.
Qed.

(** C9.  The manager moves from closed to open on entry and from open to
    closed on exit; whatever the body of a [with] block does, and whether
    it returns or raises, the block ends with the manager closed; and when
    the body leaves the manager alone, as every method of the executor does,
    the block hands on the body's own outcome after closing the connection. *)
Theorem scope_releases_connection :
  (forall w : world E, manager_state w = Closed ->
     exists w1, Common.__enter__ E dir w = (Return tt, w1)
                /\ mstep (manager_state w) (manager_state w1))
  /\ (forall w : world E, manager_state w = Open ->
        exists w1, Common.__exit__ E w = (Return tt, w1)
                   /\ mstep (manager_state w) (manager_state w1)
                   /\ trace w1 = (trace w ++ [EvClose])%list)
  /\ (forall (A : Type) (body : M E A) (w : world E),
        manager_state (snd (Common.with_ E dir body w)) = Closed)
  /\ (forall (A : Type) (body : M E A) (w : world E),
        steady body ->
        let entered := snd (Common.__enter__ E dir w) in
        let w' := snd (Common.with_ E dir body w) in
        fst (Common.with_ E dir body w) = fst (body entered)
        /\ trace w' = (trace (snd (body entered)) ++ [EvClose])%list
        /\ disk w' = disk (snd (body entered))).
Proof.
  split; [|split; [|split]].
  - intros w Hw. destruct (enter_opens w) as (w1 & He & Ho & _).
    exists w1. split; [exact He|]. rewrite Hw, Ho. constructor.
  - intros w Hw. destruct (exit_closes w Hw) as (w1 & He & Hc & Ht & _).
    exists w1. split; [exact He|]. split; [|exact Ht]. rewrite Hw, Hc. constructor.
  - intros A body w. unfold Common.with_.
    destruct (enter_opens w) as (w1 & He & _). rewrite He.
    destruct (body w1) as [r w2].
    pose proof (exit_ends_closed w2) as Hx.
    destruct (Common.__exit__ E w2) as [[u|e] w3]; exact Hx.
  - intros A body w Hs. unfold Common.with_.
    destruct (enter_opens w) as (w1 & He & Ho & _). rewrite He. simpl.
    pose proof (Hs w1) as Hb. rewrite Ho in Hb.
    destruct (body w1) as [r w2]. simpl in *.
    destruct (exit_closes w2 Hb) as (w3 & Hx & _ & Ht & Hd).
    rewrite Hx. simpl. auto.
Qed.

(** C1 (failing input).  An object that went through a whole [with] block
    still holds its connection, so the guard lets [fetchone] through and the
    call ends in sqlite3's own error for a closed database, not in the usage
    error; nothing reaches the database. *)
Theorem use_after_exit_is_not_a_usage_error
  (name : string) (d : db E) (t : string) (fields where_ : option string) :
  let after_block := snd (Common.with_ E Legacy.db_dir (ret tt) (fresh E name d)) in
  connection (self after_block) <> None
  /\ Legacy.fetchone E t fields where_ after_block
     = (Raise (SqliteError (ProgrammingError closed_msg)), after_block)
  /\ Later.fetchall E t fields where_ None false
       (snd (Common.with_ E Later.db_dir (ret tt) (fresh E name d)))
     = (Raise (SqliteError (ProgrammingError closed_msg)),
        snd (Common.with_ E Later.db_dir (ret tt) (fresh E name d))).
Proof.
  simpl. split; [discriminate|]. split; reflexivity.
Qed.

End Scope.

(** ** insert *)

Section Insert.

Variable E : engine.

Variable repr : value -> string.

Variables (w : world E) (c : Connection E) (cu : Cursor).

Hypothesis Hconn : connection (self w) = Some c.

Hypothesis Hopen : closed c = false.

Hypothesis Hcur : cursor (self w) = Some cu.

Lemma legacy_insert_open (t values : string) (fields : option string) :
  let q := Legacy.insert_query t values fields in
  Legacy.insert E t values fields w
  = match run E q [] (view c) with
    | inl (IntegrityError _) =>
        (Return (Some (values ++ " already exists" ++ Py.nl)), failed E w c q [])
    | inl e => (Raise (SqliteError e), failed E w c q [])
    | inr r => (Return None, committed E (ran E w c q [] r))
    end.
Proof.
  intros q. unfold Legacy.insert, Legacy.execute, bind, try_except. fold q.
  rewrite (execute_open E w q [] c cu Hconn Hopen Hcur).
  destruct (run E q [] (view c)) as [[m|m|m]|r]; reflexivity.
Qed.

Lemma later_insert_open (t : string) (values : list value) (fields : option (list string)) :
  let q := Later.insert_query t values fields in
  Later.insert E repr t values fields w
  = match run E q values (view c) with
    | inl (IntegrityError m) =>
        (Return (Some (Py.str_tuple repr values ++ " already exists: " ++ m ++ Py.nl)),
         failed E w c q values)
    | inl e => (Raise (SqliteError e), failed E w c q values)
    | inr r => (Return None, committed E (ran E w c q values r))
    end.
Proof.
  intros q. unfold Later.insert, Later.execute, bind, try_except. fold q.
  rewrite (execute_open E w q values c cu Hconn Hopen Hcur).
  destruct (run E q values (view c)) as [[m|m|m]|r]; reflexivity.
Qed.

(** C3 (amended).  In an open scope, in either variant: an insert the
    engine refuses with IntegrityError, for a value already present under
    a unique key or for any other constraint, raises nothing and returns the
    conflict text; an insert the engine accepts is committed and returns
    [None]; and the call returns a text exactly when the engine raised
    IntegrityError, and [None] exactly when the insert went through. *)
Theorem insert_conflict_is_soft :
  (forall (t values : string) (fields : option string),
     let q := Legacy.insert_query t values fields in
     let answer := run E q [] (view c) in
     let out := Legacy.insert E t values fields w in
     (conflict answer -> fst out = Return (Some (values ++ " already exists" ++ Py.nl)))
     /\ (forall r, answer = inr r ->
           fst out = Return None
           /\ disk (snd out) = new_db r
           /\ seen (snd out) = Some (new_db r)
           /\ trace (snd out) = (trace w ++ [EvExecute q []; EvCommit])%list)
     /\ ((exists s, fst out = Return (Some s)) <-> conflict answer)
     /\ (fst out = Return None <-> accepted answer))
  /\ (forall (t : string) (values : list value) (fields : option (list string)),
        let q := Later.insert_query t values fields in
        let answer := run E q values (view c) in
        let out := Later.insert E repr t values fields w in
        (forall m, answer = inl (IntegrityError m) ->
           fst out = Return (Some (Py.str_tuple repr values ++ " already exists: "
                                   ++ m ++ Py.nl)))
        /\ (forall r, answer = inr r ->
              fst out = Return None
              /\ disk (snd out) = new_db r
              /\ seen (snd out) = Some (new_db r)
              /\ trace (snd out) = (trace w ++ [EvExecute q values; EvCommit])%list)
        /\ ((exists s, fst out = Return (Some s)) <-> conflict answer)
        /\ (fst out = Return None <-> accepted answer)).
Proof.
  split.
  - intros t values fields q answer out. subst out.
    rewrite legacy_insert_open. fold q. fold answer.
    unfold conflict, accepted.
    destruct answer as [[m|m|m]|r] eqn:Ha; cbn [fst snd];
      (split; [intros [m' Hm]; inversion Hm; reflexivity|]);
      (split; [intros r' Hr; inversion Hr; subst;
               repeat (split; [reflexivity|]); apply trace_committed_ran |]);
      split; split;
      try (intros [x Hx]; inversion Hx; fail);
      try (intros Hx; inversion Hx; fail);
      eauto.
  - intros t values fields q answer out. subst out.
    rewrite later_insert_open. fold q. fold answer.
    unfold conflict, accepted.
    destruct answer as [[m|m|m]|r] eqn:Ha; cbn [fst snd];
      (split; [intros m' Hm; inversion Hm; reflexivity|]);
      (split; [intros r' Hr; inversion Hr; subst;
               repeat (split; [reflexivity|]); apply trace_committed_ran |]);
      split; split;
      try (intros [x Hx]; inversion Hx; fail);
      try (intros Hx; inversion Hx; fail);
      eauto.
Qed.

(** C4.  In an open scope, in either variant: an insert the engine refuses
    because its key is already present returns the conflict text and leaves
    everything as it was: the database the connection sees, the file, the
    rows of every table and their number.  Nothing is committed: the one
    event is the refused statement. *)
Theorem conflicting_insert_leaves_table :
  (forall (t values : string) (fields : option string),
     let q := Legacy.insert_query t values fields in
     conflict (run E q [] (view c)) ->
     let out := Legacy.insert E t values fields w in
     (exists s, fst out = Return (Some s))
     /\ seen (snd out) = seen w
     /\ disk (snd out) = disk w
     /\ (forall tbl, rows_seen (snd out) tbl = rows_seen w tbl
                     /\ length (rows_seen (snd out) tbl) = length (rows_seen w tbl))
     /\ trace (snd out) = (trace w ++ [EvExecute q []])%list)
  /\ (forall (t : string) (values : list value) (fields : option (list string)),
        let q := Later.insert_query t values fields in
        conflict (run E q values (view c)) ->
        let out := Later.insert E repr t values fields w in
        (exists s, fst out = Return (Some s))
        /\ seen (snd out) = seen w
        /\ disk (snd out) = disk w
        /\ (forall tbl, rows_seen (snd out) tbl = rows_seen w tbl
                        /\ length (rows_seen (snd out) tbl) = length (rows_seen w tbl))
        /\ trace (snd out) = (trace w ++ [EvExecute q values])%list).
Proof.
  assert (Hseen : seen w = Some (view c)) by (unfold seen; rewrite Hconn; reflexivity).
  split.
  - intros t values fields q [m Hm] out. subst out.
    rewrite legacy_insert_open. fold q. rewrite Hm. simpl.
    split; [eauto|]. split; [symmetry; exact Hseen|]. split; [reflexivity|].
    split; [|reflexivity].
    intros tbl. unfold rows_seen. rewrite Hseen. simpl. split; reflexivity.
  - intros t values fields q [m Hm] out. subst out.
    rewrite later_insert_open. fold q. rewrite Hm. simpl.
    split; [eauto|]. split; [symmetry; exact Hseen|]. split; [reflexivity|].
    split; [|reflexivity].
    intros tbl. unfold rows_seen. rewrite Hseen. simpl. split; reflexivity.
Qed.

End Insert.

(** C3 (as stated, refuted).  The text is not returned for uniqueness
    violations only.  On a table just made by [create_table], with no row
    in it and a column declared NOT NULL, an insert that leaves that column
    NULL returns the [already exists] text in both variants, although
    nothing exists that the row could collide with; the table stays
    empty. *)
Lemma insert_reports_conflict_without_duplicate :
  fst (Common.create_table MiniSql.mini "tobaccos" Examples.strict_schema Examples.empty_shop)
  = Return tt
  /\ rows_seen Examples.strict_shop "tobaccos" = []
  /\ fst (Legacy.insert MiniSql.mini "tobaccos" "('Brand D', NULL)" None Examples.strict_shop)
     = Return (Some ("('Brand D', NULL)" ++ " already exists" ++ Py.nl))
  /\ fst (Later.insert MiniSql.mini Examples.repr "tobaccos" [Text "Brand D"; Null] None
            Examples.strict_shop)
     = Return (Some (Py.str_tuple Examples.repr [Text "Brand D"; Null]
                     ++ " already exists: NOT NULL constraint failed: tobaccos.aroma"
                     ++ Py.nl))
  /\ rows_seen (snd (Legacy.insert MiniSql.mini "tobaccos" "('Brand D', NULL)" None
                       Examples.strict_shop)) "tobaccos" = []
  /\ rows_seen (snd (Later.insert MiniSql.mini Examples.repr "tobaccos"
                       [Text "Brand D"; Null] None Examples.strict_shop)) "tobaccos" = [].
Proof.
  repeat split; vm_compute; reflexivity.
Qed.

(** ** update *)

Section Update.

Variable E : engine.

Variables (w : world E) (c : Connection E) (cu : Cursor).

Hypothesis Hconn : connection (self w) = Some c.

Hypothesis Hopen : closed c = false.

Hypothesis Hcur : cursor (self w) = Some cu.

Lemma legacy_update_open (t values : string) (where_ : option string) :
  let q := Legacy.update_query t values where_ in
  Legacy.update E t values where_ w
  = match run E q [] (view c) with
    | inl e => (Raise (SqliteError e), failed E w c q [])
    | inr r => (Return tt, committed E (ran E w c q [] r))
    end.
Proof.
  intros q. unfold Legacy.update, Legacy.execute, bind. fold q.
  rewrite (execute_open E w q [] c cu Hconn Hopen Hcur).
  destruct (run E q [] (view c)) as [e|r]; reflexivity.
Qed.

Lemma later_update_open (t : string) (values : list (string * value))
  (where_ : option (list (string * value))) :
  let q := fst (Later.update_query t values where_) in
  let ps := snd (Later.update_query t values where_) in
  Later.update E t values where_ w
  = match run E q ps (view c) with
    | inl (IntegrityError m) =>
        (Raise (ValueError ("Failed to update " ++ t ++ ": " ++ m)), failed E w c q ps)
    | inl e => (Raise (SqliteError e), failed E w c q ps)
    | inr r =>
        (Raise (AttributeError "'NoneType' object has no attribute 'rowcount'"),
         committed E (ran E w c q ps r))
    end.
Proof.
  intros q ps. unfold Later.update. subst q ps.
  destruct (Later.update_query t values where_) as [q ps]. simpl fst. simpl snd.
  unfold Later.execute, bind, try_except.
  rewrite (execute_open E w q ps c cu Hconn Hopen Hcur).
  destruct (run E q ps (view c)) as [[m|m|m]|r]; reflexivity.
Qed.

(** C2 (what the code does).  In an open scope, an update of the later
    variant that the engine accepts is committed, and then the call raises
    AttributeError: [execute] handed back [None], not the cursor, so there
    is no row count to read.  An integrity failure does surface as
    ValueError. *)
Theorem later_update_loses_row_count (t : string) (values : list (string * value))
  (where_ : option (list (string * value))) :
  let q := fst (Later.update_query t values where_) in
  let ps := snd (Later.update_query t values where_) in
  let out := Later.update E t values where_ w in
  (forall r, run E q ps (view c) = inr r ->
     fst out = Raise (AttributeError "'NoneType' object has no attribute 'rowcount'")
     /\ disk (snd out) = new_db r
     /\ trace (snd out) = (trace w ++ [EvExecute q ps; EvCommit])%list)
  /\ (forall m, run E q ps (view c) = inl (IntegrityError m) ->
        fst out = Raise (ValueError ("Failed to update " ++ t ++ ": " ++ m)))
  /\ (forall n, fst out <> Return n).
Proof.
  intros q ps out. subst out. rewrite later_update_open. fold q. fold ps.
  destruct (run E q ps (view c)) as [[m|m|m]|r]; cbn [fst snd];
    (split; [intros r' Hr; inversion Hr; subst;
             repeat (split; [reflexivity|]); apply trace_committed_ran|]);
    (split; [intros m' Hm; inversion Hm; reflexivity|]);
    intros n Hn; discriminate Hn.
Qed.

End Update.

(** Whatever the state of the object, [update] of the later variant never
    returns a value. *)
Lemma later_update_never_returns (E : engine) (t : string)
  (values : list (string * value)) (where_ : option (list (string * value)))
  (w : world E) (n : Z) :
  fst (Later.update E t values where_ w) <> Return n.
Proof.
  unfold Later.update. destruct (Later.update_query t values where_) as [q ps].
  unfold try_except, bind, Later.execute, Common.execute, ensure_context,
    bind, try_except, cursor_execute, connection_commit, getattr_rowcount.
  destruct (connection (self w)) as [c|] eqn:Hc; [|simpl; discriminate].
  destruct (cursor (self w)) as [cu|] eqn:Hcu; [|simpl; discriminate].
  destruct (closed c) eqn:Hcl; [simpl; discriminate|].
  destruct (run E q ps (view c)) as [[m|m|m]|r]; simpl; discriminate.
Qed.

(** ** fetchmany and fetchall *)

Section Fetch.

Variable E : engine.

Variables (w : world E) (c : Connection E) (cu : Cursor).

Hypothesis Hconn : connection (self w) = Some c.

Hypothesis Hopen : closed c = false.

Hypothesis Hcur : cursor (self w) = Some cu.

Lemma fetch_after_ran {A : Type} (take : list row -> A * list row) q ps r :
  fst (cursor_fetch E take (ran E w c q ps r)) = Return (fst (take (result_set r))).
Proof.
  unfold cursor_fetch, ran. cbn [self cursor connection closed pending].
  destruct (take (result_set r)). reflexivity.
Qed.

Lemma legacy_fetchmany_open t f wh g r :
  run E (Legacy.fetchmany_query t f wh g) [] (view c) = inr r ->
  fst (Legacy.fetchmany E t f wh g w) = Return (firstn Legacy.batch_size (result_set r)).
Proof.
  intros Hr. unfold Legacy.fetchmany, Legacy.execute, bind.
  rewrite (execute_open E w _ [] c cu Hconn Hopen Hcur), Hr.
  unfold cursor_fetchmany. rewrite fetch_after_ran. reflexivity.
Qed.

Lemma later_fetchall_open t f wh g dst r :
  run E (Later.fetchall_query t f wh g dst) [] (view c) = inr r ->
  fst (Later.fetchall E t f wh g dst w) = Return (result_set r).
Proof.
  intros Hr. unfold Later.fetchall, Later.execute, bind.
  rewrite (execute_open E w _ [] c cu Hconn Hopen Hcur), Hr.
  unfold cursor_fetchall. rewrite fetch_after_ran. reflexivity.
Qed.

(** C8.  In an open scope, for a query the engine answers with a result
    set: when the set has more than 10,000 rows the legacy [fetchmany]
    returns its first 10,000 rows and the later [fetchall] returns all of
    it; when the set is empty both return the empty list, and neither
    raises. *)
Theorem fetch_batch_and_full_set :
  (forall t f wh g r,
     run E (Legacy.fetchmany_query t f wh g) [] (view c) = inr r ->
     (N.to_nat 10000 < length (result_set r) ->
        fst (Legacy.fetchmany E t f wh g w) = Return (firstn (N.to_nat 10000) (result_set r))
        /\ length (firstn (N.to_nat 10000) (result_set r)) = N.to_nat 10000)
     /\ (result_set r = [] -> fst (Legacy.fetchmany E t f wh g w) = Return []))
  /\ (forall t f wh g dst r,
        run E (Later.fetchall_query t f wh g dst) [] (view c) = inr r ->
        fst (Later.fetchall E t f wh g dst w) = Return (result_set r)
        /\ (result_set r = [] -> fst (Later.fetchall E t f wh g dst w) = Return [])).
Proof.
  split.
  - intros t f wh g r Hr. rewrite (legacy_fetchmany_open _ _ _ _ _ Hr).
    unfold Legacy.batch_size. split.
    + intros Hlen. split; [reflexivity|].
      rewrite length_firstn. apply Nat.min_l. apply Nat.lt_le_incl. exact Hlen.
    + intros Hnil. rewrite Hnil. rewrite firstn_nil. reflexivity.
  - intros t f wh g dst r Hr. rewrite (later_fetchall_open _ _ _ _ _ _ Hr).
    split; [reflexivity|]. intros Hnil. rewrite Hnil. reflexivity.
Qed.

End Fetch.

(** ** The texts the two variants build *)

Lemma truthy_seq_map {A B : Type} (f : A -> B) (o : option (list A)) :
  Py.truthy_seq (option_map (map f) o) = Py.truthy_seq o.
Proof. destruct o as [[|x l]|]; reflexivity. Qed.

Lemma set_parts_names (values : list (string * value)) :
  map (fun '(field, _) => field ++ " = ?") values
  = map (fun field => field ++ " = ?") (map fst values).
Proof.
  rewrite map_map. apply map_ext. intros [f v]. reflexivity.
Qed.

(** C5 (as stated, refuted).  Two inserts into the same table with the same
    fields whose value tuples differ in length are sent as different
    texts. *)
Lemma insert_text_depends_on_arity :
  Later.insert_query "tobaccos" [Int 1] None
  <> Later.insert_query "tobaccos" [Int 1; Int 2] None.
Proof. vm_compute. discriminate. Qed.

(** C5 (amended).  In the later variant the text of an insert is the same
    for any two value tuples of the same length, and the text of an update
    is the same for any two calls that agree on the table, on the names of
    the assigned fields and on the names of the condition fields: the
    values themselves never reach the text. *)
Theorem later_text_independent_of_values :
  (forall (t : string) (fields : option (list string)) (v1 v2 : list value),
     length v1 = length v2 ->
     Later.insert_query t v1 fields = Later.insert_query t v2 fields)
  /\ (forall (t : string) (a1 a2 : list (string * value))
             (c1 c2 : option (list (string * value))),
        map fst a1 = map fst a2 ->
        option_map (map fst) c1 = option_map (map fst) c2 ->
        fst (Later.update_query t a1 c1) = fst (Later.update_query t a2 c2)).
Proof.
  split.
  - intros t fields v1 v2 Hlen. unfold Later.insert_query. rewrite Hlen. reflexivity.
  - intros t a1 a2 c1 c2 Ha Hc. unfold Later.update_query.
    rewrite !set_parts_names, Ha.
    assert (Ht : Py.truthy_seq c1 = Py.truthy_seq c2).
    { rewrite <- (truthy_seq_map fst c1), <- (truthy_seq_map fst c2), Hc. reflexivity. }
    rewrite Ht.
    assert (Hn : map fst (Py.seq_of c1) = map fst (Py.seq_of c2)).
    { destruct c1, c2; simpl in *; congruence. }
    rewrite Hn.
    destruct (Py.truthy_seq c2); reflexivity.
Qed.

(** C10.  With no fields given both variants select every column.  The
    legacy variant does the same for the empty string; the later variant,
    given the empty list, joins no names and asks for an empty column list,
    so on that input the two build different texts, and on the reference
    engine the legacy call returns a row where the later one fails.  For a
    list of names that joins to a non-empty string the two agree. *)
Theorem fetchone_empty_fields_differ :
  (forall t wh, Legacy.fetchone_query t None wh = Legacy.fetchone_query t (Some "*") wh)
  /\ (forall t wh, Legacy.fetchone_query t (Some EmptyString) wh
                   = Legacy.fetchone_query t None wh)
  /\ (forall t, Legacy.fetchone_query t None None = "SELECT * FROM " ++ t)
  /\ (forall t, fst (Later.fetchone_query t None None) = "SELECT * FROM " ++ t)
  /\ (forall t, fst (Later.fetchone_query t (Some []) None) = "SELECT  FROM " ++ t)
  /\ (forall t, Legacy.fetchone_query t (Some EmptyString) None
                <> fst (Later.fetchone_query t (Some []) None))
  /\ (forall t fs, Py.truthy_str (Some (Py.join ", " fs)) = true ->
        Legacy.fetchone_query t (Some (Py.join ", " fs)) None
        = fst (Later.fetchone_query t (Some fs) None))
  /\ fst (Legacy.fetchone MiniSql.mini "tobaccos" (Some EmptyString) None Examples.shop)
     = Return (Some [Text "Brand A"; Text "mint"; Text "sweet"; Int 3])
  /\ fst (Later.fetchone MiniSql.mini "tobaccos" (Some []) None Examples.shop)
     = Raise (SqliteError (OperationalError "syntax error")).
Proof.
  repeat split; try reflexivity.
  - intros t H. simpl in H. discriminate H.
  - intros t fs H. unfold Legacy.fetchone_query, Later.fetchone_query.
    rewrite H. reflexivity.
Qed.

(** ** The reference engine: lexing the texts the executor builds *)

Module MiniFacts.
Import MiniSql.

Lemma string_app_assoc (a b c : string) : (a ++ b) ++ c = a ++ (b ++ c).
Proof. induction a as [|x a IH]; simpl; [reflexivity | rewrite IH; reflexivity]. Qed.

Lemma string_app_nil_r (a : string) : a ++ EmptyString = a.
Proof. induction a as [|x a IH]; simpl; [reflexivity | rewrite IH; reflexivity]. Qed.

Lemma lex_run_app (st : lstate) (a b : string) :
  lex_run st (a ++ b)
  = let (s1, t1) := lex_run st a in
    let (s2, t2) := lex_run s1 b in (s2, (t1 ++ t2)%list).
Proof.
  revert st. induction a as [|x a IH]; intros st; simpl.
  - destruct (lex_run st b). reflexivity.
  - destruct (lex_step st x) as [st1 t1]. rewrite IH.
    destruct (lex_run st1 a) as [s1 u1]. destruct (lex_run s1 b) as [s2 u2].
    rewrite app_assoc. reflexivity.
Qed.

(** A space after a fragment that lexes on its own ends its last word; what
    follows is lexed afresh. *)
Lemma lex_space (a b : string) (ta : list token) :
  lex a = Some ta ->
  lex (a ++ String " " b) = option_map (app ta) (lex b).
Proof.
  unfold lex. rewrite lex_run_app.
  destruct (lex_run Idle a) as [sa ea]. intros Ha.
  assert (Hstep : lex_run sa (String " " b)
                  = let (s2, t2) := lex_run Idle b in (s2, (flush sa ++ t2)%list)).
  { destruct sa; try discriminate Ha; reflexivity. }
  rewrite Hstep. destruct (lex_run Idle b) as [s2 t2].
  assert (Hta : ta = (ea ++ flush sa)%list).
  { destruct sa; inversion Ha; reflexivity. }
  subst ta.
  destruct s2; simpl; rewrite <- ?app_assoc; reflexivity.
Qed.

Lemma lex_step_word (st : lstate) (x : ascii) :
  word_char x = true ->
  match st with InText _ _ => False | _ => True end ->
  lex_step st x = (InWord (word_so_far st ++ String x EmptyString), []).
Proof.
  unfold word_char, lex_step. intros H Hst.
  apply andb_prop in H. destruct H as [H Hp].
  apply andb_prop in H. destruct H as [Hs Hq].
  apply negb_true_iff in Hs. apply negb_true_iff in Hq.
  destruct st; [| |contradiction]; rewrite Hs, Hq; destruct (punct x);
    try discriminate Hp; reflexivity.
Qed.

Lemma lex_run_word (acc s : string) :
  all_chars word_char s = true ->
  lex_run (InWord acc) s = (InWord (acc ++ s), []).
Proof.
  revert acc. induction s as [|x s IH]; intros acc H; cbn [lex_run].
  - rewrite string_app_nil_r. reflexivity.
  - simpl in H. apply andb_prop in H. destruct H as [Hx Hs].
    rewrite (lex_step_word (InWord acc) x Hx I). simpl word_so_far.
    rewrite (IH _ Hs). rewrite string_app_assoc. reflexivity.
Qed.

Lemma is_ident_chars (s : string) :
  is_ident s = true ->
  s <> EmptyString /\ all_chars word_char s = true /\ (upper s =? "WHERE") = false.
Proof.
  unfold is_ident. destruct s as [|x s]; [discriminate|].
  intros H. apply andb_prop in H. destruct H as [Hc Hw].
  apply negb_true_iff in Hw. repeat split; [discriminate | exact Hc | exact Hw].
Qed.

Lemma lex_ident (s : string) : is_ident s = true -> lex s = Some [TWord s].
Proof.
  intros H. destruct (is_ident_chars s H) as (Hne & Hc & _).
  destruct s as [|x s]; [contradiction|].
  unfold lex. cbn [lex_run]. simpl in Hc.
  apply andb_prop in Hc. destruct Hc as [Hx Hs].
  rewrite (lex_step_word Idle x Hx I). simpl word_so_far.
  rewrite (lex_run_word _ s Hs). reflexivity.
Qed.

Lemma lex_update_text (t frag : string) (tv : list token) :
  is_ident t = true -> lex frag = Some tv ->
  lex ("UPDATE " ++ t ++ " SET " ++ frag)
  = Some (TWord "UPDATE" :: TWord t :: TWord "SET" :: tv).
Proof.
  intros Ht Hf.
  change ("UPDATE " ++ t ++ " SET " ++ frag)
    with ("UPDATE" ++ String " " (t ++ String " " ("SET" ++ String " " frag))).
  rewrite (lex_space "UPDATE" _ [TWord "UPDATE"] eq_refl).
  rewrite (lex_space t _ [TWord t] (lex_ident t Ht)).
  rewrite (lex_space "SET" _ [TWord "SET"] eq_refl).
  rewrite Hf. reflexivity.
Qed.

Lemma lex_update_where_text (t frag wf : string) (tv : list token) :
  is_ident t = true -> lex frag = Some tv ->
  lex (("UPDATE " ++ t ++ " SET " ++ frag) ++ " WHERE " ++ wf)
  = option_map (fun tw => TWord "UPDATE" :: TWord t :: TWord "SET"
                            :: (tv ++ TWord "WHERE" :: tw)%list)
               (lex wf).
Proof.
  intros Ht Hf.
  change (" WHERE " ++ wf) with (String " " ("WHERE" ++ String " " wf)).
  rewrite (lex_space _ _ _ (lex_update_text t frag tv Ht Hf)).
  rewrite (lex_space "WHERE" _ [TWord "WHERE"] eq_refl).
  destruct (lex wf) as [tw|]; reflexivity.
Qed.

Lemma break_kw_none (k : string) (toks : list token) :
  existsb (is_kw k) toks = false -> break_kw k toks = (toks, None).
Proof.
  induction toks as [|x toks IH]; simpl; [reflexivity|].
  intros H. apply orb_false_elim in H. destruct H as [Hx Hr].
  rewrite Hx, (IH Hr). reflexivity.
Qed.

Lemma break_kw_first (k : string) (before after : list token) (x : token) :
  existsb (is_kw k) before = false -> is_kw k x = true ->
  break_kw k (before ++ x :: after) = (before, Some after).
Proof.
  intros Hb Hx. induction before as [|y before IH]; simpl.
  - rewrite Hx. reflexivity.
  - simpl in Hb. apply orb_false_elim in Hb. destruct Hb as [Hy Hr].
    rewrite Hy, (IH Hr). reflexivity.
Qed.

Lemma lookup_store (t : string) (tb tb' : table) (d : database) :
  lookup t d = Some tb -> lookup t (store t tb' d) = Some tb'.
Proof.
  induction d as [|[n old] d IH]; simpl; [discriminate|].
  destruct (n =? t) eqn:Hn; simpl; rewrite Hn; [reflexivity|]. exact IH.
Qed.

Lemma lookup_app_new (t : string) (tb : table) (d : database) :
  lookup t d = None -> lookup t (d ++ [(t, tb)])%list = Some tb.
Proof.
  induction d as [|[n old] d IH]; simpl.
  - rewrite String.eqb_refl. reflexivity.
  - destruct (n =? t); [discriminate|]. exact IH.
Qed.

(** An accepted UPDATE rewrites the rows that satisfy the condition and no
    others; the columns of the table stay. *)
Lemma exec_update_rows (t : string) (sets cond : list (string * value)) (d : database)
  (r : reply database) :
  exec_update t sets cond d = inr r ->
  table_rows (new_db r) t
  = map (fun row => if holds (table_columns d t) cond row
                    then assign (table_columns d t) sets row else row)
        (table_rows d t)
  /\ affected r = Z.of_nat (length (filter (holds (table_columns d t) cond) (table_rows d t))).
Proof.
  unfold exec_update, table_rows, table_columns.
  destruct (lookup t d) as [tb|] eqn:Hl; [|discriminate].
  destruct (forallb _ _ && forallb _ _); [|discriminate].
  destruct (null_among _ _); [discriminate|].
  destruct (unique_ok _ _); [|discriminate].
  intros H. inversion H. simpl.
  rewrite (lookup_store t tb _ d Hl). split; reflexivity.
Qed.

(** What an accepted UPDATE text was read as. *)
Lemma run_update_text (t frag : string) (where_ : option string) (tv : list token)
  (ps : list value) (d : database) (r : reply database) :
  is_ident t = true -> lex frag = Some tv -> existsb (is_kw "WHERE") tv = false ->
  run (Legacy.update_query t frag where_) ps d = inr r ->
  exists sets cond,
    parse_pairs is_comma tv = Some sets
    /\ (if Py.truthy_str where_
        then exists tw, lex (Py.str_of where_) = Some tw
                        /\ parse_pairs (is_kw "AND") tw = Some cond
        else cond = [])
    /\ exec (SUpdate t sets cond) ps d = inr r.
Proof.
  intros Ht Hf Hfree. unfold run, Legacy.update_query.
  destruct (Py.truthy_str where_) eqn:Hw.
  - rewrite (lex_update_where_text t frag _ tv Ht Hf).
    destruct (lex (Py.str_of where_)) as [tw|] eqn:Hlw; [|discriminate].
    cbn [option_map].
    change (parse (TWord "UPDATE" :: TWord t :: TWord "SET" :: (tv ++ TWord "WHERE" :: tw)%list))
      with (parse_update (TWord t :: TWord "SET" :: (tv ++ TWord "WHERE" :: tw)%list)).
    unfold parse_update.
    change (is_kw "SET" (TWord "SET")) with true. cbn iota.
    rewrite (break_kw_first "WHERE" tv tw (TWord "WHERE") Hfree eq_refl).
    cbn [name_of parse_where].
    destruct (parse_pairs is_comma tv) as [sets|]; [|discriminate].
    destruct (parse_pairs (is_kw "AND") tw) as [cond|] eqn:Hp; [|discriminate].
    intros H. exists sets, cond. split; [reflexivity|]. split; [|exact H].
    exists tw. split; [reflexivity | exact Hp].
  - rewrite (lex_update_text t frag tv Ht Hf).
    change (parse (TWord "UPDATE" :: TWord t :: TWord "SET" :: tv))
      with (parse_update (TWord t :: TWord "SET" :: tv)).
    unfold parse_update.
    change (is_kw "SET" (TWord "SET")) with true. cbn iota.
    rewrite (break_kw_none "WHERE" tv Hfree).
    cbn [name_of parse_where].
    destruct (parse_pairs is_comma tv) as [sets|]; [|discriminate].
    intros H. exists sets, []. split; [reflexivity|]. split; [reflexivity|exact H].
Qed.

Lemma exec_update_bound (t : string) (sets cond : list (string * expr))
  (ps : list value) (d : database) (r : reply database) :
  exec (SUpdate t sets cond) ps d = inr r ->
  exists ss ps1 cs,
    bind_pairs sets ps = Some (ss, ps1)
    /\ bind_pairs cond ps1 = Some (cs, [])
    /\ exec_update t ss cs d = inr r.
Proof.
  simpl. destruct (bind_pairs sets ps) as [[ss ps1]|]; [|discriminate].
  destruct (bind_pairs cond ps1) as [[cs [|p rest]]|] eqn:Hc; try discriminate.
  intros H. exists ss, ps1, cs. auto.
Qed.

Lemma bind_pairs_no_params (l : list (string * expr)) bs rest :
  bind_pairs l [] = Some (bs, rest) -> rest = [].
Proof.
  revert bs. induction l as [|[n [v|]] l IH]; intros bs; simpl.
  - intros H. inversion H. reflexivity.
  - destruct (bind_pairs l []) as [[bs' r']|] eqn:Hb; [|discriminate].
    simpl. intros H. inversion H. subst. exact (IH _ eq_refl).
  - discriminate.
Qed.

(** The legacy text: the assignments of the SET fragment reach every row
    when no condition is given, and exactly the rows that satisfy the WHERE
    fragment when one is. *)
Lemma legacy_update_rows (t values : string) (where_ : option string) (d : database)
  (r : reply database) :
  is_ident t = true -> clean_fragment values = true ->
  run (Legacy.update_query t values where_) [] d = inr r ->
  exists sets,
    assignments_of values [] = Some (sets, [])
    /\ (Py.truthy_str where_ = false ->
          table_rows (new_db r) t = map (assign (table_columns d t) sets) (table_rows d t))
    /\ (Py.truthy_str where_ = true ->
          exists cond,
            condition_of (Py.str_of where_) [] = Some (cond, [])
            /\ table_rows (new_db r) t
               = map (fun row => if holds (table_columns d t) cond row
                                 then assign (table_columns d t) sets row else row)
                     (table_rows d t)).
Proof.
  intros Ht Hclean Hrun. unfold clean_fragment in Hclean.
  destruct (lex values) as [tv|] eqn:Hlex; [|discriminate].
  apply negb_true_iff in Hclean.
  destruct (run_update_text t values where_ tv [] d r Ht Hlex Hclean Hrun)
    as (sets & cond & Hsets & Hcond & Hexec).
  destruct (exec_update_bound _ _ _ _ _ _ Hexec) as (ss & ps1 & cs & Hb1 & Hb2 & Hup).
  assert (ps1 = []) by (eapply bind_pairs_no_params; exact Hb1). subst ps1.
  destruct (exec_update_rows _ _ _ _ _ Hup) as [Hrows _].
  exists ss. split.
  { unfold assignments_of. rewrite Hlex, Hsets. exact Hb1. }
  split; intros Hw; rewrite Hw in Hcond.
  - subst cond. simpl in Hb2. inversion Hb2. subst cs.
    rewrite Hrows. apply map_ext. intros row. reflexivity.
  - destruct Hcond as (tw & Hlw & Hp). exists cs. split; [|exact Hrows].
    unfold condition_of. rewrite Hlw, Hp. exact Hb2.
Qed.

(** *** The later text: [name = ?] pairs *)

Section Placeholders.

Variables (sep : string) (septok : token) (is_sep : token -> bool).

Hypothesis lex_sep : forall (rest : string) (tr : list token),
  lex rest = Some tr -> lex ("?" ++ sep ++ rest) = Some (TQmark :: septok :: tr).

Hypothesis sep_ok : is_sep septok = true.

Lemma lex_placeholders (names : list string) :
  names <> [] -> forallb is_ident names = true ->
  lex (Py.join sep (map (fun n => n ++ " = ?") names))
  = Some (placeholder_tokens septok names).
Proof.
  induction names as [|n rest IH]; [contradiction|]. intros _ Hid.
  simpl in Hid. apply andb_prop in Hid. destruct Hid as [Hn Hrest].
  destruct rest as [|m rest].
  - simpl. change (n ++ " = ?") with (n ++ String " " ("=" ++ String " " "?")).
    rewrite (lex_space n _ [TWord n] (lex_ident n Hn)).
    rewrite (lex_space "=" _ [TEq] eq_refl). reflexivity.
  - change (Py.join sep (map (fun n0 => n0 ++ " = ?") (n :: m :: rest)))
      with ((n ++ " = ?") ++ sep ++ Py.join sep (map (fun n0 => n0 ++ " = ?") (m :: rest))).
    rewrite string_app_assoc.
    change (n ++ " = ?" ++ sep ++ Py.join sep (map (fun n0 => n0 ++ " = ?") (m :: rest)))
      with (n ++ String " " ("=" ++ String " "
              ("?" ++ sep ++ Py.join sep (map (fun n0 => n0 ++ " = ?") (m :: rest))))).
    rewrite (lex_space n _ [TWord n] (lex_ident n Hn)).
    rewrite (lex_space "=" _ [TEq] eq_refl).
    rewrite (lex_sep _ _ (IH ltac:(discriminate) Hrest)). reflexivity.
Qed.

Lemma parse_placeholders (names : list string) :
  names <> [] ->
  parse_pairs is_sep (placeholder_tokens septok names)
  = Some (map (fun n => (n, EParam)) names).
Proof.
  induction names as [|n rest IH]; [contradiction|]. intros _.
  destruct rest as [|m rest]; [reflexivity|].
  change (placeholder_tokens septok (n :: m :: rest))
    with (TWord n :: TEq :: TQmark :: septok :: placeholder_tokens septok (m :: rest)).
  cbn [parse_pairs name_of expr_of]. rewrite sep_ok.
  rewrite (IH ltac:(discriminate)). reflexivity.
Qed.

End Placeholders.

Lemma lex_comma_sep (rest : string) (tr : list token) :
  lex rest = Some tr -> lex ("?" ++ ", " ++ rest) = Some (TQmark :: TComma :: tr).
Proof.
  intros H. change ("?" ++ ", " ++ rest) with ("?," ++ String " " rest).
  rewrite (lex_space "?," _ [TQmark; TComma] eq_refl), H. reflexivity.
Qed.

Lemma lex_and_sep (rest : string) (tr : list token) :
  lex rest = Some tr -> lex ("?" ++ " AND " ++ rest) = Some (TQmark :: TWord "AND" :: tr).
Proof.
  intros H. change ("?" ++ " AND " ++ rest) with ("?" ++ String " " ("AND" ++ String " " rest)).
  rewrite (lex_space "?" _ [TQmark] eq_refl).
  rewrite (lex_space "AND" _ [TWord "AND"] eq_refl), H. reflexivity.
Qed.

Lemma placeholders_no_where (names : list string) :
  forallb is_ident names = true ->
  existsb (is_kw "WHERE") (placeholder_tokens TComma names) = false.
Proof.
  induction names as [|n rest IH]; [reflexivity|]. intros Hid.
  simpl in Hid. apply andb_prop in Hid. destruct Hid as [Hn Hrest].
  destruct (is_ident_chars n Hn) as (_ & _ & Hw).
  destruct rest as [|m rest].
  - simpl. rewrite Hw. reflexivity.
  - change (placeholder_tokens TComma (n :: m :: rest))
      with (TWord n :: TEq :: TQmark :: TComma :: placeholder_tokens TComma (m :: rest)).
    cbn [existsb is_kw]. rewrite Hw, (IH Hrest). reflexivity.
Qed.

Lemma bind_placeholders (pairs : list (string * value)) (rest : list value) :
  bind_pairs (map (fun n => (n, EParam)) (map fst pairs)) (map snd pairs ++ rest)
  = Some (pairs, rest).
Proof.
  induction pairs as [|[n v] pairs IH]; simpl; [reflexivity|].
  rewrite IH. reflexivity.
Qed.

Lemma truthy_named (n rest : string) : Py.truthy_str (Some ((n ++ " = ?") ++ rest)) = true.
Proof. destruct n; reflexivity. Qed.

Lemma truthy_joined (sep : string) (names : list string) :
  names <> [] -> Py.truthy_str (Some (Py.join sep (map (fun n => n ++ " = ?") names))) = true.
Proof.
  destruct names as [|n [|m rest]]; [contradiction| |]; intros _.
  - simpl. rewrite <- (string_app_nil_r (n ++ " = ?")). apply truthy_named.
  - apply truthy_named.
Qed.

Lemma lex_set_clause (names : list string) :
  forallb is_ident names = true ->
  lex (Py.join ", " (map (fun n => n ++ " = ?") names))
  = Some (placeholder_tokens TComma names).
Proof.
  destruct names as [|n rest]; [reflexivity|]. intros H.
  apply (lex_placeholders ", " TComma lex_comma_sep); [discriminate | exact H].
Qed.

Lemma later_update_text (t : string) (values : list (string * value))
  (where_ : option (list (string * value))) :
  fst (Later.update_query t values where_)
  = Legacy.update_query t
      (Py.join ", " (map (fun n => n ++ " = ?") (map fst values)))
      (if Py.truthy_seq where_
       then Some (Py.join " AND " (map (fun n => n ++ " = ?") (map fst (Py.seq_of where_))))
       else None)
  /\ snd (Later.update_query t values where_)
     = (map snd values ++ map snd (Py.seq_of where_))%list.
Proof.
  unfold Later.update_query, Legacy.update_query. rewrite !set_parts_names.
  destruct where_ as [[|p l]|]; cbn [Py.truthy_seq Py.seq_of fst snd].
  - simpl map. rewrite app_nil_r. split; reflexivity.
  - rewrite truthy_joined by discriminate. split; reflexivity.
  - simpl map. rewrite app_nil_r. split; reflexivity.
Qed.

(** The later text: the assignments reach exactly the rows that satisfy
    every [field = value] of the condition, that is every row when no
    condition is given. *)
Lemma later_update_rows (t : string) (values : list (string * value))
  (where_ : option (list (string * value))) (d : database) (r : reply database) :
  is_ident t = true ->
  forallb is_ident (map fst values) = true ->
  forallb is_ident (map fst (Py.seq_of where_)) = true ->
  run (fst (Later.update_query t values where_)) (snd (Later.update_query t values where_)) d
  = inr r ->
  table_rows (new_db r) t
  = map (fun row => if holds (table_columns d t) (Py.seq_of where_) row
                    then assign (table_columns d t) values row else row)
        (table_rows d t).
Proof.
  intros Ht Hv Hw. destruct (later_update_text t values where_) as [Hq Hp].
  rewrite Hq, Hp. clear Hq Hp. intros Hrun.
  destruct (run_update_text t _ _ _ _ d r Ht (lex_set_clause _ Hv)
              (placeholders_no_where _ Hv) Hrun)
    as (sets & cond & Hsets & Hcond & Hexec).
  assert (Hnv : map fst values <> []).
  { destruct values; [discriminate Hsets | discriminate]. }
  rewrite parse_placeholders with (is_sep := is_comma) in Hsets
    by (reflexivity || exact Hnv).
  injection Hsets as Hsets. subst sets.
  destruct (exec_update_bound _ _ _ _ _ _ Hexec) as (ss & ps1 & cs & Hb1 & Hb2 & Hup).
  rewrite bind_placeholders in Hb1. injection Hb1 as Hss Hps. subst ss ps1.
  assert (Hcs : cs = Py.seq_of where_).
  { destruct (Py.truthy_seq where_) eqn:Htr.
    - assert (Hne : map fst (Py.seq_of where_) <> []).
      { destruct where_ as [[|p l]|]; try discriminate Htr. simpl. discriminate. }
      rewrite truthy_joined in Hcond by exact Hne.
      destruct Hcond as (tw & Hlw & Hpw).
      cbn [Py.str_of] in Hlw.
      rewrite (lex_placeholders " AND " (TWord "AND") lex_and_sep _ Hne Hw) in Hlw.
      injection Hlw as Hlw. subst tw.
      rewrite parse_placeholders with (is_sep := is_kw "AND") in Hpw
        by (reflexivity || exact Hne).
      injection Hpw as Hpw. subst cond.
      rewrite <- (app_nil_r (map snd (Py.seq_of where_))) in Hb2.
      rewrite bind_placeholders in Hb2. injection Hb2 as Hb2. symmetry. exact Hb2.
    - cbn [Py.truthy_str] in Hcond. subst cond.
      assert (Hnil : Py.seq_of where_ = []).
      { destruct where_ as [[|p l]|]; try discriminate Htr; reflexivity. }
      rewrite Hnil in *. simpl in Hb2. inversion Hb2. reflexivity. }
  subst cs. exact (proj1 (exec_update_rows _ _ _ _ _ Hup)).
Qed.

(** *** CREATE TABLE IF NOT EXISTS *)

Lemma parse_create_shape (toks : list token) (s : stmt) :
  parse_create toks = Some s -> exists t cols, s = SCreate t cols.
Proof.
  unfold parse_create.
  destruct toks as [|k1 [|k2 [|k3 [|k4 [|t [|[] body]]]]]]; try discriminate.
  destruct (is_kw "TABLE" k1 && is_kw "IF" k2 && is_kw "NOT" k3 && is_kw "EXISTS" k4);
    [|discriminate].
  destruct (name_of t) as [n|]; [|discriminate].
  destruct (until_rparen body) as [[inner [|x after]]|]; try discriminate.
  destruct (all_some (map parse_coldef (split_commas inner))) as [cols|]; [|discriminate].
  simpl. intros H. inversion H. eauto.
Qed.

Lemma exec_create_again (t : string) (cols : list coldef) (d : database)
  (r : reply database) :
  exec_create t cols d = inr r ->
  exec_create t cols (new_db r) = inr (mkReply (new_db r) [] (-1)).
Proof.
  unfold exec_create. destruct (lookup t d) as [tb|] eqn:Hl; intros H; inversion H; simpl.
  - rewrite Hl. reflexivity.
  - rewrite (lookup_app_new t _ d Hl). reflexivity.
Qed.

(** A CREATE TABLE IF NOT EXISTS that went through goes through again on
    the database it left, and changes nothing there. *)
Lemma run_create_again (rest : string) (d : database) (r : reply database) :
  run ("CREATE TABLE IF NOT EXISTS " ++ rest) [] d = inr r ->
  run ("CREATE TABLE IF NOT EXISTS " ++ rest) [] (new_db r)
  = inr (mkReply (new_db r) [] (-1)).
Proof.
  unfold run.
  change ("CREATE TABLE IF NOT EXISTS " ++ rest)
    with ("CREATE" ++ String " " ("TABLE" ++ String " " ("IF" ++ String " "
            ("NOT" ++ String " " ("EXISTS" ++ String " " rest))))).
  rewrite (lex_space "CREATE" _ [TWord "CREATE"] eq_refl).
  rewrite (lex_space "TABLE" _ [TWord "TABLE"] eq_refl).
  rewrite (lex_space "IF" _ [TWord "IF"] eq_refl).
  rewrite (lex_space "NOT" _ [TWord "NOT"] eq_refl).
  rewrite (lex_space "EXISTS" _ [TWord "EXISTS"] eq_refl).
  destruct (lex rest) as [tr|]; [|discriminate]. cbn [option_map app].
  change (parse (TWord "CREATE" :: TWord "TABLE" :: TWord "IF" :: TWord "NOT"
                   :: TWord "EXISTS" :: tr))
    with (parse_create (TWord "TABLE" :: TWord "IF" :: TWord "NOT" :: TWord "EXISTS" :: tr)).
  destruct (parse_create _) as [s|] eqn:Hp; [|discriminate].
  destruct (parse_create_shape _ _ Hp) as (t & cols & ->).
  cbn [exec]. apply exec_create_again.
Qed.

End MiniFacts.

(** ** update on any engine that follows SQL *)

Lemma legacy_update_texts (t values : string) (where_ : option string) :
  Legacy.update_query t values where_
  = if Py.truthy_str where_
    then "UPDATE " ++ t ++ " SET " ++ values ++ " WHERE " ++ Py.str_of where_
    else "UPDATE " ++ t ++ " SET " ++ values.
Proof.
  unfold Legacy.update_query. destruct (Py.truthy_str where_); [|reflexivity].
  cbn [append]. rewrite !MiniFacts.string_app_assoc. reflexivity.
Qed.

Lemma later_update_texts (t : string) (values : list (string * value))
  (where_ : option (list (string * value))) :
  Later.update_query t values where_
  = if Py.truthy_seq where_
    then ("UPDATE " ++ t ++ " SET " ++ SqlUpdate.placeholders ", " values
          ++ " WHERE " ++ SqlUpdate.placeholders " AND " (Py.seq_of where_),
          (map snd values ++ map snd (Py.seq_of where_))%list)
    else ("UPDATE " ++ t ++ " SET " ++ SqlUpdate.placeholders ", " values, map snd values).
Proof.
  assert (Hparts : forall pairs : list (string * value),
             map (fun '(field, _) => field ++ " = ?") pairs
             = map (fun p => fst p ++ " = ?") pairs).
  { intros pairs. apply map_ext. intros [f v]. reflexivity. }
  unfold Later.update_query, SqlUpdate.placeholders. rewrite !Hparts.
  destruct (Py.truthy_seq where_); [|reflexivity].
  cbn [append]. rewrite !MiniFacts.string_app_assoc. reflexivity.
Qed.

Section UpdateRows.

Variable E : engine.

Variables (w : world E) (c : Connection E) (cu : Cursor).

Hypothesis Hconn : connection (self w) = Some c.

Hypothesis Hopen : closed c = false.

Hypothesis Hcur : cursor (self w) = Some cu.

Lemma rows_seen_open (t : string) : rows_seen w t = table_rows E (view c) t.
Proof. unfold rows_seen, seen. rewrite Hconn. reflexivity. Qed.

(** The table, and the engine's reading of the statements on it. *)
Variable t : string.

Variable R : SqlUpdate.reading.

Hypothesis Hsql : SqlUpdate.follows_sql E R (view c) t.


End UpdateRows.

(** The reference engine follows SQL, under its own reading, on every table
    whose name is a word. *)
Lemma mini_follows_sql (d : MiniSql.database) (t : string) :
  MiniSql.is_ident t = true ->
  SqlUpdate.follows_sql MiniSql.mini (SqlUpdate.mini_reading (MiniSql.table_columns d t)) d t.
Proof.
  intros Ht. unfold SqlUpdate.follows_sql, SqlUpdate.rewrites.
  cbn [SqlUpdate.mini_reading SqlUpdate.is_assignments SqlUpdate.assigned
       SqlUpdate.is_condition SqlUpdate.satisfied SqlUpdate.is_column SqlUpdate.stored
       SqlUpdate.matched].
  assert (Hwords : forall names, Forall (fun name => MiniSql.is_ident name = true) names ->
                                 forallb MiniSql.is_ident names = true).
  { intros names H. apply forallb_forall. apply Forall_forall. exact H. }
  split; [|split; [|split]].
  - intros sets r Hclean Hrun.
    destruct (MiniFacts.legacy_update_rows t sets None d r Ht Hclean Hrun)
      as (pairs & Hpairs & Hrows & _).
    refine (eq_trans (Hrows eq_refl) _). apply map_ext. intros row.
    unfold MiniSql.assigned. rewrite Hpairs. reflexivity.
  - intros sets cond r Hclean Hcond Hrun.
    assert (Htruthy : Py.truthy_str (Some cond) = true).
    { cbn [Py.truthy_str]. destruct cond; [contradiction|reflexivity]. }
    assert (Hrun' : run MiniSql.mini (Legacy.update_query t sets (Some cond)) [] d = inr r).
    { rewrite legacy_update_texts, Htruthy. exact Hrun. }
    destruct (MiniFacts.legacy_update_rows t sets (Some cond) d r Ht Hclean Hrun')
      as (pairs & Hpairs & _ & Hrows).
    destruct (Hrows Htruthy) as (cpairs & Hcpairs & Heq).
    refine (eq_trans Heq _). apply map_ext. intros row.
    unfold MiniSql.assigned, MiniSql.satisfies. cbn [Py.str_of] in Hcpairs.
    rewrite Hpairs, Hcpairs. reflexivity.
  - intros values r Hv Hrun.
    assert (Hrun' : run MiniSql.mini (fst (Later.update_query t values None))
                      (snd (Later.update_query t values None)) d = inr r).
    { rewrite later_update_texts. exact Hrun. }
    exact (MiniFacts.later_update_rows t values None d r Ht (Hwords _ Hv) eq_refl Hrun').
  - intros values cond r Hv Hc Hne Hrun.
    assert (Htruthy : Py.truthy_seq (Some cond) = true).
    { destruct cond; [contradiction|reflexivity]. }
    assert (Hrun' : run MiniSql.mini (fst (Later.update_query t values (Some cond)))
                      (snd (Later.update_query t values (Some cond))) d = inr r).
    { rewrite later_update_texts, Htruthy. exact Hrun. }
    exact (MiniFacts.later_update_rows t values (Some cond) d r Ht (Hwords _ Hv)
             (Hwords _ Hc) Hrun').
Qed.


(** Why the SET fragment has to be a list of assignments and nothing more:
    the legacy variant puts it into the text as it is, so a fragment that
    brings its own WHERE limits the update although no condition is passed.
    On the reference engine, of the three rows only the one of Brand A is
    changed. *)
Lemma update_without_condition_can_skip_rows :
  let out := Legacy.update MiniSql.mini "tobaccos" "potency = 0 WHERE mark = 'Brand A'"
               None Examples.shop in
  Legacy.update_query "tobaccos" "potency = 0 WHERE mark = 'Brand A'" None
  = "UPDATE tobaccos SET potency = 0 WHERE mark = 'Brand A'"
  /\ fst out = Return tt
  /\ rows_seen (snd out) "tobaccos"
     = [[Text "Brand A"; Text "mint"; Text "sweet"; Int 0];
        [Text "Brand B"; Text "rose"; Text "sour"; Int 5];
        [Text "Brand C"; Text "mint"; Text "bitter"; Int 7]]
  /\ rows_seen (snd out) "tobaccos"
     <> map (MiniSql.assign (MiniSql.columns Examples.tobaccos) [("potency", Int 0)])
            (rows_seen Examples.shop "tobaccos").
Proof.
  cbv zeta. split; [reflexivity|]. split; [vm_compute; reflexivity|].
  split; [vm_compute; reflexivity|]. vm_compute. discriminate.
Qed.

(** ** create_table *)

Lemma execute_returns (E : engine) (q : string) (ps : list value) (w w1 : world E)
  (o : pyobj) :
  Common.execute E q ps w = (Return o, w1) ->
  exists c cu r,
    connection (self w) = Some c /\ closed c = false /\ cursor (self w) = Some cu
    /\ run E q ps (view c) = inr r /\ w1 = ran E w c q ps r.
Proof.
  unfold Common.execute, ensure_context, bind, try_except, cursor_execute.
  destruct (connection (self w)) as [c|] eqn:Hc; [|discriminate].
  destruct (cursor (self w)) as [cu|] eqn:Hcu; [|discriminate].
  destruct (closed c) eqn:Hcl; [discriminate|].
  destruct (run E q ps (view c)) as [e|r] eqn:Hr; [discriminate|].
  intros H. injection H as Ho Hw. subst w1.
  exists c, cu, r. repeat split; assumption || reflexivity.
Qed.

Lemma create_is_not_dml (rest : string) :
  is_dml ("CREATE TABLE IF NOT EXISTS " ++ rest) = false.
Proof. reflexivity. Qed.

Lemma create_table_again (t : string) (columns : list (string * string))
  (w w1 : world MiniSql.mini) :
  Common.create_table MiniSql.mini t columns w = (Return tt, w1) ->
  exists w2,
    Common.create_table MiniSql.mini t columns w1 = (Return tt, w2)
    /\ disk w2 = disk w1
    /\ seen w2 = seen w1
    /\ (forall tbl, rows_seen w2 tbl = rows_seen w1 tbl).
Proof.
  unfold Common.create_table. destruct columns as [|p l]; [discriminate|].
  set (q := "CREATE TABLE IF NOT EXISTS " ++ _).
  unfold bind at 1.
  destruct (Common.execute MiniSql.mini q [] w) as [[o|e] w'] eqn:Hex; [|discriminate].
  intros H. inversion H. subst w'. clear H.
  destruct (execute_returns _ _ _ _ _ _ Hex) as (c & cu & r & Hc & Hcl & Hcu & Hr & ->).
  assert (Hagain : run MiniSql.mini q [] (new_db r) = inr (mkReply (new_db r) [] (-1)))
    by exact (MiniFacts.run_create_again _ _ _ Hr).
  unfold bind.
  rewrite (execute_open MiniSql.mini (ran MiniSql.mini w c q [] r) q []
             _ _ eq_refl eq_refl eq_refl).
  cbn [view]. rewrite Hagain.
  eexists. split; [reflexivity|].
  unfold ran. cbn [disk in_transaction new_db]. subst q.
  rewrite create_is_not_dml, !orb_false_r.
  split; [destruct (in_transaction c); reflexivity|].
  split; [reflexivity|]. intros tbl. reflexivity.
Qed.

(** C7.  On the reference engine: when [create_table] with a non-empty
    schema has gone through, the same call made again goes through too and
    leaves the database as it was, on the file and as the connection sees
    it.  On any engine, with an empty schema [create_table] raises
    ValueError and nothing else happens: no statement is run.  The method is
    the same in both variants. *)
Theorem create_table_is_idempotent :
  (forall (t : string) (columns : list (string * string)) (w w1 : world MiniSql.mini),
     columns <> [] ->
     Legacy.create_table MiniSql.mini t columns w = (Return tt, w1) ->
     exists w2,
       Legacy.create_table MiniSql.mini t columns w1 = (Return tt, w2)
       /\ disk w2 = disk w1 /\ seen w2 = seen w1
       /\ (forall tbl, rows_seen w2 tbl = rows_seen w1 tbl))
  /\ (forall (t : string) (columns : list (string * string)) (w w1 : world MiniSql.mini),
        columns <> [] ->
        Later.create_table MiniSql.mini t columns w = (Return tt, w1) ->
        exists w2,
          Later.create_table MiniSql.mini t columns w1 = (Return tt, w2)
          /\ disk w2 = disk w1 /\ seen w2 = seen w1
          /\ (forall tbl, rows_seen w2 tbl = rows_seen w1 tbl))
  /\ (forall (E : engine) (t : string) (w : world E),
        Legacy.create_table E t [] w
        = (Raise (ValueError "Columns dictionary cannot be empty."), w)
        /\ Later.create_table E t [] w
           = (Raise (ValueError "Columns dictionary cannot be empty."), w)).
Proof.
  split; [|split].
  - intros t columns w w1 _ H. exact (create_table_again t columns w w1 H).
  - intros t columns w w1 _ H. exact (create_table_again t columns w w1 H).
  - intros E t w. split; reflexivity.
Qed.

(** ** Before the scope is entered *)

(** With no connection yet, every method that reaches [execute] ends in the
    usage error and leaves everything as it was. *)
Lemma unentered_calls_are_usage_errors (E : engine) (repr : value -> string) (w : world E) :
  connection (self w) = None ->
  let usage {A : Type} : outcome A * world E :=
    (Raise (RuntimeError "Database must be used within a 'with' statement."), w) in
  (forall t col cols, Common.create_table E t (col :: cols) w = usage)
  /\ (forall t f wh, Legacy.fetchone E t f wh w = usage)
  /\ (forall t f wh g, Legacy.fetchmany E t f wh g w = usage)
  /\ (forall t v wh, Legacy.update E t v wh w = usage)
  /\ (forall t v f, Legacy.insert E t v f w = usage)
  /\ (forall t f wh, Later.fetchone E t f wh w = usage)
  /\ (forall t f wh g dst, Later.fetchall E t f wh g dst w = usage)
  /\ (forall t v wh, Later.update E t v wh w = usage)
  /\ (forall t v f, Later.insert E repr t v f w = usage).
Proof.
  intros Hc usage. subst usage.
  repeat split; intros;
    unfold Common.create_table, Legacy.fetchone, Legacy.fetchmany, Legacy.update,
      Legacy.insert, Later.fetchone, Later.fetchall, Later.update, Later.insert,
      Legacy.execute, Later.execute, bind, try_except;
    try match goal with
        | |- context [Later.fetchone_query ?t ?f ?wh] =>
            destruct (Later.fetchone_query t f wh)
        | |- context [Later.update_query ?t ?v ?wh] =>
            destruct (Later.update_query t v wh)
        end;
    unfold bind, try_except; rewrite (execute_unentered E w _ _ Hc); reflexivity.
Qed.

(** * The statements at work on the tobacco table *)

Import Examples.

Lemma scope_releases_connection_witness :
  manager_state (fresh MiniSql.mini "hookah" shop_db) = Closed
  /\ manager_state shop = Open
  /\ steady (Legacy.insert MiniSql.mini "tobaccos" brand_a_text None)
  /\ manager_state
       (snd (Legacy.with_ MiniSql.mini (Legacy.insert MiniSql.mini "tobaccos" brand_a_text None)
               (fresh MiniSql.mini "hookah" shop_db))) = Closed
  /\ fst (Legacy.with_ MiniSql.mini (Legacy.insert MiniSql.mini "tobaccos" brand_a_text None)
            (fresh MiniSql.mini "hookah" shop_db))
     = Return (Some (brand_a_text ++ " already exists" ++ Py.nl))
  /\ mstep (manager_state shop) (manager_state (snd (Common.__exit__ MiniSql.mini shop))).
Proof.
  destruct (scope_releases_connection MiniSql.mini Legacy.db_dir) as (Henter & Hexit & Hany & Hsteady).
  split; [reflexivity|]. split; [reflexivity|].
  split; [apply steady_legacy_insert|].
  split; [apply Hany|].
  split.
  - destruct (Hsteady _ (Legacy.insert MiniSql.mini "tobaccos" brand_a_text None)
                (fresh MiniSql.mini "hookah" shop_db) (steady_legacy_insert MiniSql.mini _ _ _))
      as (Hout & _).
    unfold Legacy.with_. rewrite Hout. vm_compute. reflexivity.
  - destruct (Hexit shop eq_refl) as (w1 & He & Hstep & _).
    rewrite He. exact Hstep.
Defined.

Lemma later_update_loses_row_count_witness :
  connection (self shop) = Some shop_connection
  /\ closed shop_connection = false
  /\ cursor (self shop) = Some shop_cursor
  /\ fst (Later.update MiniSql.mini "tobaccos" [("aroma", Text "rose")]
            (Some [("mark", Text "Brand A")]) shop)
     = Raise (AttributeError "'NoneType' object has no attribute 'rowcount'")
  /\ MiniSql.table_rows
       (disk (snd (Later.update MiniSql.mini "tobaccos" [("aroma", Text "rose")]
                     (Some [("mark", Text "Brand A")]) shop))) "tobaccos"
     = [[Text "Brand A"; Text "rose"; Text "sweet"; Int 3];
        [Text "Brand B"; Text "rose"; Text "sour"; Int 5];
        [Text "Brand C"; Text "mint"; Text "bitter"; Int 7]].
Proof.
  split; [reflexivity|]. split; [reflexivity|]. split; [reflexivity|].
  destruct (later_update_loses_row_count MiniSql.mini shop shop_connection shop_cursor
              eq_refl eq_refl eq_refl "tobaccos" [("aroma", Text "rose")]
              (Some [("mark", Text "Brand A")])) as (Hok & _ & _).
  edestruct Hok as (Hout & Hdisk & _); [vm_compute; reflexivity|].
  split; [exact Hout|]. rewrite Hdisk. vm_compute. reflexivity.
Defined.

Lemma pair_of_fst {A B : Type} (p : A * B) (a : A) : fst p = a -> p = (a, snd p).
Proof. intros <-. destruct p. reflexivity. Qed.

Lemma insert_conflict_is_soft_witness :
  connection (self shop) = Some shop_connection
  /\ closed shop_connection = false
  /\ cursor (self shop) = Some shop_cursor
  /\ conflict (run MiniSql.mini
                 (Legacy.insert_query "tobaccos" brand_a_text
                    (Some "mark, aroma, flavour, potency"))
                 [] (view shop_connection))
  /\ fst (Legacy.insert MiniSql.mini "tobaccos" brand_a_text
            (Some "mark, aroma, flavour, potency") shop)
     = Return (Some (brand_a_text ++ " already exists" ++ Py.nl))
  /\ fst (Later.insert MiniSql.mini repr "tobaccos"
            [Text "Brand D"; Text "plum"; Text "sweet"; Int 2] (Some all_fields) shop)
     = Return None.
Proof.
  split; [reflexivity|]. split; [reflexivity|]. split; [reflexivity|].
  assert (Hconf : conflict (run MiniSql.mini
                              (Legacy.insert_query "tobaccos" brand_a_text
                                 (Some "mark, aroma, flavour, potency"))
                              [] (view shop_connection))).
  { eexists. vm_compute. reflexivity. }
  split; [exact Hconf|].
  destruct (insert_conflict_is_soft MiniSql.mini repr shop shop_connection shop_cursor
              eq_refl eq_refl eq_refl) as (Hlegacy & Hlater).
  split.
  - destruct (Hlegacy "tobaccos" brand_a_text (Some "mark, aroma, flavour, potency"))
      as (Hsoft & _). exact (Hsoft Hconf).
  - destruct (Hlater "tobaccos" [Text "Brand D"; Text "plum"; Text "sweet"; Int 2]
                (Some all_fields)) as (_ & Hacc & _).
    edestruct Hacc as (Hnone & _); [vm_compute; reflexivity | exact Hnone].
Defined.

Lemma conflicting_insert_leaves_table_witness :
  connection (self shop) = Some shop_connection
  /\ closed shop_connection = false
  /\ cursor (self shop) = Some shop_cursor
  /\ conflict (run MiniSql.mini (Later.insert_query "tobaccos" brand_a_values (Some all_fields))
                 brand_a_values (view shop_connection))
  /\ (exists s, fst (Later.insert MiniSql.mini repr "tobaccos" brand_a_values
                       (Some all_fields) shop) = Return (Some s))
  /\ length (rows_seen (snd (Later.insert MiniSql.mini repr "tobaccos" brand_a_values
                               (Some all_fields) shop)) "tobaccos") = 3%nat
  /\ disk (snd (Later.insert MiniSql.mini repr "tobaccos" brand_a_values
                  (Some all_fields) shop)) = shop_db.
Proof.
  split; [reflexivity|]. split; [reflexivity|]. split; [reflexivity|].
  assert (Hconf : conflict (run MiniSql.mini
                              (Later.insert_query "tobaccos" brand_a_values (Some all_fields))
                              brand_a_values (view shop_connection))).
  { eexists. vm_compute. reflexivity. }
  split; [exact Hconf|].
  destruct (conflicting_insert_leaves_table MiniSql.mini repr shop shop_connection
              shop_cursor eq_refl eq_refl eq_refl) as (_ & Hlater).
  destruct (Hlater "tobaccos" brand_a_values (Some all_fields) Hconf)
    as (Hs & _ & Hdisk & Hrows & _).
  split; [exact Hs|]. split.
  - rewrite (proj2 (Hrows "tobaccos")). reflexivity.
  - rewrite Hdisk. reflexivity.
Defined.

Lemma later_text_independent_of_values_witness :
  length [Text "Brand A"; Int 3] = length [Text "x'); DROP TABLE tobaccos; --"; Null]
  /\ Later.insert_query "tobaccos" [Text "Brand A"; Int 3] (Some ["mark"; "potency"])
     = Later.insert_query "tobaccos" [Text "x'); DROP TABLE tobaccos; --"; Null]
         (Some ["mark"; "potency"])
  /\ fst (Later.update_query "tobaccos" [("aroma", Text "rose")]
            (Some [("mark", Text "Brand A")]))
     = fst (Later.update_query "tobaccos" [("aroma", Text "' OR 1=1 --")]
              (Some [("mark", Int 0)])).
Proof.
  destruct later_text_independent_of_values as (Hinsert & Hupdate).
  split; [reflexivity|]. split.
  - apply Hinsert. reflexivity.
  - apply Hupdate; reflexivity.
Defined.


Lemma create_table_is_idempotent_witness :
  tobaccos_schema <> []
  /\ Legacy.create_table MiniSql.mini "tobaccos" tobaccos_schema empty_shop
     = (Return tt, snd (Legacy.create_table MiniSql.mini "tobaccos" tobaccos_schema empty_shop))
  /\ exists w2,
       Legacy.create_table MiniSql.mini "tobaccos" tobaccos_schema
         (snd (Legacy.create_table MiniSql.mini "tobaccos" tobaccos_schema empty_shop))
       = (Return tt, w2)
       /\ disk w2
          = disk (snd (Legacy.create_table MiniSql.mini "tobaccos" tobaccos_schema empty_shop)).
Proof.
  assert (Hne : tobaccos_schema <> []) by discriminate.
  assert (Hfirst : Legacy.create_table MiniSql.mini "tobaccos" tobaccos_schema empty_shop
                   = (Return tt, snd (Legacy.create_table MiniSql.mini "tobaccos"
                                        tobaccos_schema empty_shop)))
    by (apply pair_of_fst; vm_compute; reflexivity).
  split; [exact Hne|]. split; [exact Hfirst|].
  destruct create_table_is_idempotent as (Hlegacy & _ & _).
  destruct (Hlegacy "tobaccos" tobaccos_schema empty_shop _ Hne Hfirst)
    as (w2 & Hsecond & Hdisk & _).
  exists w2. split; [exact Hsecond | exact Hdisk].
Defined.

Lemma fetch_batch_and_full_set_witness :
  connection (self big) = Some big_connection
  /\ closed big_connection = false
  /\ cursor (self big) = Some shop_cursor
  /\ (N.to_nat 10000 < length many_rows)%nat
  /\ fst (Legacy.fetchmany MiniSql.mini "tobaccos" None None None big)
     = Return (firstn (N.to_nat 10000) many_rows)
  /\ fst (Later.fetchall MiniSql.mini "tobaccos" None None None false big)
     = Return many_rows
  /\ fst (Legacy.fetchmany MiniSql.mini "tobaccos" None (Some "potency = 4") None big)
     = Return []
  /\ fst (Later.fetchall MiniSql.mini "tobaccos" None (Some "potency = 4") None false big)
     = Return [].
Proof.
  assert (Hlen : (N.to_nat 10000 < length many_rows)%nat).
  { apply Nat.ltb_lt. vm_compute. reflexivity. }
  split; [reflexivity|]. split; [reflexivity|]. split; [reflexivity|].
  split; [exact Hlen|].
  destruct (fetch_batch_and_full_set MiniSql.mini big big_connection shop_cursor
              eq_refl eq_refl eq_refl) as (Hmany & Hall).
  split; [|split; [|split]].
  - destruct (Hmany "tobaccos" None None None
                (Sqlite3.mkReply (big_db : db MiniSql.mini) many_rows (-1)))
      as (Hbig & _); [vm_compute; reflexivity|].
    exact (proj1 (Hbig Hlen)).
  - destruct (Hall "tobaccos" None None None false
                (Sqlite3.mkReply (big_db : db MiniSql.mini) many_rows (-1)))
      as (Hfull & _); [vm_compute; reflexivity|].
    exact Hfull.
  - destruct (Hmany "tobaccos" None (Some "potency = 4") None
                (Sqlite3.mkReply (big_db : db MiniSql.mini) [] (-1)))
      as (_ & Hnone); [vm_compute; reflexivity|].
    exact (Hnone eq_refl).
  - destruct (Hall "tobaccos" None (Some "potency = 4") None false
                (Sqlite3.mkReply (big_db : db MiniSql.mini) [] (-1)))
      as (_ & Hnone); [vm_compute; reflexivity|].
    exact (Hnone eq_refl).
Defined.

Lemma fetchone_empty_fields_differ_witness :
  Py.truthy_str (Some (Py.join ", " ["mark"; "aroma"])) = true
  /\ Legacy.fetchone_query "tobaccos" (Some (Py.join ", " ["mark"; "aroma"])) None
     = fst (Later.fetchone_query "tobaccos" (Some ["mark"; "aroma"]) None).
Proof.
  destruct fetchone_empty_fields_differ as (_ & _ & _ & _ & _ & _ & Hagree & _).
  split; [reflexivity|]. apply Hagree. reflexivity.
Defined.

(** * The rest of the executor *)

Import Notions.

Section OutsideTheScope.

Variable E : engine.

Lemma execute_outside (w : world E) (q : string) (ps : list value) :
  manager_state w = Closed ->
  exists e, Common.execute E q ps w = (Raise e, w)
            /\ forall m, e <> SqliteError (IntegrityError m).
Proof.
  unfold manager_state. intros Hst.
  unfold Common.execute, ensure_context, bind, try_except, cursor_execute.
  destruct (connection (self w)) as [c|] eqn:Hc.
  - destruct (closed c) eqn:Hcl; [|discriminate].
    destruct (cursor (self w)) as [cu|] eqn:Hcu; simpl;
      eexists; (split; [reflexivity | intros m; discriminate]).
  - eexists. split; [reflexivity | intros m; discriminate].
Qed.

Lemma bind_outside {A B : Type} (m : M E A) (k : A -> M E B) (w : world E) (e : exn) :
  m w = (Raise e, w) -> bind m k w = (Raise e, w).
Proof. intros H. unfold bind. rewrite H. reflexivity. Qed.

Lemma try_outside {A : Type} (m : M E A) (h : exn -> option (M E A)) (w : world E) (e : exn) :
  m w = (Raise e, w) -> h e = None -> try_except m h w = (Raise e, w).
Proof. intros H He. unfold try_except. rewrite H, He. reflexivity. Qed.

(** X1.  While the manager is closed (never entered, or exited), every
    method of either variant only raises: the call ends in an exception and
    comes back with the world it found, so nothing is done to the object,
    the file or the trace. *)
Theorem closed_manager_is_left_alone (repr : value -> string) (w : world E) :
  manager_state w = Closed ->
  (forall t cols, exists e, Common.create_table E t cols w = (Raise e, w))
  /\ (forall t f wh, exists e, Legacy.fetchone E t f wh w = (Raise e, w))
  /\ (forall t f wh g, exists e, Legacy.fetchmany E t f wh g w = (Raise e, w))
  /\ (forall t v wh, exists e, Legacy.update E t v wh w = (Raise e, w))
  /\ (forall t v f, exists e, Legacy.insert E t v f w = (Raise e, w))
  /\ (forall t f wh, exists e, Later.fetchone E t f wh w = (Raise e, w))
  /\ (forall t f wh g dst, exists e, Later.fetchall E t f wh g dst w = (Raise e, w))
  /\ (forall t v wh, exists e, Later.update E t v wh w = (Raise e, w))
  /\ (forall t v f, exists e, Later.insert E repr t v f w = (Raise e, w)).
Proof.
  intros Hst.
  assert (Hex : forall q ps, exists e, Common.execute E q ps w = (Raise e, w)
                                       /\ forall m, e <> SqliteError (IntegrityError m))
    by (intros; apply execute_outside; exact Hst).
  repeat split.
  - intros t [|col cols]; [eexists; reflexivity|]. unfold Common.create_table.
    destruct (Hex ("CREATE TABLE IF NOT EXISTS " ++ t ++ " ("
                   ++ Py.join ", " (map (fun '(col_name, data_type) =>
                                           col_name ++ " " ++ data_type) (col :: cols))
                   ++ ")") []) as (e & He & _).
    exists e. apply bind_outside. exact He.
  - intros. unfold Legacy.fetchone, Legacy.execute.
    destruct (Hex (Legacy.fetchone_query t f wh) []) as (e & He & _).
    exists e. apply bind_outside. exact He.
  - intros. unfold Legacy.fetchmany, Legacy.execute.
    destruct (Hex (Legacy.fetchmany_query t f wh g) []) as (e & He & _).
    exists e. apply bind_outside. exact He.
  - intros. unfold Legacy.update, Legacy.execute.
    destruct (Hex (Legacy.update_query t v wh) []) as (e & He & _).
    exists e. apply bind_outside. exact He.
  - intros. unfold Legacy.insert, Legacy.execute.
    destruct (Hex (Legacy.insert_query t v f) []) as (e & He & Hne).
    exists e. apply bind_outside.
    apply try_outside; [apply bind_outside; exact He|].
    destruct e as [| | |[m|m|m]]; try reflexivity. exfalso. exact (Hne m eq_refl).
  - intros. unfold Later.fetchone, Later.execute.
    destruct (Later.fetchone_query t f wh) as [q ps].
    destruct (Hex q ps) as (e & He & _).
    exists e. apply bind_outside. exact He.
  - intros. unfold Later.fetchall, Later.execute.
    destruct (Hex (Later.fetchall_query t f wh g dst) []) as (e & He & _).
    exists e. apply bind_outside. exact He.
  - intros. unfold Later.update, Later.execute.
    destruct (Later.update_query t v wh) as [q ps].
    destruct (Hex q ps) as (e & He & Hne).
    unfold try_except. rewrite (bind_outside _ _ _ _ He).
    destruct e as [| | |[m|m|m]]; eexists; reflexivity.
  - intros. unfold Later.insert, Later.execute.
    destruct (Hex (Later.insert_query t v f) v) as (e & He & Hne).
    exists e. apply bind_outside.
    apply try_outside; [apply bind_outside; exact He|].
    destruct e as [| | |[m|m|m]]; try reflexivity. exfalso. exact (Hne m eq_refl).
Qed.

End OutsideTheScope.

Section InsideTheScope.

Variable E : engine.

Variable repr : value -> string.

Variables (w : world E) (c : Connection E) (cu : Cursor).

Hypothesis Hconn : connection (self w) = Some c.

Hypothesis Hopen : closed c = false.

Hypothesis Hcur : cursor (self w) = Some cu.

Lemma legacy_fetchone_open t f wh :
  Legacy.fetchone E t f wh w
  = match run E (Legacy.fetchone_query t f wh) [] (view c) with
    | inl e => (Raise (SqliteError e), failed E w c (Legacy.fetchone_query t f wh) [])
    | inr r =>
        cursor_fetchone E (ran E w c (Legacy.fetchone_query t f wh) [] r)
    end.
Proof.
  unfold Legacy.fetchone, Legacy.execute, bind.
  rewrite (execute_open E w _ [] c cu Hconn Hopen Hcur).
  destruct (run E _ [] (view c)); reflexivity.
Qed.

Lemma later_fetchone_open t f wh :
  Later.fetchone E t f wh w
  = match run E (fst (Later.fetchone_query t f wh)) (snd (Later.fetchone_query t f wh))
              (view c) with
    | inl e =>
        (Raise (SqliteError e),
         failed E w c (fst (Later.fetchone_query t f wh)) (snd (Later.fetchone_query t f wh)))
    | inr r =>
        cursor_fetchone E (ran E w c (fst (Later.fetchone_query t f wh))
                             (snd (Later.fetchone_query t f wh)) r)
    end.
Proof.
  unfold Later.fetchone. destruct (Later.fetchone_query t f wh) as [q ps].
  cbn [fst snd]. unfold Later.execute, bind.
  rewrite (execute_open E w q ps c cu Hconn Hopen Hcur).
  destruct (run E q ps (view c)); reflexivity.
Qed.

(** X2.  In an open scope, for a query the engine answers with a result
    set, [fetchone] of either variant returns the first row of the set, or
    [None] when the set is empty; it raises nothing and commits nothing: the
    one event is the query, which the later variant sends with the
    condition's values bound. *)
Theorem fetchone_first_row_or_none :
  (forall t f wh r,
     run E (Legacy.fetchone_query t f wh) [] (view c) = inr r ->
     fst (Legacy.fetchone E t f wh w) = Return (hd_error (result_set r))
     /\ trace (snd (Legacy.fetchone E t f wh w))
        = (trace w ++ [EvExecute (Legacy.fetchone_query t f wh) []])%list)
  /\ (forall t f cond vals r,
        run E (fst (Later.fetchone_query t f (Some (cond, vals)))) vals (view c) = inr r ->
        fst (Later.fetchone E t f (Some (cond, vals)) w) = Return (hd_error (result_set r))
        /\ trace (snd (Later.fetchone E t f (Some (cond, vals)) w))
           = (trace w ++ [EvExecute (fst (Later.fetchone_query t f (Some (cond, vals))))
                                    vals])%list)
  /\ (forall t f r,
        run E (fst (Later.fetchone_query t f None)) [] (view c) = inr r ->
        fst (Later.fetchone E t f None w) = Return (hd_error (result_set r))).
Proof.
  split; [|split].
  - intros t f wh r Hr. rewrite legacy_fetchone_open, Hr.
    unfold cursor_fetchone, cursor_fetch, ran.
    cbn [self cursor connection closed pending].
    destruct (result_set r); split; reflexivity.
  - intros t f cond vals r Hr. rewrite later_fetchone_open.
    change (snd (Later.fetchone_query t f (Some (cond, vals)))) with vals.
    rewrite Hr.
    unfold cursor_fetchone, cursor_fetch, ran.
    cbn [self cursor connection closed pending].
    destruct (result_set r); split; reflexivity.
  - intros t f r Hr. rewrite later_fetchone_open.
    change (snd (Later.fetchone_query t f None)) with (@nil value).
    rewrite Hr.
    unfold cursor_fetchone, cursor_fetch, ran.
    cbn [self cursor connection closed pending].
    destruct (result_set r); reflexivity.
Qed.

(** X3.  In an open scope, for a query the engine answers with a result
    set, the legacy [fetchmany] returns the first rows of the set, as many
    as there are up to 10,000: all of the set when it has no more than
    10,000 rows, and never more than 10,000. *)
Theorem fetchmany_is_a_bounded_prefix (t : string) (f wh g : option string)
  (r : reply (db E)) :
  run E (Legacy.fetchmany_query t f wh g) [] (view c) = inr r ->
  exists rows,
    fst (Legacy.fetchmany E t f wh g w) = Return rows
    /\ rows = firstn (N.to_nat 10000) (result_set r)
    /\ length rows = Nat.min (N.to_nat 10000) (length (result_set r))
    /\ (length (result_set r) <= N.to_nat 10000 -> rows = result_set r)
    /\ exists rest, result_set r = (rows ++ rest)%list.
Proof.
  intros Hr. exists (firstn (N.to_nat 10000) (result_set r)).
  split; [exact (legacy_fetchmany_open E w c cu Hconn Hopen Hcur t f wh g r Hr)|].
  split; [reflexivity|]. split; [apply length_firstn|]. split.
  - intros Hle. apply firstn_all2. exact Hle.
  - exists (skipn (N.to_nat 10000) (result_set r)). symmetry. apply firstn_skipn.
Qed.

(** X4.  In an open scope, an error of the store that is not a constraint
    violation goes through [insert] of either variant as it is; nothing is
    committed and the database stays as it was, for the connection and on
    the file.  The legacy [update] hands on every error of the store as it
    is, a constraint violation included, and commits nothing. *)
Theorem store_errors_propagate (e : error) :
  (forall t v f,
     not_integrity e ->
     run E (Legacy.insert_query t v f) [] (view c) = inl e ->
     fst (Legacy.insert E t v f w) = Raise (SqliteError e)
     /\ seen (snd (Legacy.insert E t v f w)) = seen w
     /\ disk (snd (Legacy.insert E t v f w)) = disk w
     /\ commits (trace (snd (Legacy.insert E t v f w))) = commits (trace w))
  /\ (forall t v f,
        not_integrity e ->
        run E (Later.insert_query t v f) v (view c) = inl e ->
        fst (Later.insert E repr t v f w) = Raise (SqliteError e)
        /\ seen (snd (Later.insert E repr t v f w)) = seen w
        /\ disk (snd (Later.insert E repr t v f w)) = disk w
        /\ commits (trace (snd (Later.insert E repr t v f w))) = commits (trace w))
  /\ (forall t v wh,
        run E (Legacy.update_query t v wh) [] (view c) = inl e ->
        fst (Legacy.update E t v wh w) = Raise (SqliteError e)
        /\ seen (snd (Legacy.update E t v wh w)) = seen w
        /\ disk (snd (Legacy.update E t v wh w)) = disk w
        /\ commits (trace (snd (Legacy.update E t v wh w))) = commits (trace w)).
Proof.
  assert (Hseen : seen w = Some (view c)) by (unfold seen; rewrite Hconn; reflexivity).
  assert (Hcommits : forall tr q ps,
             commits (tr ++ [EvExecute q ps]) = commits tr).
  { intros tr q ps. induction tr as [|ev tr IH]; [reflexivity|].
    destruct ev; simpl; rewrite IH; reflexivity. }
  split; [|split].
  - intros t v f Hne Hr.
    rewrite (legacy_insert_open E w c cu Hconn Hopen Hcur), Hr.
    destruct e as [m|m|m]; [contradiction| |]; cbn [fst snd];
      (split; [reflexivity|]); (split; [symmetry; exact Hseen|]);
      (split; [reflexivity|]); apply Hcommits.
  - intros t v f Hne Hr.
    rewrite (later_insert_open E repr w c cu Hconn Hopen Hcur), Hr.
    destruct e as [m|m|m]; [contradiction| |]; cbn [fst snd];
      (split; [reflexivity|]); (split; [symmetry; exact Hseen|]);
      (split; [reflexivity|]); apply Hcommits.
  - intros t v wh Hr.
    rewrite (legacy_update_open E w c cu Hconn Hopen Hcur), Hr. cbn [fst snd].
    split; [reflexivity|]. split; [symmetry; exact Hseen|].
    split; [reflexivity|]. apply Hcommits.
Qed.

End InsideTheScope.

(** ** Reads and CREATE TABLE on the reference engine *)

Module MiniMore.
Import MiniSql MiniFacts.

Lemma parse_select_shape (toks : list token) (s : stmt) :
  parse_select toks = Some s -> exists dst f t cond, s = SSelect dst f t cond.
Proof.
  unfold parse_select.
  destruct (match toks with
            | [] => (false, toks)
            | t :: rest => if is_kw "DISTINCT" t then (true, rest) else (false, toks)
            end) as [dst toks'].
  destruct (break_kw "FROM" toks') as [fields [[|t rest]|]]; try discriminate.
  destruct (break_kw "WHERE" rest) as [nothing after].
  destruct nothing; [|discriminate].
  destruct (parse_fields fields) as [f|]; [|discriminate].
  destruct (name_of t) as [n|]; [|discriminate].
  destruct (parse_where after) as [cond|]; [|discriminate].
  intros H. inversion H. eauto.
Qed.

(** A SELECT that is answered leaves the database as it is. *)
Lemma run_select_keeps (rest : string) (ps : list value) (d : database)
  (r : reply database) :
  run ("SELECT " ++ rest) ps d = inr r -> new_db r = d.
Proof.
  unfold run.
  change ("SELECT " ++ rest) with ("SELECT" ++ String " " rest).
  rewrite (lex_space "SELECT" _ [TWord "SELECT"] eq_refl).
  destruct (lex rest) as [tr|]; [|discriminate]. cbn [option_map app].
  change (parse (TWord "SELECT" :: tr)) with (parse_select tr).
  destruct (parse_select tr) as [s|] eqn:Hp; [|discriminate].
  destruct (parse_select_shape _ _ Hp) as (dst & f & t & cond & ->).
  cbn [exec].
  destruct (bind_pairs cond ps) as [[bound [|p left]]|]; try discriminate.
  unfold exec_select.
  destruct (lookup t d) as [tb|]; [|discriminate].
  destruct (forallb _ _ && forallb _ _); [|discriminate].
  intros H. inversion H. reflexivity.
Qed.

Lemma lookup_app (t : string) (d1 d2 : database) :
  lookup t (d1 ++ d2)%list
  = match lookup t d1 with
    | Some tb => Some tb
    | None => lookup t d2
    end.
Proof.
  induction d1 as [|[n tb] d1 IH]; simpl; [reflexivity|].
  destruct (n =? t); [reflexivity | exact IH].
Qed.

(** A CREATE TABLE IF NOT EXISTS that is answered leaves the rows of every
    table as they were: a table that was there keeps its rows, and a table
    that is made has none. *)
Lemma run_create_keeps_rows (rest : string) (d : database) (r : reply database)
  (tbl : string) :
  run ("CREATE TABLE IF NOT EXISTS " ++ rest) [] d = inr r ->
  table_rows (new_db r) tbl = table_rows d tbl.
Proof.
  unfold run.
  change ("CREATE TABLE IF NOT EXISTS " ++ rest)
    with ("CREATE" ++ String " " ("TABLE" ++ String " " ("IF" ++ String " "
            ("NOT" ++ String " " ("EXISTS" ++ String " " rest))))).
  rewrite (lex_space "CREATE" _ [TWord "CREATE"] eq_refl).
  rewrite (lex_space "TABLE" _ [TWord "TABLE"] eq_refl).
  rewrite (lex_space "IF" _ [TWord "IF"] eq_refl).
  rewrite (lex_space "NOT" _ [TWord "NOT"] eq_refl).
  rewrite (lex_space "EXISTS" _ [TWord "EXISTS"] eq_refl).
  destruct (lex rest) as [tr|]; [|discriminate]. cbn [option_map app].
  change (parse (TWord "CREATE" :: TWord "TABLE" :: TWord "IF" :: TWord "NOT"
                   :: TWord "EXISTS" :: tr))
    with (parse_create (TWord "TABLE" :: TWord "IF" :: TWord "NOT" :: TWord "EXISTS" :: tr)).
  destruct (parse_create _) as [s|] eqn:Hp; [|discriminate].
  destruct (parse_create_shape _ _ Hp) as (t & cols & ->).
  cbn [exec]. unfold exec_create.
  destruct (lookup t d) as [tb|] eqn:Hl; intros H; inversion H; [reflexivity|].
  cbn [new_db]. unfold table_rows. rewrite lookup_app.
  destruct (lookup tbl d) as [tb|] eqn:Hl2; [reflexivity|].
  simpl. destruct (t =? tbl); reflexivity.
Qed.

End MiniMore.

Lemma legacy_reads_are_selects :
  (forall t f wh, exists rest, Legacy.fetchone_query t f wh = "SELECT " ++ rest)
  /\ (forall t f wh g, exists rest, Legacy.fetchmany_query t f wh g = "SELECT " ++ rest).
Proof.
  split; intros; unfold Legacy.fetchone_query, Legacy.fetchmany_query;
    repeat match goal with
           | |- context [if ?b then _ else _] => destruct b
           end; eexists; reflexivity.
Qed.

Lemma later_reads_are_selects :
  (forall t f wh, exists rest, fst (Later.fetchone_query t f wh) = "SELECT " ++ rest)
  /\ (forall t f wh g dst, exists rest, Later.fetchall_query t f wh g dst = "SELECT " ++ rest).
Proof.
  split; intros.
  - unfold Later.fetchone_query. destruct wh as [[cond vals]|]; eexists; reflexivity.
  - unfold Later.fetchall_query.
    destruct dst;
      repeat match goal with
             | |- context [if ?b then _ else _] => destruct b
             end; eexists; reflexivity.
Qed.

Section ReadsOnTheReferenceEngine.

Variables (w : world MiniSql.mini) (c : Connection MiniSql.mini) (cu : Cursor).

Hypothesis Hconn : connection (self w) = Some c.

Hypothesis Hopen : closed c = false.

Hypothesis Hcur : cursor (self w) = Some cu.

(** What the connection sees is what the file holds: so it is on entry and
    after every committed write. *)
Hypothesis Hsync : view c = disk w.

Lemma commits_execute (tr : list event) (q : string) (ps : list value) :
  commits (tr ++ [EvExecute q ps]) = commits tr.
Proof.
  induction tr as [|ev tr IH]; [reflexivity|].
  destruct ev; simpl; rewrite IH; reflexivity.
Qed.

Lemma select_then_fetch {A : Type} (q : string) (ps : list value)
  (take : list row -> A * list row) :
  (exists rest, q = "SELECT " ++ rest) ->
  let out := bind (Common.execute MiniSql.mini q ps) (fun _ => cursor_fetch MiniSql.mini take) w in
  same_store (snd out) w /\ commits (trace (snd out)) = commits (trace w).
Proof.
  intros [rest ->] out. subst out. unfold bind.
  rewrite (execute_open MiniSql.mini w _ ps c cu Hconn Hopen Hcur).
  assert (Hseen : seen w = Some (view c)) by (unfold seen; rewrite Hconn; reflexivity).
  destruct (run MiniSql.mini ("SELECT " ++ rest) ps (view c)) as [e|r] eqn:Hr.
  - cbn [snd]. split; [split|].
    + unfold seen. cbn. rewrite Hconn. reflexivity.
    + reflexivity.
    + apply commits_execute.
  - assert (Hkeep : new_db r = view c) by exact (MiniMore.run_select_keeps _ _ _ _ Hr).
    unfold cursor_fetch, ran. cbn [self cursor connection closed pending].
    destruct (take (result_set r)) as [a left]. cbn [snd disk trace self].
    split; [split|].
    + unfold seen. cbn [self connection option_map view]. rewrite Hconn.
      cbn [option_map]. f_equal. exact Hkeep.
    + destruct (in_transaction c || is_dml ("SELECT " ++ rest)); [reflexivity|].
      exact (eq_trans Hkeep Hsync).
    + apply commits_execute.
Qed.

(** X5.  On the reference engine, in an open scope whose connection sees
    what the file holds: whatever their arguments, and whether they return
    or raise, the four reading methods leave the database as it was, for the
    connection and on the file, and commit nothing. *)
Theorem reads_leave_the_store :
  (forall t f wh,
     same_store (snd (Legacy.fetchone MiniSql.mini t f wh w)) w
     /\ commits (trace (snd (Legacy.fetchone MiniSql.mini t f wh w))) = commits (trace w))
  /\ (forall t f wh g,
        same_store (snd (Legacy.fetchmany MiniSql.mini t f wh g w)) w
        /\ commits (trace (snd (Legacy.fetchmany MiniSql.mini t f wh g w)))
           = commits (trace w))
  /\ (forall t f wh,
        same_store (snd (Later.fetchone MiniSql.mini t f wh w)) w
        /\ commits (trace (snd (Later.fetchone MiniSql.mini t f wh w))) = commits (trace w))
  /\ (forall t f wh g dst,
        same_store (snd (Later.fetchall MiniSql.mini t f wh g dst w)) w
        /\ commits (trace (snd (Later.fetchall MiniSql.mini t f wh g dst w)))
           = commits (trace w)).
Proof.
  split; [|split; [|split]].
  - intros t f wh. apply (select_then_fetch (Legacy.fetchone_query t f wh) []).
    apply legacy_reads_are_selects.
  - intros t f wh g. apply (select_then_fetch (Legacy.fetchmany_query t f wh g) []).
    apply legacy_reads_are_selects.
  - intros t f wh. unfold Later.fetchone.
    destruct (proj1 later_reads_are_selects t f wh) as [rest Hrest].
    destruct (Later.fetchone_query t f wh) as [q ps]. cbn [fst] in Hrest.
    apply (select_then_fetch q ps). exists rest. exact Hrest.
  - intros t f wh g dst.
    apply (select_then_fetch (Later.fetchall_query t f wh g dst) []).
    apply later_reads_are_selects.
Qed.

End ReadsOnTheReferenceEngine.

(** X6.  On the reference engine, in every state of the object and for every
    name and schema, [create_table] leaves the rows of every table as the
    connection sees them: a table that exists keeps its rows, and the method
    never empties or replaces one. *)
Theorem create_table_keeps_rows (w : world MiniSql.mini) (t : string)
  (columns : list (string * string)) (tbl : string) :
  rows_seen (snd (Legacy.create_table MiniSql.mini t columns w)) tbl = rows_seen w tbl
  /\ rows_seen (snd (Later.create_table MiniSql.mini t columns w)) tbl = rows_seen w tbl.
Proof.
  assert (H : rows_seen (snd (Common.create_table MiniSql.mini t columns w)) tbl
              = rows_seen w tbl); [|split; exact H].
  unfold Common.create_table. destruct columns as [|p l]; [reflexivity|].
  set (q := "CREATE TABLE IF NOT EXISTS " ++ _).
  unfold bind, Common.execute, ensure_context, bind, try_except, cursor_execute.
  destruct (connection (self w)) as [c|] eqn:Hc; [|reflexivity].
  destruct (cursor (self w)) as [cu|] eqn:Hcu; [|reflexivity].
  destruct (closed c) eqn:Hcl; [reflexivity|].
  destruct (run MiniSql.mini q [] (view c)) as [e|r] eqn:Hr.
  - cbn [snd]. unfold rows_seen, seen. cbn. rewrite Hc. reflexivity.
  - cbn [snd]. unfold rows_seen, seen. cbn [self connection option_map view].
    rewrite Hc. cbn [option_map].
    exact (MiniMore.run_create_keeps_rows _ _ _ tbl Hr).
Qed.

(** * The scripts *)

Section ScriptBlocks.

Variable E : engine.

Lemma statements_app (a b : list event) :
  statements (a ++ b) = (statements a ++ statements b)%list.
Proof.
  induction a as [|ev a IH]; [reflexivity|].
  destruct ev; simpl; rewrite IH; reflexivity.
Qed.

Lemma in_scope_failed (w : world E) c q ps : in_scope (failed E w c q ps).
Proof. unfold in_scope, failed. simpl. eauto. Qed.

Lemma in_scope_committed_ran (w : world E) c q ps r :
  in_scope (committed E (ran E w c q ps r)).
Proof. unfold in_scope, committed, ran. simpl. eauto. Qed.

Lemma in_scope_open (w : world E) : in_scope w -> manager_state w = Open.
Proof.
  intros (c & cu & Hc & Hcl & _). unfold manager_state. rewrite Hc, Hcl. reflexivity.
Qed.

(** A block whose body leaves the scope open: the body's outcome is handed
    on, and the connection is closed after it. *)
Lemma block_of_scoped_body {A : Type} (dir name : string) (body : M E A) (w : world E) :
  manager_state (snd (body (entered dir name w))) = Open ->
  let out := Common.with_ E dir body (mkWorld (Common.__init__ E name) (disk w) (trace w)) in
  fst out = fst (body (entered dir name w))
  /\ disk (snd out) = disk (snd (body (entered dir name w)))
  /\ trace (snd out) = (trace (snd (body (entered dir name w))) ++ [EvClose])%list
  /\ manager_state (snd out) = Closed.
Proof.
  intros Hin out. subst out. unfold Common.with_.
  change (Common.__enter__ E dir (mkWorld (Common.__init__ E name) (disk w) (trace w)))
    with (Return tt, entered dir name w).
  cbv iota.
  destruct (body (entered dir name w)) as [r w2]. cbn [fst snd] in *.
  destruct (exit_closes E w2 Hin) as (w3 & Hx & Hcl & Htr & Hd).
  rewrite Hx. cbn [fst snd]. auto.
Qed.

End ScriptBlocks.

Section LegacyScript.

Variable E : engine.

Variable NAME : string.

Variable POTENCY : list (string * Z).

(** A result of [insert] is truthy exactly when it is a conflict text. *)
Lemma legacy_conflict_is_truthy (key : string) (entry : list (string * string)) :
  Py.truthy_str (Some (LegacyScripts.values_text POTENCY key entry
                       ++ " already exists" ++ Py.nl)) = true.
Proof. reflexivity. Qed.

Lemma insert_entries_spec (key : string) (entries : list (list (string * string))) :
  forall (acc : list (option string)) (w : world E),
    in_scope w ->
    Forall (fun r => Py.truthy_str r = is_conflict r) acc ->
    let out := LegacyScripts.insert_entries E POTENCY key entries acc w in
    in_scope (snd out)
    /\ match fst out with
       | Return l =>
           length l = (length acc + length entries)%nat
           /\ Forall (fun r => Py.truthy_str r = is_conflict r) l
           /\ statements (trace (snd out))
              = (statements (trace w)
                 ++ map (legacy_statement POTENCY) (map (pair key) entries))%list
       | Raise e => forall m, e <> SqliteError (IntegrityError m)
       end.
Proof.
  induction entries as [|entry rest IH]; intros acc w Hin Hacc out; subst out.
  - cbn. split; [exact Hin|]. split; [lia|]. split; [exact Hacc|].
    rewrite app_nil_r. reflexivity.
  - destruct Hin as (c & cu & Hc & Hcl & Hcu).
    set (q := Legacy.insert_query "tobaccos" (LegacyScripts.values_text POTENCY key entry)
                (Some "mark, aroma, flavour, potency")).
    assert (Hstep : LegacyScripts.insert_entries E POTENCY key (entry :: rest) acc w
                    = match run E q [] (view c) with
                      | inl (IntegrityError _) =>
                          LegacyScripts.insert_entries E POTENCY key rest
                            (acc ++ [Some (LegacyScripts.values_text POTENCY key entry
                                           ++ " already exists" ++ Py.nl)%string])%list
                            (failed E w c q [])
                      | inl e => (Raise (SqliteError e), failed E w c q [])
                      | inr r =>
                          LegacyScripts.insert_entries E POTENCY key rest (acc ++ [None])%list
                            (committed E (ran E w c q [] r))
                      end).
    { cbn [LegacyScripts.insert_entries]. unfold bind.
      rewrite (legacy_insert_open E w c cu Hc Hcl Hcu). fold q.
      destruct (run E q [] (view c)) as [[m|m|m]|r]; reflexivity. }
    rewrite Hstep. clear Hstep.
    destruct (run E q [] (view c)) as [[m|m|m]|r].
    + specialize (IH (acc ++ [Some (LegacyScripts.values_text POTENCY key entry
                                    ++ " already exists" ++ Py.nl)%string])%list
                     (failed E w c q []) (in_scope_failed E w c q [])).
      destruct IH as (Hin' & Hout).
      { apply Forall_app. split; [exact Hacc|]. constructor; [|constructor].
        apply legacy_conflict_is_truthy. }
      split; [exact Hin'|].
      destruct (fst (LegacyScripts.insert_entries E POTENCY key rest _ _)) as [l|e];
        [|exact Hout].
      destruct Hout as (Hlen & Hall & Hst). split; [|split; [exact Hall|]].
      * rewrite Hlen, length_app. simpl. lia.
      * rewrite Hst. cbn [trace failed]. rewrite statements_app.
        cbn [statements map]. rewrite <- app_assoc. reflexivity.
    + cbn [fst snd]. split; [apply in_scope_failed | intros m'; discriminate].
    + cbn [fst snd]. split; [apply in_scope_failed | intros m'; discriminate].
    + specialize (IH (acc ++ [None])%list (committed E (ran E w c q [] r))
                     (in_scope_committed_ran E w c q [] r)).
      destruct IH as (Hin' & Hout).
      { apply Forall_app. split; [exact Hacc|]. constructor; [reflexivity|constructor]. }
      split; [exact Hin'|].
      destruct (fst (LegacyScripts.insert_entries E POTENCY key rest _ _)) as [l|e];
        [|exact Hout].
      destruct Hout as (Hlen & Hall & Hst). split; [|split; [exact Hall|]].
      * rewrite Hlen, length_app. simpl. lia.
      * rewrite Hst, trace_committed_ran, statements_app.
        cbn [statements map]. rewrite <- app_assoc. reflexivity.
Qed.

Lemma insert_request_spec (request : list (string * list (list (string * string)))) :
  forall (acc : list (option string)) (w : world E),
    in_scope w ->
    Forall (fun r => Py.truthy_str r = is_conflict r) acc ->
    let out := LegacyScripts.insert_request E POTENCY request acc w in
    in_scope (snd out)
    /\ match fst out with
       | Return l =>
           length l = (length acc + length (entries_of request))%nat
           /\ Forall (fun r => Py.truthy_str r = is_conflict r) l
           /\ statements (trace (snd out))
              = (statements (trace w)
                 ++ map (legacy_statement POTENCY) (entries_of request))%list
       | Raise e => forall m, e <> SqliteError (IntegrityError m)
       end.
Proof.
  induction request as [|[key entries] rest IH]; intros acc w Hin Hacc out; subst out.
  - cbn. split; [exact Hin|]. split; [lia|]. split; [exact Hacc|].
    rewrite app_nil_r. reflexivity.
  - cbn [LegacyScripts.insert_request]. unfold bind.
    pose proof (insert_entries_spec key entries acc w Hin Hacc) as Hent.
    cbv zeta in Hent.
    destruct (LegacyScripts.insert_entries E POTENCY key entries acc w) as [[l|e] w1];
      cbn [fst snd] in *.
    + destruct Hent as (Hin1 & Hlen1 & Hall1 & Hst1).
      specialize (IH l w1 Hin1 Hall1). cbv zeta in IH.
      destruct IH as (Hin2 & Hout). split; [exact Hin2|].
      destruct (fst (LegacyScripts.insert_request E POTENCY rest l w1)) as [l2|e];
        [|exact Hout].
      destruct Hout as (Hlen2 & Hall2 & Hst2). split; [|split; [exact Hall2|]].
      * rewrite Hlen2, Hlen1. unfold entries_of. cbn [flat_map].
        rewrite length_app, length_map. lia.
      * rewrite Hst2, Hst1. unfold entries_of. cbn [flat_map].
        rewrite map_app, <- app_assoc.
        replace (map (fun entry => (key, entry)) entries) with (map (pair key) entries)
          by reflexivity.
        reflexivity.
    + exact Hent.
Qed.

Lemma any_is_conflict (l : list (option string)) :
  Forall (fun r => Py.truthy_str r = is_conflict r) l ->
  Runtime.any l = existsb is_conflict l.
Proof.
  intros Hall. unfold Runtime.any.
  induction Hall as [|r l Hr Hall IH]; [reflexivity|].
  simpl. rewrite Hr, IH. reflexivity.
Qed.

Lemma legacy_script_results
  (request : list (string * list (list (string * string)))) (w : world E) :
  let out := LegacyScripts.add_tobacco_to_database E NAME POTENCY request w in
  (forall m, fst out <> Raise (SqliteError (IntegrityError m)))
  /\ (forall l, fst out = Return l -> Runtime.any l = existsb is_conflict l).
Proof.
  intros out. subst out.
  change (LegacyScripts.add_tobacco_to_database E NAME POTENCY request w)
    with (Common.with_ E Legacy.db_dir (LegacyScripts.insert_request E POTENCY request [])
            (mkWorld (Common.__init__ E NAME) (disk w) (trace w))).
  pose proof (insert_request_spec request [] (entered Legacy.db_dir NAME w)
                ltac:(unfold in_scope, entered; simpl; eauto) (Forall_nil _)) as Hbody.
  cbv zeta in Hbody. destruct Hbody as (Hin & Hout).
  destruct (block_of_scoped_body E Legacy.db_dir NAME
              (LegacyScripts.insert_request E POTENCY request []) w
              (in_scope_open E _ Hin))
    as (Hfst & _).
  rewrite Hfst. split.
  - intros m Hm. rewrite Hm in Hout. exact (Hout m eq_refl).
  - intros l Hl. rewrite Hl in Hout. apply any_is_conflict. apply Hout.
Qed.

(** X7.  The legacy [add_tobacco_to_database], from any state and for any
    request.  It never raises a constraint violation.  When it returns, it
    returns one result per entry of the request, and it has sent one INSERT
    per entry, in the order of the request, a conflict on one entry not
    keeping the later ones from being tried; a result is truthy exactly when
    it is a conflict text.  In every case the connection it opened is closed
    at the end. *)
Theorem legacy_add_tobacco_tries_every_entry
  (request : list (string * list (list (string * string)))) (w : world E) :
  let out := LegacyScripts.add_tobacco_to_database E NAME POTENCY request w in
  (forall m, fst out <> Raise (SqliteError (IntegrityError m)))
  /\ (forall l, fst out = Return l ->
        length l = length (entries_of request)
        /\ Runtime.any l = existsb is_conflict l
        /\ statements (trace (snd out))
           = (statements (trace w) ++ map (legacy_statement POTENCY) (entries_of request))%list)
  /\ manager_state (snd out) = Closed.
Proof.
  intros out. subst out.
  change (LegacyScripts.add_tobacco_to_database E NAME POTENCY request w)
    with (Common.with_ E Legacy.db_dir (LegacyScripts.insert_request E POTENCY request [])
            (mkWorld (Common.__init__ E NAME) (disk w) (trace w))).
  pose proof (insert_request_spec request [] (entered Legacy.db_dir NAME w)
                ltac:(unfold in_scope, entered; simpl; eauto) (Forall_nil _)) as Hbody.
  cbv zeta in Hbody. destruct Hbody as (Hin & Hout).
  destruct (block_of_scoped_body E Legacy.db_dir NAME
              (LegacyScripts.insert_request E POTENCY request []) w
              (in_scope_open E _ Hin))
    as (Hfst & _ & Htr & Hclosed).
  rewrite Hfst. split; [|split; [|exact Hclosed]].
  - intros m Hm. rewrite Hm in Hout. exact (Hout m eq_refl).
  - intros l Hl. rewrite Hl in Hout. destruct Hout as (Hlen & Hall & Hst).
    cbn [length Nat.add] in Hlen.
    split; [exact Hlen|]. split.
    + apply any_is_conflict. exact Hall.
    + rewrite Htr, statements_app, Hst. cbn [statements entered trace].
      rewrite statements_app. cbn [statements]. rewrite !app_nil_r. reflexivity.
Qed.

End LegacyScript.

Import Runtime.

Section ScriptsOnAnyEngine.

Variable E : engine.

Variable repr : value -> string.

Variable lower : string -> string.

Variable NAME : string.

Variable POTENCY : list (string * Z).

Lemma block_of_steady_body {A : Type} (dir : string) (body : M E A) (w : world E) :
  steady body ->
  let out := Common.with_ E dir body (mkWorld (Common.__init__ E NAME) (disk w) (trace w)) in
  fst out = fst (body (entered dir NAME w))
  /\ disk (snd out) = disk (snd (body (entered dir NAME w)))
  /\ trace (snd out) = (trace (snd (body (entered dir NAME w))) ++ [EvClose])%list
  /\ manager_state (snd out) = Closed.
Proof.
  intros Hs. apply block_of_scoped_body. rewrite Hs. reflexivity.
Qed.

Lemma steady_values_of (request : list (string * string)) :
  steady (LaterScripts.values_of E lower request).
Proof.
  unfold LaterScripts.values_of. destruct (dict_get request "brand");
    [apply steady_ret | apply steady_raise].
Qed.

(** X8.  The later [add_tobacco_to_database], from any state.  Without a
    brand in the request it raises AttributeError, having opened and closed
    a connection and sent nothing.  With one it sends a single statement,
    always the same text, with the lowered brand, flavour and taste bound to
    it (the flavour under the column aroma; 'unknown' where one is missing);
    it returns [None] and the file holds the new database when the engine
    accepts the statement, returns the conflict text and leaves the file as
    it was on a constraint violation, and hands on any other error of the
    store.  The connection is closed in every case. *)
Theorem later_add_tobacco_binds_the_request (request : list (string * string))
  (w : world E) :
  let out := LaterScripts.add_tobacco_to_database E repr lower NAME request w in
  manager_state (snd out) = Closed
  /\ (dict_get request "brand" = None ->
        fst out = Raise (AttributeError "'NoneType' object has no attribute 'lower'")
        /\ disk (snd out) = disk w
        /\ statements (trace (snd out)) = statements (trace w))
  /\ (forall brand, dict_get request "brand" = Some brand ->
        let vals := later_values lower request brand in
        statements (trace (snd out))
        = (statements (trace w) ++ [(later_statement, vals)])%list
        /\ match run E later_statement vals (disk w) with
           | inr r => fst out = Return None /\ disk (snd out) = new_db r
           | inl (IntegrityError m) =>
               fst out = Return (Some (Py.str_tuple repr vals ++ " already exists: "
                                       ++ m ++ Py.nl))
               /\ disk (snd out) = disk w
           | inl e => fst out = Raise (SqliteError e) /\ disk (snd out) = disk w
           end).
Proof.
  intros out. subst out.
  change (LaterScripts.add_tobacco_to_database E repr lower NAME request w)
    with (Common.with_ E Later.db_dir
            (bind (LaterScripts.values_of E lower request)
                  (fun values => Later.insert E repr "tobaccos" values
                                   (Some ["brand"; "aroma"; "taste"])))
            (mkWorld (Common.__init__ E NAME) (disk w) (trace w))).
  set (body := bind (LaterScripts.values_of E lower request) _).
  assert (Hsteady : steady body).
  { apply steady_bind; [apply steady_values_of | intros; apply steady_later_insert]. }
  destruct (block_of_steady_body Later.db_dir body w Hsteady) as (Hfst & Hdisk & Htr & Hcl).
  split; [exact Hcl|]. rewrite Hfst, Hdisk, Htr, statements_app.
  cbn [statements]. rewrite app_nil_r. clear Hfst Hdisk Htr Hcl Hsteady.
  subst body. unfold bind, LaterScripts.values_of. split.
  - intros Hb. rewrite Hb. cbn. rewrite statements_app. cbn [statements].
    rewrite app_nil_r. repeat split.
  - intros brand Hb. rewrite Hb. unfold ret. cbv beta iota.
    fold (later_values lower request brand).
    set (vals := later_values lower request brand).
    rewrite (later_insert_open E repr (entered Later.db_dir NAME w)
               (mkConnection false false (disk w)) (mkCursor [] (-1))
               eq_refl eq_refl eq_refl).
    change (Later.insert_query "tobaccos" vals (Some ["brand"; "aroma"; "taste"]))
      with later_statement.
    cbn [view].
    destruct (run E later_statement vals (disk w)) as [[m|m|m]|r]; cbn [fst snd].
    + split; [|split; reflexivity].
      cbn [failed trace entered]. rewrite !statements_app. cbn [statements].
      rewrite app_nil_r. reflexivity.
    + split; [|split; reflexivity].
      cbn [failed trace entered]. rewrite !statements_app. cbn [statements].
      rewrite app_nil_r. reflexivity.
    + split; [|split; reflexivity].
      cbn [failed trace entered]. rewrite !statements_app. cbn [statements].
      rewrite app_nil_r. reflexivity.
    + split; [|split; reflexivity].
      rewrite trace_committed_ran. cbn [trace entered]. rewrite !statements_app.
      cbn [statements]. rewrite app_nil_r. reflexivity.
Qed.

End ScriptsOnAnyEngine.

(** * The routes *)

Section Routes.

Variable E : engine.

Variable repr : value -> string.

Variable lower : string -> string.

Variable NAME : string.

Variable POTENCY : list (string * Z).

Lemma script_then {A B : Type} (script : M E A) (k : A -> M E B) (w : world E) :
  bind script k w
  = match fst (script w) with
    | Return a => k a (snd (script w))
    | Raise e => (Raise e, snd (script w))
    end.
Proof. unfold bind. destruct (script w) as [[a|e] w']; reflexivity. Qed.

(** X9.  The later variant's [get_tobacco_from_db] calls a method its class
    does not define: from any state it raises AttributeError, having opened
    and closed a connection and sent no statement, and so does the GET view
    of [/api/tobacco/] built on it: that view never produces a response. *)
Theorem later_get_tobacco_always_fails (data : list (string * string)) (w : world E) :
  let missing := AttributeError "'DatabaseExecutor' object has no attribute 'fetchmany'" in
  let out := LaterScripts.get_tobacco_from_db E NAME w in
  fst out = Raise missing
  /\ disk (snd out) = disk w
  /\ statements (trace (snd out)) = statements (trace w)
  /\ manager_state (snd out) = Closed
  /\ LaterCore.manage_tobacco E repr lower NAME "GET" data w = (Raise missing, snd out).
Proof.
  intros missing out.
  assert (Hout : out = (Raise missing,
                        mkWorld (mkDatabase (NAME ++ ".db")
                                   (Some (mkConnection true false (disk w)))
                                   (Some (mkCursor [] (-1))))
                                (disk w)
                                ((trace w ++ [EvConnect (Later.db_dir ++ NAME ++ ".db")])
                                 ++ [EvClose])%list))
    by reflexivity.
  split; [rewrite Hout; reflexivity|].
  split; [rewrite Hout; reflexivity|].
  split; [rewrite Hout; cbn [snd trace]; rewrite !statements_app; cbn [statements];
          rewrite !app_nil_r; reflexivity|].
  split; [rewrite Hout; reflexivity|].
  unfold LaterCore.manage_tobacco. cbn [String.eqb Ascii.eqb Bool.eqb].
  rewrite script_then. fold out. rewrite Hout. reflexivity.
Qed.

(** X10.  The POST view of [/api/tobacco/], legacy variant: when the script
    returns its list of results the view answers 207 with the list if at
    least one insert met a conflict, and 201 otherwise; a constraint
    violation never leaves the view as an exception. *)
Theorem legacy_post_status (data : list (string * list (list (string * string))))
  (w : world E) :
  let script := LegacyScripts.add_tobacco_to_database E NAME POTENCY data w in
  let view := LegacyCore.manage_tobacco E NAME POTENCY "POST" data w in
  (forall l, fst script = Return l ->
     view = (Return
               (Some (if existsb is_conflict l
                      then Response 207
                             (JObj [("warning", JStr "Some warnings appeared");
                                    ("data", JArr (map json_of_conflict l))])
                      else Response 201
                             (JObj [("message", JStr "Tobacco successfully added")]))),
             snd script))
  /\ (forall m, fst view <> Raise (SqliteError (IntegrityError m)))
  /\ (forall e, fst script = Raise e -> view = (Raise e, snd script)).
Proof.
  intros script view.
  assert (Hview : view = match fst script with
                         | Return result =>
                             (if Runtime.any result
                              then ret (Some (Response 207
                                     (JObj [("warning", JStr "Some warnings appeared");
                                            ("data", JArr (map json_of_conflict result))])))
                              else ret (Some (Response 201
                                     (JObj [("message", JStr "Tobacco successfully added")]))))
                               (snd script)
                         | Raise e => (Raise e, snd script)
                         end).
  { subst view. unfold LegacyCore.manage_tobacco. cbn [String.eqb Ascii.eqb Bool.eqb].
    apply script_then. }
  destruct (legacy_script_results E NAME POTENCY data w) as (Hnever & Hret).
  fold script in Hnever, Hret.
  split; [|split].
  - intros l Hl. rewrite Hview, Hl. rewrite (Hret l Hl).
    destruct (existsb is_conflict l); reflexivity.
  - intros m Hm. rewrite Hview in Hm.
    destruct (fst script) as [l|e] eqn:Hs.
    + destruct (Runtime.any l); discriminate Hm.
    + cbn [fst] in Hm. injection Hm as ->. exact (Hnever m eq_refl).
  - intros e He. rewrite Hview, He. reflexivity.
Qed.

End Routes.

Section MoreRoutes.

Variable E : engine.

Variable repr : value -> string.

Variable lower : string -> string.

Variable NAME : string.

Variable POTENCY : list (string * Z).

Lemma legacy_fetchmany_block (t : string) (wh : option string) (w : world E) :
  fst (Common.with_ E Legacy.db_dir (Legacy.fetchmany E t None wh None)
         (mkWorld (Common.__init__ E NAME) (disk w) (trace w)))
  = match run E (Legacy.fetchmany_query t None wh None) [] (disk w) with
    | inl e => Raise (SqliteError e)
    | inr r => Return (firstn Legacy.batch_size (result_set r))
    end.
Proof.
  destruct (block_of_steady_body E NAME Legacy.db_dir (Legacy.fetchmany E t None wh None) w
              (steady_legacy_fetchmany E t None wh None)) as (Hfst & _).
  rewrite Hfst. clear Hfst.
  destruct (run E (Legacy.fetchmany_query t None wh None) [] (disk w)) as [e|r] eqn:Hr.
  - unfold Legacy.fetchmany, Legacy.execute, bind.
    rewrite (execute_open E (entered Legacy.db_dir NAME w) _ []
               (mkConnection false false (disk w)) (mkCursor [] (-1))
               eq_refl eq_refl eq_refl).
    cbn [view]. rewrite Hr. reflexivity.
  - exact (legacy_fetchmany_open E (entered Legacy.db_dir NAME w)
             (mkConnection false false (disk w)) (mkCursor [] (-1))
             eq_refl eq_refl eq_refl t None wh None r Hr).
Qed.

Lemma batch_of_nonempty (x : row) (l : list row) :
  firstn Legacy.batch_size (x :: l) = x :: firstn (N.to_nat 9999) l.
Proof. reflexivity. Qed.

(** X11.  The GET views of the legacy variant, from any state: when the
    engine answers the SELECT with no row the view aborts with 404; when it
    answers with rows the view responds 200 with the first rows of the
    answer, 10,000 at most; an error of the store leaves the view as it
    is.  The text [/api/tobacco/] sends is [SELECT * FROM tobaccos]; the
    one [/api/tobacco/<mark>] sends ends in [WHERE "mark" = "<mark>"], the
    path value put in as it is between double quotes.  Which rows that
    condition selects is left to the engine: nothing here says that they
    are the rows of that mark. *)
Theorem legacy_get_status (data : list (string * list (list (string * string))))
  (mark : string) (w : world E) :
  let answer (none : string) (a : error + reply (db E)) : outcome http :=
    match a with
    | inl e => Raise (SqliteError e)
    | inr r =>
        match result_set r with
        | [] => Return (Abort 404 none)
        | _ :: _ =>
            Return (Response 200
                      (JObj [("data", JArr (map json_of_row
                                              (firstn (N.to_nat 10000) (result_set r))))]))
        end
    end in
  fst (LegacyCore.manage_tobacco E NAME POTENCY "GET" data w)
  = match answer "No tobacco found in the database"
            (run E "SELECT * FROM tobaccos" [] (disk w)) with
    | Return h => Return (Some h)
    | Raise e => Raise e
    end
  /\ fst (LegacyCore.get_by_mark E NAME mark w)
     = answer "Tobacco with the given mark not found"
         (run E ("SELECT * FROM tobaccos WHERE " ++ dq ++ "mark" ++ dq ++ " = "
                 ++ dq ++ mark ++ dq) [] (disk w)).
Proof.
  intros answer. subst answer. split.
  - unfold LegacyCore.manage_tobacco. cbn [String.eqb Ascii.eqb Bool.eqb].
    rewrite script_then.
    change (LegacyScripts.get_tobacco_from_db E NAME w)
      with (Common.with_ E Legacy.db_dir (Legacy.fetchmany E "tobaccos" None None None)
              (mkWorld (Common.__init__ E NAME) (disk w) (trace w))).
    rewrite legacy_fetchmany_block.
    change (Legacy.fetchmany_query "tobaccos" None None None) with "SELECT * FROM tobaccos".
    destruct (run E "SELECT * FROM tobaccos" [] (disk w)) as [e|r]; [reflexivity|].
    destruct (result_set r) as [|x l]; [reflexivity|].
    rewrite batch_of_nonempty. reflexivity.
  - unfold LegacyCore.get_by_mark. rewrite script_then.
    change (LegacyScripts.get_tobacco_from_db_by_mark E NAME mark w)
      with (Common.with_ E Legacy.db_dir
              (Legacy.fetchmany E "tobaccos" None
                 (Some (dq ++ "mark" ++ dq ++ " = " ++ dq ++ mark ++ dq)) None)
              (mkWorld (Common.__init__ E NAME) (disk w) (trace w))).
    rewrite legacy_fetchmany_block.
    change (Legacy.fetchmany_query "tobaccos" None
              (Some (dq ++ "mark" ++ dq ++ " = " ++ dq ++ mark ++ dq)) None)
      with ("SELECT * FROM tobaccos WHERE " ++ dq ++ "mark" ++ dq ++ " = "
            ++ dq ++ mark ++ dq).
    destruct (run E _ [] (disk w)) as [e|r]; [reflexivity|].
    destruct (result_set r) as [|x l]; [reflexivity|].
    rewrite batch_of_nonempty. reflexivity.
Qed.

Lemma later_script_result (request : list (string * string)) (w : world E) :
  fst (LaterScripts.add_tobacco_to_database E repr lower NAME request w)
  = match dict_get request "brand" with
    | None => Raise (AttributeError "'NoneType' object has no attribute 'lower'")
    | Some brand =>
        match run E later_statement (later_values lower request brand) (disk w) with
        | inr _ => Return None
        | inl (IntegrityError m) =>
            Return (Some (Py.str_tuple repr (later_values lower request brand)
                          ++ " already exists: " ++ m ++ Py.nl))
        | inl e => Raise (SqliteError e)
        end
    end.
Proof.
  change (LaterScripts.add_tobacco_to_database E repr lower NAME request w)
    with (Common.with_ E Later.db_dir
            (bind (LaterScripts.values_of E lower request)
                  (fun values => Later.insert E repr "tobaccos" values
                                   (Some ["brand"; "aroma"; "taste"])))
            (mkWorld (Common.__init__ E NAME) (disk w) (trace w))).
  set (body := bind (LaterScripts.values_of E lower request) _).
  assert (Hsteady : steady body).
  { apply steady_bind; [apply steady_values_of | intros; apply steady_later_insert]. }
  destruct (block_of_steady_body E NAME Later.db_dir body w Hsteady) as (Hfst & _).
  rewrite Hfst. subst body. unfold bind, LaterScripts.values_of.
  destruct (dict_get request "brand") as [brand|]; [|reflexivity].
  unfold ret. cbv beta iota. fold (later_values lower request brand).
  rewrite (later_insert_open E repr (entered Later.db_dir NAME w)
             (mkConnection false false (disk w)) (mkCursor [] (-1))
             eq_refl eq_refl eq_refl).
  change (Later.insert_query "tobaccos" (later_values lower request brand)
            (Some ["brand"; "aroma"; "taste"]))
    with later_statement.
  cbn [view].
  destruct (run E later_statement _ (disk w)) as [[m|m|m]|r]; reflexivity.
Qed.

(** X12.  The POST view of [/api/tobacco/], later variant, for a request
    with a brand: it answers 201 when the engine accepts the insert and 207
    with the conflict text when the engine reports a constraint violation;
    any other error of the store leaves the view as it is.  Without a brand
    the view raises AttributeError. *)
Theorem later_post_status (data : list (string * string)) (w : world E) :
  let view := fst (LaterCore.manage_tobacco E repr lower NAME "POST" data w) in
  (dict_get data "brand" = None ->
     view = Raise (AttributeError "'NoneType' object has no attribute 'lower'"))
  /\ (forall brand, dict_get data "brand" = Some brand ->
        let vals := later_values lower data brand in
        match run E later_statement vals (disk w) with
        | inr _ => view = Return (Some (Response 201 (JStr "Tobacco successfully added")))
        | inl (IntegrityError m) =>
            view = Return (Some (Response 207
                     (JObj [("warning", JStr "Some warnings appeared");
                            ("data", JStr (Py.str_tuple repr vals ++ " already exists: "
                                           ++ m ++ Py.nl))])))
        | inl e => view = Raise (SqliteError e)
        end).
Proof.
  intros view. subst view.
  unfold LaterCore.manage_tobacco. cbn [String.eqb Ascii.eqb Bool.eqb].
  rewrite script_then, later_script_result. split.
  - intros Hb. rewrite Hb. reflexivity.
  - intros brand Hb. rewrite Hb. cbv zeta.
    destruct (run E later_statement (later_values lower data brand) (disk w))
      as [[m|m|m]|r]; reflexivity.
Qed.

End MoreRoutes.

(** * The properties above, on the reference engine *)

Lemma closed_manager_is_left_alone_witness :
  manager_state (Fixtures.idle shop_db) = Closed
  /\ (exists e, Legacy.insert MiniSql.mini "tobaccos" brand_a_text None (Fixtures.idle shop_db)
                = (Raise e, Fixtures.idle shop_db))
  /\ (exists e, Later.update MiniSql.mini "tobaccos" [("aroma", Text "rose")] None
                  (Fixtures.idle shop_db)
                = (Raise e, Fixtures.idle shop_db)).
Proof.
  destruct (closed_manager_is_left_alone MiniSql.mini repr (Fixtures.idle shop_db) eq_refl)
    as (_ & _ & _ & _ & Hinsert & _ & _ & Hupdate & _).
  split; [reflexivity|]. split; [apply Hinsert | apply Hupdate].
Defined.

Lemma fetchone_first_row_or_none_witness :
  connection (self shop) = Some shop_connection
  /\ closed shop_connection = false
  /\ cursor (self shop) = Some shop_cursor
  /\ fst (Legacy.fetchone MiniSql.mini "tobaccos" None None shop)
     = Return (Some [Text "Brand A"; Text "mint"; Text "sweet"; Int 3])
  /\ fst (Legacy.fetchone MiniSql.mini "tobaccos" None (Some "potency = 4") shop)
     = Return None
  /\ fst (Later.fetchone MiniSql.mini "tobaccos" (Some ["mark"; "aroma"])
            (Some ("potency = ?", [Int 5])) shop)
     = Return (Some [Text "Brand B"; Text "rose"]).
Proof.
  split; [reflexivity|]. split; [reflexivity|]. split; [reflexivity|].
  destruct (fetchone_first_row_or_none MiniSql.mini shop shop_connection shop_cursor
              eq_refl eq_refl eq_refl) as (Hlegacy & Hlater & _).
  split; [|split].
  - edestruct (Hlegacy "tobaccos" None None) as (Hout & _); [vm_compute; reflexivity|].
    exact Hout.
  - edestruct (Hlegacy "tobaccos" None (Some "potency = 4")) as (Hout & _);
      [vm_compute; reflexivity|].
    exact Hout.
  - edestruct (Hlater "tobaccos" (Some ["mark"; "aroma"]) "potency = ?" [Int 5])
      as (Hout & _); [vm_compute; reflexivity|].
    exact Hout.
Defined.

Lemma fetchmany_is_a_bounded_prefix_witness :
  connection (self big) = Some big_connection
  /\ closed big_connection = false
  /\ cursor (self big) = Some shop_cursor
  /\ run MiniSql.mini (Legacy.fetchmany_query "tobaccos" None None None) []
       (view big_connection)
     = inr (Sqlite3.mkReply (big_db : db MiniSql.mini) many_rows (-1))
  /\ exists rows,
       fst (Legacy.fetchmany MiniSql.mini "tobaccos" None None None big) = Return rows
       /\ length rows = N.to_nat 10000
       /\ exists rest, many_rows = (rows ++ rest)%list.
Proof.
  assert (Hrun : run MiniSql.mini (Legacy.fetchmany_query "tobaccos" None None None) []
                   (view big_connection)
                 = inr (Sqlite3.mkReply (big_db : db MiniSql.mini) many_rows (-1)))
    by (vm_compute; reflexivity).
  split; [reflexivity|]. split; [reflexivity|]. split; [reflexivity|].
  split; [exact Hrun|].
  destruct (fetchmany_is_a_bounded_prefix MiniSql.mini big big_connection shop_cursor
              eq_refl eq_refl eq_refl "tobaccos" None None None _ Hrun)
    as (rows & Hout & _ & Hlen & _ & Hrest).
  exists rows. split; [exact Hout|]. split; [|exact Hrest].
  rewrite Hlen. vm_compute. reflexivity.
Defined.

Lemma store_errors_propagate_witness :
  connection (self empty_shop) = Some empty_connection
  /\ closed empty_connection = false
  /\ cursor (self empty_shop) = Some shop_cursor
  /\ not_integrity (OperationalError "no such table: tobaccos")
  /\ fst (Legacy.insert MiniSql.mini "tobaccos" brand_a_text None empty_shop)
     = Raise (SqliteError (OperationalError "no such table: tobaccos"))
  /\ fst (Later.insert MiniSql.mini repr "tobaccos" brand_a_values None empty_shop)
     = Raise (SqliteError (OperationalError "no such table: tobaccos"))
  /\ fst (Legacy.update MiniSql.mini "tobaccos" "aroma = 'rose'" None empty_shop)
     = Raise (SqliteError (OperationalError "no such table: tobaccos"))
  /\ disk (snd (Legacy.update MiniSql.mini "tobaccos" "aroma = 'rose'" None empty_shop))
     = disk empty_shop.
Proof.
  split; [reflexivity|]. split; [reflexivity|]. split; [reflexivity|].
  split; [exact I|].
  destruct (store_errors_propagate MiniSql.mini repr empty_shop empty_connection shop_cursor
              eq_refl eq_refl eq_refl (OperationalError "no such table: tobaccos"))
    as (Hlegacy & Hlater & Hupdate).
  split; [|split; [|split]].
  - destruct (Hlegacy "tobaccos" brand_a_text None I) as (Hout & _);
      [vm_compute; reflexivity | exact Hout].
  - destruct (Hlater "tobaccos" brand_a_values None I) as (Hout & _);
      [vm_compute; reflexivity | exact Hout].
  - destruct (Hupdate "tobaccos" "aroma = 'rose'" None) as (Hout & _);
      [vm_compute; reflexivity | exact Hout].
  - destruct (Hupdate "tobaccos" "aroma = 'rose'" None) as (_ & _ & Hdisk & _);
      [vm_compute; reflexivity | exact Hdisk].
Defined.

Lemma reads_leave_the_store_witness :
  connection (self shop) = Some shop_connection
  /\ closed shop_connection = false
  /\ cursor (self shop) = Some shop_cursor
  /\ view shop_connection = disk shop
  /\ same_store (snd (Legacy.fetchmany MiniSql.mini "tobaccos" None None None shop)) shop
  /\ same_store (snd (Later.fetchone MiniSql.mini "nowhere" None None shop)) shop
  /\ commits (trace (snd (Later.fetchall MiniSql.mini "tobaccos" (Some "mark") None None
                            true shop)))
     = commits (trace shop).
Proof.
  split; [reflexivity|]. split; [reflexivity|]. split; [reflexivity|].
  split; [reflexivity|].
  destruct (reads_leave_the_store shop shop_connection shop_cursor
              eq_refl eq_refl eq_refl eq_refl) as (_ & Hmany & Hone & Hall).
  split; [apply Hmany|]. split; [apply Hone | apply Hall].
Defined.

Lemma legacy_add_tobacco_tries_every_entry_witness :
  fst (LegacyScripts.add_tobacco_to_database MiniSql.mini "hookah" Fixtures.potencies
         Fixtures.adalya_entries (Fixtures.idle Fixtures.marks_db))
  = Return [None;
            Some (LegacyScripts.values_text Fixtures.potencies "Adalya" [("flavour", "rose")]
                  ++ " already exists" ++ Py.nl)]
  /\ statements
       (trace (snd (LegacyScripts.add_tobacco_to_database MiniSql.mini "hookah"
                      Fixtures.potencies Fixtures.adalya_entries
                      (Fixtures.idle Fixtures.marks_db))))
     = [legacy_statement Fixtures.potencies
          ("Adalya", [("flavour", "mint"); ("aroma", "sweet")]);
        legacy_statement Fixtures.potencies ("Adalya", [("flavour", "rose")])].
Proof.
  assert (Hout : fst (LegacyScripts.add_tobacco_to_database MiniSql.mini "hookah"
                        Fixtures.potencies Fixtures.adalya_entries
                        (Fixtures.idle Fixtures.marks_db))
                 = Return [None;
                           Some (LegacyScripts.values_text Fixtures.potencies "Adalya"
                                   [("flavour", "rose")]
                                 ++ " already exists" ++ Py.nl)])
    by (vm_compute; reflexivity).
  split; [exact Hout|].
  pose proof (legacy_add_tobacco_tries_every_entry MiniSql.mini "hookah" Fixtures.potencies
                Fixtures.adalya_entries (Fixtures.idle Fixtures.marks_db)) as H.
  cbv zeta in H. destruct H as (_ & Hret & _).
  destruct (Hret _ Hout) as (_ & _ & Hst). exact Hst.
Defined.

Lemma later_add_tobacco_binds_the_request_witness :
  dict_get Fixtures.brandless_request "brand" = None
  /\ fst (LaterScripts.add_tobacco_to_database MiniSql.mini repr Fixtures.lower "hookah"
            Fixtures.brandless_request (Fixtures.idle Fixtures.brands_db))
     = Raise (AttributeError "'NoneType' object has no attribute 'lower'")
  /\ dict_get Fixtures.serbetli_request "brand" = Some "Serbetli"
  /\ statements
       (trace (snd (LaterScripts.add_tobacco_to_database MiniSql.mini repr Fixtures.lower
                      "hookah" Fixtures.serbetli_request (Fixtures.idle Fixtures.brands_db))))
     = [(later_statement, [Text "serbetli"; Text "unknown"; Text "sour"])].
Proof.
  split; [reflexivity|]. split.
  - pose proof (later_add_tobacco_binds_the_request MiniSql.mini repr Fixtures.lower "hookah"
                  Fixtures.brandless_request (Fixtures.idle Fixtures.brands_db)) as H.
    cbv zeta in H. destruct H as (_ & Hnone & _).
    exact (proj1 (Hnone eq_refl)).
  - split; [reflexivity|].
    pose proof (later_add_tobacco_binds_the_request MiniSql.mini repr Fixtures.lower "hookah"
                  Fixtures.serbetli_request (Fixtures.idle Fixtures.brands_db)) as H.
    cbv zeta in H. destruct H as (_ & _ & Hsome).
    exact (proj1 (Hsome "Serbetli" eq_refl)).
Defined.

Lemma legacy_post_status_witness :
  fst (LegacyScripts.add_tobacco_to_database MiniSql.mini "hookah" Fixtures.potencies
         Fixtures.adalya_entries (Fixtures.idle Fixtures.marks_db))
  = Return [None;
            Some (LegacyScripts.values_text Fixtures.potencies "Adalya" [("flavour", "rose")]
                  ++ " already exists" ++ Py.nl)]
  /\ fst (LegacyCore.manage_tobacco MiniSql.mini "hookah" Fixtures.potencies "POST"
            Fixtures.adalya_entries (Fixtures.idle Fixtures.marks_db))
     = Return (Some (Response 207
                       (JObj [("warning", JStr "Some warnings appeared");
                              ("data",
                               JArr [JNull;
                                     JStr (LegacyScripts.values_text Fixtures.potencies
                                             "Adalya" [("flavour", "rose")]
                                           ++ " already exists" ++ Py.nl)])]))).
Proof.
  assert (Hout : fst (LegacyScripts.add_tobacco_to_database MiniSql.mini "hookah"
                        Fixtures.potencies Fixtures.adalya_entries
                        (Fixtures.idle Fixtures.marks_db))
                 = Return [None;
                           Some (LegacyScripts.values_text Fixtures.potencies "Adalya"
                                   [("flavour", "rose")]
                                 ++ " already exists" ++ Py.nl)])
    by (vm_compute; reflexivity).
  split; [exact Hout|].
  pose proof (legacy_post_status MiniSql.mini "hookah" Fixtures.potencies
                Fixtures.adalya_entries (Fixtures.idle Fixtures.marks_db)) as H.
  cbv zeta in H. destruct H as (Hret & _ & _).
  exact (f_equal fst (Hret _ Hout)).
Defined.

Lemma later_post_status_witness :
  dict_get Fixtures.brandless_request "brand" = None
  /\ fst (LaterCore.manage_tobacco MiniSql.mini repr Fixtures.lower "hookah" "POST"
            Fixtures.brandless_request (Fixtures.idle Fixtures.brands_db))
     = Raise (AttributeError "'NoneType' object has no attribute 'lower'").
Proof.
  split; [reflexivity|].
  pose proof (later_post_status MiniSql.mini repr Fixtures.lower "hookah"
                Fixtures.brandless_request (Fixtures.idle Fixtures.brands_db)) as H.
  cbv zeta in H. destruct H as (Hnone & _).
  exact (Hnone eq_refl).
Defined.

(** * The brands *)

Section Brands.

Variable E : engine.

Variable NAME : string.

Lemma first_columns_keys (data : list row) :
  Forall (fun r => r <> []) data -> first_columns data = Some (map key_of data).
Proof.
  induction 1 as [|r data Hr _ IH]; [reflexivity|].
  cbn [first_columns map]. rewrite IH.
  destruct r as [|v r]; [contradiction|]. reflexivity.
Qed.

(** X13.  The later [get_all_brands], from any state: it sends the one
    statement [SELECT DISTINCT brand FROM tobaccos ] with nothing bound and
    closes its connection; an error of the store leaves it as it is;
    otherwise it returns the first column of every row of the answer, no
    row left out.  The view [/api/tobacco/brands] aborts with 404 exactly
    when the answer has no row, and responds 200 with the list otherwise. *)
Theorem get_all_brands_reads_first_columns (w : world E) :
  let q := "SELECT DISTINCT brand FROM tobaccos " in
  let out := LaterScripts.get_all_brands E NAME w in
  let view := fst (LaterCore.get_all_brands_from_db E NAME w) in
  manager_state (snd out) = Closed
  /\ statements (trace (snd out)) = (statements (trace w) ++ [(q, [])])%list
  /\ match run E q [] (disk w) with
     | inl e => fst out = Raise (SqliteError e) /\ view = Raise (SqliteError e)
     | inr r =>
         fst out = Return (first_columns (result_set r))
         /\ (Forall (fun r => r <> []) (result_set r) ->
             fst out = Return (Some (map key_of (result_set r)))
             /\ view
                = Return
                    (Some (match result_set r with
                           | [] => Abort 404 "Empty table 'BRANDS'"
                           | _ :: _ =>
                               Response 200
                                 (JArr (map json_of_value (map key_of (result_set r))))
                           end)))
     end.
Proof.
  intros q out view. subst out view.
  unfold LaterCore.get_all_brands_from_db. rewrite script_then.
  change (LaterScripts.get_all_brands E NAME w)
    with (Common.with_ E Later.db_dir
            (bind (Later.fetchall E "tobaccos" (Some "brand") None None true)
                  (fun data => ret (first_columns data)))
            (mkWorld (Common.__init__ E NAME) (disk w) (trace w))).
  set (body := bind (Later.fetchall E "tobaccos" (Some "brand") None None true) _).
  assert (Hsteady : steady body).
  { apply steady_bind; [apply steady_later_fetchall | intros; apply steady_ret]. }
  destruct (block_of_steady_body E NAME Later.db_dir body w Hsteady)
    as (Hfst & _ & Htr & Hcl).
  split; [exact Hcl|]. rewrite Hfst, Htr, statements_app.
  cbn [statements]. rewrite app_nil_r. clear Hfst Htr Hcl Hsteady.
  subst body. unfold bind at 1 2 3. unfold Later.fetchall, Later.execute, bind.
  rewrite (execute_open E (entered Later.db_dir NAME w) _ []
             (mkConnection false false (disk w)) (mkCursor [] (-1))
             eq_refl eq_refl eq_refl).
  change (Later.fetchall_query "tobaccos" (Some "brand") None None true) with q.
  cbn [view].
  destruct (run E q [] (disk w)) as [e|r].
  - cbn [fst snd failed trace entered]. rewrite !statements_app. cbn [statements].
    rewrite app_nil_r. repeat split.
  - unfold cursor_fetchall, cursor_fetch, ran, ret.
    cbn [self cursor connection closed pending fst snd trace disk entered].
    rewrite !statements_app. cbn [statements].
    rewrite app_nil_r. split; [reflexivity|]. split; [reflexivity|].
    intros Hrows. rewrite (first_columns_keys _ Hrows). split; [reflexivity|].
    destruct (result_set r); reflexivity.
Qed.

End Brands.

(** * The later scripts on the reference engine *)

Module MiniBrands.
Import MiniSql MiniFacts.

Lemma value_eqb_text (x : value) (k : string) : value_eqb x (Text k) = true <-> x = Text k.
Proof.
  destruct x as [|n|s]; simpl; split; try discriminate.
  - intros H. apply String.eqb_eq in H. subst. reflexivity.
  - intros H. injection H as ->. apply String.eqb_refl.
Qed.

Lemma existsb_text (l : list value) (k : string) :
  existsb (fun x => value_eqb x (Text k)) l = true <-> In (Text k) l.
Proof.
  rewrite existsb_exists. split.
  - intros (x & Hin & Hx). apply value_eqb_text in Hx. subst. exact Hin.
  - intros Hin. exists (Text k). split; [exact Hin | apply value_eqb_text; reflexivity].
Qed.

Lemma distinct_snoc (l : list value) (v : value) :
  distinct_values (l ++ [v])
  = distinct_values l && negb (existsb (fun x => value_eqb x v) l).
Proof.
  induction l as [|x l IH]; [reflexivity|].
  cbn [app distinct_values existsb]. rewrite existsb_app, IH. cbn [existsb].
  rewrite orb_false_r.
  destruct (existsb (value_eqb x) l), (value_eqb x v), (distinct_values l),
    (existsb (fun x0 => value_eqb x0 v) l); reflexivity.
Qed.

Lemma unique_ok_brands (rs : list row) :
  unique_ok brand_columns rs = distinct_values (map key_of rs).
Proof.
  unfold unique_ok.
  cbn [brand_columns length seq forallb nth col_unique negb orb].
  rewrite andb_true_r. reflexivity.
Qed.

Lemma lookup_store_other (t t' : string) (tb : table) (d : database) :
  t' <> t -> lookup t' (store t tb d) = lookup t' d.
Proof.
  intros Hne. induction d as [|[n old] d IH]; simpl.
  - destruct (t =? t') eqn:Heq; [|reflexivity].
    apply String.eqb_eq in Heq. congruence.
  - destruct (n =? t) eqn:Hnt; simpl.
    + apply String.eqb_eq in Hnt. subst n.
      destruct (t =? t') eqn:Heq; [|reflexivity].
      apply String.eqb_eq in Heq. congruence.
    + rewrite IH. reflexivity.
Qed.

(** The statement of the later script on a table of brands: the new row goes
    to the end when its brand is new, and the statement is refused
    otherwise. *)
Lemma run_later_insert (d : database) (rs : list row) (k a t : value) :
  lookup "tobaccos" d = Some (mkTable brand_columns rs) ->
  run later_statement [k; a; t] d
  = if distinct_values (map key_of rs ++ [k])
    then inr (mkReply (store "tobaccos" (mkTable brand_columns (rs ++ [[k; a; t]])) d) [] 1)
    else inl (unique_failed "tobaccos" "brand").
Proof.
  intros Hl.
  assert (Hparse : match lex later_statement with
                    | Some toks => parse toks
                    | None => None
                    end
                    = Some (SInsert "tobaccos" (Some ["brand"; "aroma"; "taste"])
                              [EParam; EParam; EParam]))
    by (vm_compute; reflexivity).
  revert Hparse. unfold run.
  destruct (lex later_statement) as [toks|]; intros Hparse; [|discriminate].
  rewrite Hparse.
  cbn [exec bind_exprs option_map]. unfold exec_insert. rewrite Hl.
  cbn [columns rows].
  change (forallb (known brand_columns) ["brand"; "aroma"; "taste"]
          && (length [k; a; t] =? length ["brand"; "aroma"; "taste"])%nat) with true.
  cbv iota.
  change (assign brand_columns (combine ["brand"; "aroma"; "taste"] [k; a; t])
            (repeat Null (length brand_columns))) with [k; a; t].
  rewrite unique_ok_brands. unfold unique_culprit.
  cbn [brand_columns length seq find nth col_unique col_name andb null_in
       col_not_null is_null].
  rewrite map_app. cbn [map key_of nth].
  match goal with
  | |- context [negb (distinct_values ?m)] =>
      replace m with (map key_of rs ++ [k])%list by (rewrite map_app; reflexivity)
  end.
  destruct (distinct_values (map key_of rs ++ [k])); reflexivity.
Qed.

Lemma same_value_eq (a b : value) : same_value a b = true <-> a = b.
Proof.
  destruct a as [|x|x], b as [|y|y]; simpl; split; try discriminate; try reflexivity.
  - intros H. apply Z.eqb_eq in H. subst. reflexivity.
  - intros H. injection H as ->. apply Z.eqb_refl.
  - intros H. apply String.eqb_eq in H. subst. reflexivity.
  - intros H. injection H as ->. apply String.eqb_refl.
Qed.

Lemma same_row_eq (a b : row) : same_row a b = true <-> a = b.
Proof.
  revert b. induction a as [|x a IH]; intros [|y b]; simpl; split;
    try discriminate; try reflexivity.
  - intros H. apply andb_true_iff in H. destruct H as (Hx & Ha).
    apply same_value_eq in Hx. apply IH in Ha. subst. reflexivity.
  - intros H. injection H as -> ->. apply andb_true_iff. split.
    + apply same_value_eq. reflexivity.
    + apply IH. reflexivity.
Qed.

Lemma in_dedupe (rs : list row) (r : row) : In r (dedupe rs) <-> In r rs.
Proof.
  induction rs as [|x rs IH]; [reflexivity|]. cbn [dedupe]. split.
  - intros [->|Hin]; [left; reflexivity|].
    apply filter_In in Hin. right. apply IH. exact (proj1 Hin).
  - intros [->|Hin]; [left; reflexivity|].
    destruct (same_row x r) eqn:Hs.
    + left. apply same_row_eq. exact Hs.
    + right. apply filter_In. split; [apply IH; exact Hin|]. rewrite Hs. reflexivity.
Qed.

Lemma nodup_dedupe (rs : list row) : NoDup (dedupe rs).
Proof.
  induction rs as [|x rs IH]; [constructor|]. cbn [dedupe]. constructor.
  - intros Hin. apply filter_In in Hin. destruct Hin as (_ & Hs).
    rewrite (proj2 (same_row_eq x x) eq_refl) in Hs. discriminate.
  - apply NoDup_filter. exact IH.
Qed.

End MiniBrands.

Section LaterScriptsOnTheReferenceEngine.

Variable repr : value -> string.

Variable lower : string -> string.

Variable NAME : string.

Lemma later_script_file (E : engine) (request : list (string * string)) (w : world E) :
  disk (snd (LaterScripts.add_tobacco_to_database E repr lower NAME request w))
  = match dict_get request "brand" with
    | None => disk w
    | Some brand =>
        match run E later_statement (later_values lower request brand) (disk w) with
        | inr r => new_db r
        | inl _ => disk w
        end
    end.
Proof.
  change (LaterScripts.add_tobacco_to_database E repr lower NAME request w)
    with (Common.with_ E Later.db_dir
            (bind (LaterScripts.values_of E lower request)
                  (fun values => Later.insert E repr "tobaccos" values
                                   (Some ["brand"; "aroma"; "taste"])))
            (mkWorld (Common.__init__ E NAME) (disk w) (trace w))).
  set (body := bind (LaterScripts.values_of E lower request) _).
  assert (Hsteady : steady body).
  { apply steady_bind; [apply steady_values_of | intros; apply steady_later_insert]. }
  destruct (block_of_steady_body E NAME Later.db_dir body w Hsteady) as (_ & Hdisk & _).
  rewrite Hdisk. subst body. unfold bind, LaterScripts.values_of.
  destruct (dict_get request "brand") as [brand|]; [|reflexivity].
  unfold ret. cbv beta iota. fold (later_values lower request brand).
  rewrite (later_insert_open E repr (entered Later.db_dir NAME w)
             (mkConnection false false (disk w)) (mkCursor [] (-1))
             eq_refl eq_refl eq_refl).
  change (Later.insert_query "tobaccos" (later_values lower request brand)
            (Some ["brand"; "aroma"; "taste"]))
    with later_statement.
  cbn [view].
  destruct (run E later_statement _ (disk w)) as [[m|m|m]|r]; reflexivity.
Qed.

(** The script on a table of brands that holds the request's brand. *)
Lemma later_script_known_brand (request : list (string * string)) (brand : string)
  (w : world MiniSql.mini) (rs : list row) :
  dict_get request "brand" = Some brand ->
  MiniSql.lookup "tobaccos" (disk w) = Some (MiniSql.mkTable brand_columns rs) ->
  In (Text (lower brand)) (map key_of rs) ->
  (exists s, fst (LaterScripts.add_tobacco_to_database MiniSql.mini repr lower NAME request w)
             = Return (Some s))
  /\ disk (snd (LaterScripts.add_tobacco_to_database MiniSql.mini repr lower NAME request w))
     = disk w.
Proof.
  intros Hb Hl Hin.
  assert (Hrun : run MiniSql.mini later_statement (later_values lower request brand) (disk w)
                 = inl (MiniSql.unique_failed "tobaccos" "brand")).
  { unfold later_values.
    refine (eq_trans (MiniBrands.run_later_insert (disk w) rs _ _ _ Hl) _).
    rewrite MiniBrands.distinct_snoc.
    rewrite (proj2 (MiniBrands.existsb_text _ _) Hin), andb_false_r. reflexivity. }
  rewrite later_script_result, later_script_file, Hb, Hrun. split; [|reflexivity].
  eexists. reflexivity.
Qed.

(** X14.  The later [add_tobacco_to_database] on the reference engine, with
    a table of brands whose first column is unique.  A request whose
    lowered brand the table holds is answered with a conflict text and the
    file stays as it was.  A request with a new brand returns [None]; the
    file then holds the old rows followed by the new one, the other tables
    are untouched, and the same request sent again is a conflict that
    changes nothing. *)
Theorem later_add_tobacco_round_trip (request : list (string * string)) (brand : string)
  (w : world MiniSql.mini) (rs : list row) :
  dict_get request "brand" = Some brand ->
  MiniSql.lookup "tobaccos" (disk w) = Some (MiniSql.mkTable brand_columns rs) ->
  let add := LaterScripts.add_tobacco_to_database MiniSql.mini repr lower NAME request in
  (In (Text (lower brand)) (map key_of rs) ->
     (exists s, fst (add w) = Return (Some s)) /\ disk (snd (add w)) = disk w)
  /\ (MiniSql.distinct_values (map key_of rs) = true ->
      ~ In (Text (lower brand)) (map key_of rs) ->
      fst (add w) = Return None
      /\ MiniSql.table_rows (disk (snd (add w))) "tobaccos"
         = (rs ++ [later_values lower request brand])%list
      /\ (forall t, t <> "tobaccos" ->
            MiniSql.table_rows (disk (snd (add w))) t = MiniSql.table_rows (disk w) t)
      /\ (exists s, fst (add (snd (add w))) = Return (Some s))
      /\ disk (snd (add (snd (add w)))) = disk (snd (add w))).
Proof.
  intros Hb Hl add. subst add. split.
  - intros Hin. exact (later_script_known_brand request brand w rs Hb Hl Hin).
  - intros Hdist Hnew.
    assert (Hrun : run MiniSql.mini later_statement (later_values lower request brand)
                     (disk w)
                   = inr (mkReply
                            (MiniSql.store "tobaccos"
                               (MiniSql.mkTable brand_columns
                                  (rs ++ [later_values lower request brand])) (disk w))
                            [] 1)).
    { unfold later_values.
      refine (eq_trans (MiniBrands.run_later_insert (disk w) rs _ _ _ Hl) _).
      rewrite MiniBrands.distinct_snoc, Hdist.
      destruct (existsb _ _) eqn:Hex; [|reflexivity].
      apply MiniBrands.existsb_text in Hex. contradiction. }
    assert (Hdisk : disk (snd (LaterScripts.add_tobacco_to_database MiniSql.mini repr lower
                                 NAME request w))
                    = MiniSql.store "tobaccos"
                        (MiniSql.mkTable brand_columns
                           (rs ++ [later_values lower request brand])) (disk w)).
    { rewrite later_script_file, Hb, Hrun. reflexivity. }
    assert (Hl2 : MiniSql.lookup "tobaccos"
                    (disk (snd (LaterScripts.add_tobacco_to_database MiniSql.mini repr lower
                                  NAME request w)))
                  = Some (MiniSql.mkTable brand_columns
                            (rs ++ [later_values lower request brand]))).
    { rewrite Hdisk. exact (MiniFacts.lookup_store _ _ _ _ Hl). }
    split; [rewrite later_script_result, Hb, Hrun; reflexivity|].
    split; [unfold MiniSql.table_rows; rewrite Hl2; reflexivity|].
    split.
    + intros t Ht. unfold MiniSql.table_rows. rewrite Hdisk.
      rewrite MiniBrands.lookup_store_other by exact Ht. reflexivity.
    + apply (later_script_known_brand request brand _ _ Hb Hl2).
      rewrite map_app. apply in_or_app. right. left. reflexivity.
Qed.

Lemma filter_all {A : Type} (f : A -> bool) (l : list A) :
  (forall x, f x = true) -> filter f l = l.
Proof.
  intros Hf. induction l as [|x l IH]; [reflexivity|].
  simpl. rewrite Hf, IH. reflexivity.
Qed.

Lemma run_select_brands (d : MiniSql.database) (rs : list row) :
  MiniSql.lookup "tobaccos" d = Some (MiniSql.mkTable brand_columns rs) ->
  run MiniSql.mini "SELECT DISTINCT brand FROM tobaccos " [] d
  = inr (mkReply d (MiniSql.dedupe (map (fun r => [key_of r]) rs)) (-1)).
Proof.
  intros Hl.
  assert (Hparse : match MiniSql.lex "SELECT DISTINCT brand FROM tobaccos " with
                    | Some toks => MiniSql.parse toks
                    | None => None
                    end
                    = Some (MiniSql.SSelect true (Some ["brand"]) "tobaccos" []))
    by (vm_compute; reflexivity).
  revert Hparse. change (run MiniSql.mini) with MiniSql.run. unfold MiniSql.run.
  destruct (MiniSql.lex "SELECT DISTINCT brand FROM tobaccos ") as [toks|];
    intros Hparse; [|discriminate].
  rewrite Hparse.
  cbn [MiniSql.exec MiniSql.bind_pairs]. unfold MiniSql.exec_select. rewrite Hl.
  cbn [MiniSql.columns MiniSql.rows map fst forallb andb].
  change (forallb (MiniSql.known brand_columns) ["brand"]) with true. cbv iota.
  rewrite filter_all by reflexivity. reflexivity.
Qed.

Lemma get_all_brands_result (E : engine) (w : world E) (r : reply (db E)) :
  run E "SELECT DISTINCT brand FROM tobaccos " [] (disk w) = inr r ->
  fst (LaterScripts.get_all_brands E NAME w) = Return (first_columns (result_set r))
  /\ disk (snd (LaterScripts.get_all_brands E NAME w)) = new_db r.
Proof.
  intros Hr.
  change (LaterScripts.get_all_brands E NAME w)
    with (Common.with_ E Later.db_dir
            (bind (Later.fetchall E "tobaccos" (Some "brand") None None true)
                  (fun data => ret (first_columns data)))
            (mkWorld (Common.__init__ E NAME) (disk w) (trace w))).
  set (body := bind (Later.fetchall E "tobaccos" (Some "brand") None None true) _).
  assert (Hsteady : steady body).
  { apply steady_bind; [apply steady_later_fetchall | intros; apply steady_ret]. }
  destruct (block_of_steady_body E NAME Later.db_dir body w Hsteady)
    as (Hfst & Hdisk & _).
  rewrite Hfst, Hdisk. clear Hfst Hdisk Hsteady.
  subst body. unfold bind at 1 2. unfold Later.fetchall, Later.execute, bind.
  rewrite (execute_open E (entered Later.db_dir NAME w) _ []
             (mkConnection false false (disk w)) (mkCursor [] (-1))
             eq_refl eq_refl eq_refl).
  change (Later.fetchall_query "tobaccos" (Some "brand") None None true)
    with "SELECT DISTINCT brand FROM tobaccos ".
  cbn [view]. rewrite Hr.
  unfold cursor_fetchall, cursor_fetch, ran, ret.
  cbn [self cursor connection closed pending fst snd trace disk entered].
  split; reflexivity.
Qed.

(** X15.  The later [get_all_brands] on the reference engine, with a table
    of brands: it returns every brand of the table, each one once, and
    leaves the file as it was.  The view [/api/tobacco/brands] aborts with
    404 when the table has no row and responds 200 with that list
    otherwise. *)
Theorem get_all_brands_lists_each_brand_once (w : world MiniSql.mini) (rs : list row) :
  MiniSql.lookup "tobaccos" (disk w) = Some (MiniSql.mkTable brand_columns rs) ->
  exists l,
    fst (LaterScripts.get_all_brands MiniSql.mini NAME w) = Return (Some l)
    /\ NoDup l
    /\ (forall v, In v l <-> In v (map key_of rs))
    /\ disk (snd (LaterScripts.get_all_brands MiniSql.mini NAME w)) = disk w
    /\ fst (LaterCore.get_all_brands_from_db MiniSql.mini NAME w)
       = Return (Some (match rs with
                       | [] => Abort 404 "Empty table 'BRANDS'"
                       | _ :: _ => Response 200 (JArr (map json_of_value l))
                       end)).
Proof.
  intros Hl.
  pose proof (run_select_brands (disk w) rs Hl) as Hrun.
  destruct (get_all_brands_result MiniSql.mini w _ Hrun) as (Hfst & Hdisk).
  cbn [result_set new_db] in Hfst, Hdisk.
  set (found := MiniSql.dedupe (map (fun r => [key_of r]) rs)) in *.
  assert (Hshape : forall r, In r found -> exists x, In x rs /\ r = [key_of x]).
  { intros r Hin. unfold found in Hin.
    apply (proj1 (MiniBrands.in_dedupe _ r)) in Hin. apply in_map_iff in Hin.
    destruct Hin as (x & <- & Hx). exists x. split; [exact Hx | reflexivity]. }
  assert (Hkeys : first_columns found = Some (map key_of found)).
  { apply first_columns_keys. apply Forall_forall. intros r Hin.
    destruct (Hshape r Hin) as (x & _ & ->). discriminate. }
  rewrite Hkeys in Hfst.
  exists (map key_of found). split; [exact Hfst|]. split; [|split; [|split]].
  - apply NoDup_map_NoDup_ForallPairs; [|apply MiniBrands.nodup_dedupe].
    intros a b Ha Hb Heq.
    destruct (Hshape a Ha) as (x & _ & ->). destruct (Hshape b Hb) as (y & _ & ->).
    cbn [key_of nth] in Heq. rewrite Heq. reflexivity.
  - intros v. split.
    + intros Hin. apply in_map_iff in Hin. destruct Hin as (r & <- & Hr).
      destruct (Hshape r Hr) as (x & Hx & ->). apply in_map_iff. exists x.
      split; [reflexivity | exact Hx].
    + intros Hin. apply in_map_iff in Hin. destruct Hin as (x & <- & Hx).
      apply in_map_iff. exists [key_of x]. split; [reflexivity|].
      apply (proj2 (MiniBrands.in_dedupe _ _)). apply in_map_iff. exists x.
      split; [reflexivity | exact Hx].
  - exact Hdisk.
  - unfold LaterCore.get_all_brands_from_db. rewrite script_then, Hfst.
    destruct rs as [|x rs]; reflexivity.
Qed.

End LaterScriptsOnTheReferenceEngine.

(** * The brands, on the reference engine *)

Lemma get_all_brands_reads_first_columns_witness :
  Forall (fun r : row => r <> []) [[Text "adalya"]; [Text "fumari"]]
  /\ fst (LaterScripts.get_all_brands MiniSql.mini "hookah" (Fixtures.idle Fixtures.brands_db))
     = Return (Some [Text "adalya"; Text "fumari"])
  /\ fst (LaterCore.get_all_brands_from_db MiniSql.mini "hookah"
            (Fixtures.idle Fixtures.brands_db))
     = Return (Some (Response 200 (JArr [JStr "adalya"; JStr "fumari"]))).
Proof.
  assert (Hrows : Forall (fun r : row => r <> []) [[Text "adalya"]; [Text "fumari"]])
    by (repeat constructor; discriminate).
  split; [exact Hrows|].
  assert (Hrun : run MiniSql.mini "SELECT DISTINCT brand FROM tobaccos " []
                   (disk (Fixtures.idle Fixtures.brands_db))
                 = inr (Sqlite3.mkReply (Fixtures.brands_db : db MiniSql.mini)
                          [[Text "adalya"]; [Text "fumari"]] (-1)))
    by (vm_compute; reflexivity).
  pose proof (get_all_brands_reads_first_columns MiniSql.mini "hookah"
                (Fixtures.idle Fixtures.brands_db)) as H.
  cbv zeta in H. destruct H as (_ & _ & H). rewrite Hrun in H.
  destruct H as (_ & H). exact (H Hrows).
Defined.

Lemma later_add_tobacco_round_trip_witness :
  dict_get Fixtures.serbetli_request "brand" = Some "Serbetli"
  /\ MiniSql.lookup "tobaccos" (disk (Fixtures.idle Fixtures.brands_db))
     = Some (MiniSql.mkTable brand_columns Fixtures.brands)
  /\ MiniSql.distinct_values (map key_of Fixtures.brands) = true
  /\ ~ In (Text (Fixtures.lower "Serbetli")) (map key_of Fixtures.brands)
  /\ fst (LaterScripts.add_tobacco_to_database MiniSql.mini repr Fixtures.lower "hookah"
            Fixtures.serbetli_request (Fixtures.idle Fixtures.brands_db))
     = Return None
  /\ MiniSql.table_rows
       (disk (snd (LaterScripts.add_tobacco_to_database MiniSql.mini repr Fixtures.lower
                     "hookah" Fixtures.serbetli_request (Fixtures.idle Fixtures.brands_db))))
       "tobaccos"
     = [[Text "adalya"; Text "mint"; Text "sweet"];
        [Text "fumari"; Text "rose"; Text "sour"];
        [Text "serbetli"; Text "unknown"; Text "sour"]].
Proof.
  assert (Hnew : ~ In (Text (Fixtures.lower "Serbetli")) (map key_of Fixtures.brands)).
  { intros [H|[H|[]]]; discriminate H. }
  split; [reflexivity|]. split; [reflexivity|]. split; [reflexivity|].
  split; [exact Hnew|].
  pose proof (later_add_tobacco_round_trip repr Fixtures.lower "hookah"
                Fixtures.serbetli_request "Serbetli" (Fixtures.idle Fixtures.brands_db)
                Fixtures.brands eq_refl eq_refl) as H.
  cbv zeta in H. destruct H as (_ & H).
  destruct (H eq_refl Hnew) as (Hout & Hrows & _).
  split; [exact Hout | exact Hrows].
Defined.

Lemma get_all_brands_lists_each_brand_once_witness :
  MiniSql.lookup "tobaccos" (disk (Fixtures.idle Fixtures.brands_db))
  = Some (MiniSql.mkTable brand_columns Fixtures.brands)
  /\ exists l,
       fst (LaterScripts.get_all_brands MiniSql.mini "hookah"
              (Fixtures.idle Fixtures.brands_db)) = Return (Some l)
       /\ NoDup l
       /\ In (Text "fumari") l.
Proof.
  split; [reflexivity|].
  destruct (get_all_brands_lists_each_brand_once "hookah" (Fixtures.idle Fixtures.brands_db)
              Fixtures.brands eq_refl) as (l & Hout & Hnodup & Hmem & _).
  exists l. split; [exact Hout|]. split; [exact Hnodup|].
  apply Hmem. right. left. reflexivity.
Defined.
